(** * Domain expiration monitor: scheduler, refresh pipeline and alert engine

    A shallow embedding of the Go packages [domain], [repository], [alert],
    [whois], [scheduler] and of the handlers of [web] that change the
    configuration and add or delete a domain.

    Stateful code is written in a state monad over a [World] that holds the
    three database tables, the scheduler's timer registry, and the
    environment the code talks to (clock, database driver, resolver,
    webhook), each as the list of answers it is going to give.  The
    interactions the statements speak about are recorded in a trace. *)

From Stdlib Require Import ZArith List Bool Lia Ascii String.
From Stdlib Require Import Floats.SpecFloat.
From stdpp Require Import base gmap strings list.

Open Scope Z_scope.

(* ===================================================================== *)
(** ** Integers and strings of the Go runtime *)
(* ===================================================================== *)

(** Two's complement wrap-around of a 64-bit signed integer. *)
Definition wrap64 (z : Z) : Z := (z + 2 ^ 63) mod 2 ^ 64 - 2 ^ 63.

Definition maxInt64 : Z := 2 ^ 63 - 1.
Definition minInt64 : Z := - 2 ^ 63.

Definition string_of_bytes (l : list Z) : string :=
  fold_right (fun b s => String (ascii_of_N (Z.to_N b)) s) EmptyString l.

Definition nl : string := string_of_bytes [10].

Definition digit_char (d : Z) : ascii := ascii_of_N (Z.to_N (48 + d)).

Fixpoint digits_of (fuel : nat) (n : Z) (acc : string) : string :=
  match fuel with
  | O => acc
  | S fuel' =>
      let acc' := String (digit_char (n mod 10)) acc in
      if n / 10 =? 0 then acc' else digits_of fuel' (n / 10) acc'
  end.

(** [%d] of a Go integer: decimal digits, a minus sign when negative. *)
Definition itoa (z : Z) : string :=
  let ds := digits_of (S (Z.to_nat (Z.log2 (Z.abs z)))) (Z.abs z) EmptyString in
  if z <? 0 then String "-"%char ds else ds.

(** [n] zeros in front of [s]. *)
Fixpoint pad_zeros (n : nat) (s : string) : string :=
  match n with
  | O => s
  | S n' => String "0"%char (pad_zeros n' s)
  end.

(** The digits [s] padded with zeros to [width], as [appendInt] of
    package time pads them. *)
Definition zero_pad (width : nat) (s : string) : string :=
  pad_zeros (width - String.length s)%nat s.

(** [strings.HasPrefix]. *)
Fixpoint HasPrefix (s p : string) : bool :=
  match p, s with
  | EmptyString, _ => true
  | String c p', String d s' => if Ascii.eqb c d then HasPrefix s' p' else false
  | String _ _, EmptyString => false
  end.

(* ===================================================================== *)
(** ** Packages unicode/utf8 and unicode *)
(* ===================================================================== *)

Definition byte_of (c : ascii) : Z := Z.of_N (N_of_ascii c).

(** [s[i]], 0 when [i] is out of range. *)
Definition byte_at (s : string) (i : Z) : Z :=
  match String.get (Z.to_nat i) s with
  | Some c => byte_of c
  | None => 0
  end.

(** [s[n:]] *)
Fixpoint string_drop (n : nat) (s : string) : string :=
  match n, s with
  | O, _ => s
  | S n', String _ s' => string_drop n' s'
  | S _, EmptyString => EmptyString
  end.

Definition RuneError : Z := 65533.

(** A continuation byte, [10xxxxxx]. *)
Definition is_cont (b : Z) : bool := (128 <=? b) && (b <=? 191).

(** [utf8.RuneStart]: [b&0xC0 != 0x80]. *)
Definition RuneStart (b : Z) : bool := negb (is_cont b).

(** [utf8.DecodeRuneInString]: the first rune of [s] and its width in
    bytes; [(RuneError, 0)] for the empty string and [(RuneError, 1)] for
    an encoding that is invalid, too short, not the shortest one, a
    surrogate or out of range. *)
Definition DecodeRuneInString (s : string) : Z * nat :=
  match s with
  | EmptyString => (RuneError, 0%nat)
  | String c0 s1 =>
      let b0 := byte_of c0 in
      if b0 <? 128 then (b0, 1%nat)
      else if (194 <=? b0) && (b0 <=? 223) then
        match s1 with
        | String c1 _ =>
            let b1 := byte_of c1 in
            if is_cont b1 then ((b0 - 192) * 64 + (b1 - 128), 2%nat)
            else (RuneError, 1%nat)
        | _ => (RuneError, 1%nat)
        end
      else if (224 <=? b0) && (b0 <=? 239) then
        match s1 with
        | String c1 (String c2 _) =>
            let b1 := byte_of c1 in
            let b2 := byte_of c2 in
            let lo := if b0 =? 224 then 160 else 128 in
            let hi := if b0 =? 237 then 159 else 191 in
            if (lo <=? b1) && (b1 <=? hi) && is_cont b2
            then ((b0 - 224) * 4096 + (b1 - 128) * 64 + (b2 - 128), 3%nat)
            else (RuneError, 1%nat)
        | _ => (RuneError, 1%nat)
        end
      else if (240 <=? b0) && (b0 <=? 244) then
        match s1 with
        | String c1 (String c2 (String c3 _)) =>
            let b1 := byte_of c1 in
            let b2 := byte_of c2 in
            let b3 := byte_of c3 in
            let lo := if b0 =? 240 then 144 else 128 in
            let hi := if b0 =? 244 then 143 else 191 in
            if (lo <=? b1) && (b1 <=? hi) && is_cont b2 && is_cont b3
            then ((b0 - 240) * 262144 + (b1 - 128) * 4096 + (b2 - 128) * 64 + (b3 - 128),
                  4%nat)
            else (RuneError, 1%nat)
        | _ => (RuneError, 1%nat)
        end
      else (RuneError, 1%nat)
  end.

(** The loop of [DecodeLastRuneInString] that looks for the start of the
    last rune: [for start--; start >= lim; start-- { if RuneStart(s[start]) { break } }],
    entered here after the first [start--]. *)
Fixpoint find_rune_start (fuel : nat) (s : string) (start lim : Z) : Z :=
  match fuel with
  | O => start
  | S fuel' =>
      if start <? lim then start
      else if RuneStart (byte_at s start) then start
      else find_rune_start fuel' s (start - 1) lim
  end.

(** [utf8.DecodeLastRuneInString]: the last rune of [s] and its width. *)
Definition DecodeLastRuneInString (s : string) : Z * nat :=
  let end_ := Z.of_nat (String.length s) in
  if end_ =? 0 then (RuneError, 0%nat)
  else
    let start := end_ - 1 in
    let r := byte_at s start in
    if r <? 128 then (r, 1%nat)
    else
      let lim := Z.max 0 (end_ - 4) in
      let start := find_rune_start 4 s (start - 1) lim in
      let start := Z.max 0 start in
      let '(r, size) := DecodeRuneInString (string_drop (Z.to_nat start) s) in
      if start + Z.of_nat size =? end_ then (r, size) else (RuneError, 1%nat).

(** [unicode.IsSpace]: the runes with the property White_Space.  The
    table [space] of package fmt lists the same runes. *)
Definition IsSpace (r : Z) : bool :=
  ((9 <=? r) && (r <=? 13)) || (r =? 32) || (r =? 133) || (r =? 160) || (r =? 5760)
  || ((8192 <=? r) && (r <=? 8202)) || (r =? 8232) || (r =? 8233) || (r =? 8239)
  || (r =? 8287) || (r =? 12288).

(* ===================================================================== *)
(** ** Package time *)
(* ===================================================================== *)

(** [time.Duration]: an int64 count of nanoseconds. *)
Definition Duration : Type := Z.

Definition Nanosecond : Duration := 1.
Definition Second : Duration := 1000000000.
Definition Minute : Duration := 60 * Second.
Definition Hour : Duration := 60 * Minute.

(** [time.Time]: the instant (nanoseconds since the Unix epoch) and the
    offset, in seconds east of UTC, of the location the value carries. *)
Record Time := mkTime { unixNano : Z; zoneOffset : Z }.

#[global] Instance Time_eq_dec : EqDecision Time.
Proof. solve_decision. Defined.

Definition saturate64 (z : Z) : Duration :=
  if z <? minInt64 then minInt64 else if maxInt64 <? z then maxInt64 else z.

(** [t.Sub(u)]: the difference, clamped to the range of a Duration. *)
Definition Time_Sub (t u : Time) : Duration := saturate64 (unixNano t - unixNano u).

Definition Time_Add (t : Time) (d : Duration) : Time :=
  mkTime (unixNano t + d) (zoneOffset t).

Definition Time_Before (t u : Time) : bool := unixNano t <? unixNano u.
Definition Time_After (t u : Time) : bool := unixNano u <? unixNano t.

(** *** Floating point: [Duration.Hours] and the conversion [int(f)] *)

Definition float64 : Type := spec_float.
Definition f64_of_Z (z : Z) : float64 := binary_normalize 53 1024 z 0 false.
Definition f64_add : float64 -> float64 -> float64 := SFadd 53 1024.
Definition f64_div : float64 -> float64 -> float64 := SFdiv 53 1024.

(** [int(f)]: truncation toward zero of a finite float. *)
Definition f64_to_int (f : float64) : Z :=
  match f with
  | S754_finite s m e =>
      let mag := if 0 <=? e then Z.pos m * 2 ^ e else Z.pos m / 2 ^ (- e) in
      if s then - mag else mag
  | _ => 0
  end.

(** [d.Hours()]:
    [hour := d / Hour; nsec := d % Hour; float64(hour) + float64(nsec)/(60*60*1e9)]. *)
Definition Duration_Hours (d : Duration) : float64 :=
  let hour := Z.quot d Hour in
  let nsec := Z.rem d Hour in
  f64_add (f64_of_Z hour) (f64_div (f64_of_Z nsec) (f64_of_Z (60 * 60 * 1000000000))).

(** *** Calendar: [t.Format("2006-01-02")] *)

(** Civil date of a day number counted from 1970-01-01 (proleptic Gregorian). *)
Definition civil_from_days (days : Z) : Z * Z * Z :=
  let z := days + 719468 in
  let era := z / 146097 in
  let doe := z - era * 146097 in
  let yoe := (doe - doe / 1460 + doe / 36524 - doe / 146096) / 365 in
  let y := yoe + era * 400 in
  let doy := doe - (365 * yoe + yoe / 4 - yoe / 100) in
  let mp := (5 * doy + 2) / 153 in
  let d := doy - (153 * mp + 2) / 5 + 1 in
  let m := if mp <? 10 then mp + 3 else mp - 9 in
  (if m <=? 2 then y + 1 else y, m, d).

Definition format_year (y : Z) : string :=
  if y <? 0 then String "-"%char (zero_pad 4 (itoa (- y))) else zero_pad 4 (itoa y).

(** [t.Format("2006-01-02")], in the location of [t]. *)
Definition Time_Format_date (t : Time) : string :=
  let secs := unixNano t / 1000000000 + zoneOffset t in
  let '(y, m, d) := civil_from_days (secs / 86400) in
  format_year y +:+ "-" +:+ zero_pad 2 (itoa m) +:+ "-" +:+ zero_pad 2 (itoa d).

(* ===================================================================== *)
(** ** Errors *)
(* ===================================================================== *)

Inductive error : Type :=
  | ErrNoRows                                  (* sql.ErrNoRows *)
  | errorString (s : string)                   (* errors.New, fmt.Errorf without %w *)
  | wrapError (msg : string) (err : error).    (* fmt.Errorf with %w *)

#[global] Instance error_eq_dec : EqDecision error.
Proof. solve_decision. Defined.

(** [err.Error()] *)
Definition Error (e : error) : string :=
  match e with
  | ErrNoRows => "sql: no rows in result set"
  | errorString s => s
  | wrapError msg _ => msg
  end.

(** [errors.Unwrap] *)
Definition Unwrap (e : error) : option error :=
  match e with
  | wrapError _ inner => Some inner
  | _ => None
  end.

(** [fmt.Errorf(prefix + "%w", err)] *)
Definition Errorf_w (prefix : string) (err : error) : error :=
  wrapError (prefix +:+ Error err) err.

(* ===================================================================== *)
(** ** Package domain *)
(* ===================================================================== *)

(** [domain.Domain] *)
Record Domain := mkDomain {
  d_ID : string;
  d_Name : string;
  d_ExpirationDate : Time;
  d_Nameservers : list string;
  d_Registrant : string;
  d_Registrar : string;
  d_LastChecked : Time;
  d_NextCheck : Time;
  d_CreatedAt : Time;
  d_UpdatedAt : Time
}.

(** [domain.DomainInfo] *)
Record DomainInfo := mkDomainInfo {
  di_DomainName : string;
  di_ExpirationDate : Time;
  di_Nameservers : list string;
  di_Registrant : string;
  di_Registrar : string;
  di_CreatedDate : Time;
  di_UpdatedDate : Time
}.

(** [domain.Alert]; [Threshold] is stored as int64 nanoseconds. *)
Record Alert := mkAlert {
  a_ID : string;
  a_DomainID : string;
  a_DomainName : string;
  a_Threshold : Z;
  a_ExpirationDate : Time;
  a_SentAt : Time;
  a_Success : bool;
  a_ErrorMessage : string
}.

(** [domain.Config] *)
Record Config := mkConfig {
  c_ID : Z;
  c_MonitoringInterval : Z;
  c_AlertThresholds : list Duration;
  c_GoogleChatWebhook : string;
  c_RetentionPeriod : Z;
  c_UpdatedAt : Time
}.

#[global] Instance Domain_eq_dec : EqDecision Domain.
Proof. solve_decision. Defined.
#[global] Instance Alert_eq_dec : EqDecision Alert.
Proof. solve_decision. Defined.
#[global] Instance Config_eq_dec : EqDecision Config.
Proof. solve_decision. Defined.

Definition GetThreshold (a : Alert) : Duration := a_Threshold a.

Definition SetThreshold (a : Alert) (d : Duration) : Alert :=
  mkAlert (a_ID a) (a_DomainID a) (a_DomainName a) d (a_ExpirationDate a)
          (a_SentAt a) (a_Success a) (a_ErrorMessage a).

Definition Alert_set_ID (a : Alert) (id : string) : Alert :=
  mkAlert id (a_DomainID a) (a_DomainName a) (a_Threshold a) (a_ExpirationDate a)
          (a_SentAt a) (a_Success a) (a_ErrorMessage a).

Definition Alert_set_outcome (a : Alert) (ok : bool) (msg : string) : Alert :=
  mkAlert (a_ID a) (a_DomainID a) (a_DomainName a) (a_Threshold a) (a_ExpirationDate a)
          (a_SentAt a) ok msg.

(** [Alert.DaysUntilExpiration]:
    [duration := a.ExpirationDate.Sub(a.SentAt); int(duration.Hours() / 24)] *)
Definition DaysUntilExpiration (a : Alert) : Z :=
  let duration := Time_Sub (a_ExpirationDate a) (a_SentAt a) in
  f64_to_int (f64_div (Duration_Hours duration) (f64_of_Z 24)).

Definition GetMonitoringInterval (c : Config) : Duration := c_MonitoringInterval c.
Definition GetAlertThresholds (c : Config) : list Duration := c_AlertThresholds c.

Definition SetMonitoringInterval (c : Config) (d : Duration) : Config :=
  mkConfig (c_ID c) d (c_AlertThresholds c) (c_GoogleChatWebhook c)
           (c_RetentionPeriod c) (c_UpdatedAt c).
Definition SetRetentionPeriod (c : Config) (d : Duration) : Config :=
  mkConfig (c_ID c) (c_MonitoringInterval c) (c_AlertThresholds c)
           (c_GoogleChatWebhook c) d (c_UpdatedAt c).
Definition SetAlertThresholds (c : Config) (ts : list Duration) : Config :=
  mkConfig (c_ID c) (c_MonitoringInterval c) ts (c_GoogleChatWebhook c)
           (c_RetentionPeriod c) (c_UpdatedAt c).
Definition Config_set_webhook (c : Config) (url : string) : Config :=
  mkConfig (c_ID c) (c_MonitoringInterval c) (c_AlertThresholds c) url
           (c_RetentionPeriod c) (c_UpdatedAt c).
Definition Config_stamp (c : Config) (now : Time) : Config :=
  mkConfig 1 (c_MonitoringInterval c) (c_AlertThresholds c) (c_GoogleChatWebhook c)
           (c_RetentionPeriod c) now.

Definition Domain_set_checks (d : Domain) (last next : Time) : Domain :=
  mkDomain (d_ID d) (d_Name d) (d_ExpirationDate d) (d_Nameservers d) (d_Registrant d)
           (d_Registrar d) last next (d_CreatedAt d) (d_UpdatedAt d).
Definition Domain_set_next (d : Domain) (next : Time) : Domain :=
  Domain_set_checks d (d_LastChecked d) next.
Definition Domain_set_last (d : Domain) (last : Time) : Domain :=
  Domain_set_checks d last (d_NextCheck d).
Definition Domain_set_whois (d : Domain) (info : DomainInfo) : Domain :=
  mkDomain (d_ID d) (d_Name d) (di_ExpirationDate info) (di_Nameservers info)
           (di_Registrant info) (di_Registrar info) (d_LastChecked d) (d_NextCheck d)
           (d_CreatedAt d) (d_UpdatedAt d).
Definition Domain_set_UpdatedAt (d : Domain) (now : Time) : Domain :=
  mkDomain (d_ID d) (d_Name d) (d_ExpirationDate d) (d_Nameservers d) (d_Registrant d)
           (d_Registrar d) (d_LastChecked d) (d_NextCheck d) (d_CreatedAt d) now.

(* ===================================================================== *)
(** ** The world: tables, timers, environment, trace *)
(* ===================================================================== *)

(** What one webhook POST comes back with. *)
Inductive http_outcome : Type :=
  | HttpStatus (code : Z)
  | HttpError (err : error).

(** What one resolver call, raced against the per-attempt timeout, gives. *)
Inductive whois_outcome : Type :=
  | WhoisInfo (info : DomainInfo)
  | WhoisError (err : error)
  | WhoisNoAnswer.

(** The statements sent to the database. *)
Inductive Query : Type :=
  | QConfigSelect
  | QConfigInsert (c : Config)
  | QConfigUpdate (c : Config)
  | QAlertCount (domainID : string) (threshold : Z)
  | QAlertInsert (a : Alert)
  | QDomainSelect (id : string)
  | QDomainUpdate (d : Domain)
  | QDomainDeleteOlderThan (cutoff : Time).

Inductive Event : Type :=
  | EvSQL (q : Query)
  | EvWhois (name : string)
  | EvPost (url : string) (text : string)
  | EvSleep (d : Duration).

(** A [*time.Timer] made by [time.AfterFunc]: the delay it was armed
    with, the domain id its callback passes to [checkDomain], and whether
    it is still pending ([Stop] and firing both end that). *)
Record Timer := mkTimer { tm_delay : Duration; tm_domain : string; tm_pending : bool }.

Record World := mkWorld {
  (* environment *)
  w_now : Time;                      (* what the next time.Now() reads *)
  w_later : list Time;               (* the readings after that one *)
  w_db : list (option string);       (* next database calls: a driver error (lost
                                        connection, violated constraint, ...), or None *)
  w_http : list http_outcome;        (* next webhook POSTs *)
  w_whois : list whois_outcome;      (* next resolver calls *)
  w_uuid : nat;                      (* uuid.New() *)
  w_pick : list bool;                (* next choices of a select with several ready cases *)
  (* database *)
  t_domains : list Domain;
  t_config : option Config;
  t_alerts : list Alert;
  (* scheduler *)
  s_timers : list Timer;             (* every timer ever made; a handle is an index *)
  s_scheduledDomains : gmap string nat;
  s_ctxDone : bool;                  (* s.ctx has been cancelled *)
  s_workerPool : nat;                (* slots of the worker pool in use *)
  (* record of the interactions *)
  w_trace : list Event
}.

Definition M (A : Type) : Type := World -> A * World.

Definition ret {A} (a : A) : M A := fun w => (a, w).
Definition bind {A B} (m : M A) (k : A -> M B) : M B :=
  fun w => let (a, w') := m w in k a w'.

Notation "x <~ m ;~ k" := (bind m (fun x => k))
  (at level 20, m at level 100, k at level 200, only parsing).
Notation "' p <~ m ;~ k" := (bind m (fun x => let 'p := x in k))
  (at level 20, p pattern, m at level 100, k at level 200, only parsing).
Notation "'exec' m ;~ k" := (bind m (fun _ => k))
  (at level 20, m at level 100, k at level 200, only parsing).

Definition with_env (w : World) now later db http whois uuid tr : World :=
  mkWorld now later db http whois uuid (w_pick w) (t_domains w) (t_config w) (t_alerts w)
          (s_timers w) (s_scheduledDomains w) (s_ctxDone w) (s_workerPool w) tr.

Definition with_tables (w : World) doms cfg als : World :=
  mkWorld (w_now w) (w_later w) (w_db w) (w_http w) (w_whois w) (w_uuid w) (w_pick w)
          doms cfg als
          (s_timers w) (s_scheduledDomains w) (s_ctxDone w) (s_workerPool w) (w_trace w).

Definition with_sched (w : World) timers sched done pool : World :=
  mkWorld (w_now w) (w_later w) (w_db w) (w_http w) (w_whois w) (w_uuid w) (w_pick w)
          (t_domains w) (t_config w) (t_alerts w)
          timers sched done pool (w_trace w).

(** The choice a select makes when more than one case is ready; none
    left: the first case. *)
Definition select_pick : M bool := fun w =>
  match w_pick w with
  | [] => (true, w)
  | b :: rest =>
      (b, mkWorld (w_now w) (w_later w) (w_db w) (w_http w) (w_whois w) (w_uuid w) rest
                  (t_domains w) (t_config w) (t_alerts w)
                  (s_timers w) (s_scheduledDomains w) (s_ctxDone w) (s_workerPool w)
                  (w_trace w))
  end.

Definition log (e : Event) : M unit := fun w =>
  (tt, with_env w (w_now w) (w_later w) (w_db w) (w_http w) (w_whois w) (w_uuid w)
                (w_trace w ++ [e])).

(** [time.Now()]: reads the clock, which then moves on to its next reading
    (and stands still once the list is used up). *)
Definition time_Now : M Time := fun w =>
  match w_later w with
  | [] => (w_now w, w)
  | t :: ts =>
      (w_now w, with_env w t ts (w_db w) (w_http w) (w_whois w) (w_uuid w) (w_trace w))
  end.

(** [time.Until(t)] is [t.Sub(time.Now())]. *)
Definition time_Until (t : Time) : M Duration :=
  now <~ time_Now ;~ ret (Time_Sub t now).

Definition time_Sleep (d : Duration) : M unit := log (EvSleep d).

(** [uuid.New().String()] *)
Definition uuid_New : M string := fun w =>
  ("uuid-" +:+ itoa (Z.of_nat (w_uuid w)),
   with_env w (w_now w) (w_later w) (w_db w) (w_http w) (w_whois w) (S (w_uuid w)) (w_trace w)).

(** One call into the database driver: recorded, and answered by the
    driver's next outcome (none left: the call goes through). *)
Definition db_call (q : Query) : M (option error) :=
  exec log (EvSQL q) ;~
  fun w =>
    match w_db w with
    | [] => (None, w)
    | o :: rest =>
        (option_map errorString o,
         with_env w (w_now w) (w_later w) rest (w_http w) (w_whois w) (w_uuid w) (w_trace w))
    end.

(** [httpClient.Post]; none left: 200. *)
Definition http_Post (url text : string) : M http_outcome :=
  exec log (EvPost url text) ;~
  fun w =>
    match w_http w with
    | [] => (HttpStatus 200, w)
    | o :: rest =>
        (o, with_env w (w_now w) (w_later w) (w_db w) rest (w_whois w) (w_uuid w) (w_trace w))
    end.

(** The resolver raced against the timeout; none left: no answer in time. *)
Definition whois_call (name : string) : M whois_outcome :=
  exec log (EvWhois name) ;~
  fun w =>
    match w_whois w with
    | [] => (WhoisNoAnswer, w)
    | o :: rest =>
        (o, with_env w (w_now w) (w_later w) (w_db w) (w_http w) rest (w_uuid w) (w_trace w))
    end.

(* ===================================================================== *)
(** ** Package repository *)
(* ===================================================================== *)

(** Go's [(value, error)] results. *)
Inductive result (A : Type) : Type :=
  | Ok (a : A)
  | Err (e : error).
Arguments Ok {A} a.
Arguments Err {A} e.

Definition set_domains (rows : list Domain) : M unit := fun w =>
  (tt, with_tables w rows (t_config w) (t_alerts w)).
Definition set_config (c : option Config) : M unit := fun w =>
  (tt, with_tables w (t_domains w) c (t_alerts w)).
Definition set_alerts (rows : list Alert) : M unit := fun w =>
  (tt, with_tables w (t_domains w) (t_config w) rows).

Definition get_domains : M (list Domain) := fun w => (t_domains w, w).
Definition get_config : M (option Config) := fun w => (t_config w, w).
Definition get_alerts : M (list Alert) := fun w => (t_alerts w, w).

Module AlertRepository.

(** [INSERT INTO alerts (...) VALUES (...)] adds a row. *)
Definition Create (alert : Alert) : M (Alert * option error) :=
  alert <~ (if String.eqb (a_ID alert) "" then
              id <~ uuid_New ;~ ret (Alert_set_ID alert id)
            else ret alert) ;~
  err <~ db_call (QAlertInsert alert) ;~
  match err with
  | Some e => ret (alert, Some (Errorf_w "failed to create alert: " e))
  | None =>
      rows <~ get_alerts ;~
      exec set_alerts (rows ++ [alert]) ;~
      ret (alert, None)
  end.

(** The rows [WHERE domain_id = ? AND threshold = ?] selects. *)
Definition matching (domainID : string) (threshold : Z) (rows : list Alert) : list Alert :=
  List.filter (fun a => String.eqb (a_DomainID a) domainID && (a_Threshold a =? threshold)) rows.

(** [SELECT COUNT( * ) FROM alerts WHERE domain_id = ? AND threshold = ?] *)
Definition HasAlertBeenSent (domainID : string) (threshold : Duration) : M (result bool) :=
  err <~ db_call (QAlertCount domainID threshold) ;~
  match err with
  | Some e =>
      if decide (e = ErrNoRows) then ret (Ok false)
      else ret (Err (Errorf_w "failed to check if alert was sent: " e))
  | None =>
      rows <~ get_alerts ;~
      let count := Z.of_nat (length (matching domainID threshold rows)) in
      ret (Ok (0 <? count))
  end.

End AlertRepository.

Module DomainRepository.

(** [SELECT ... FROM domains WHERE id = ?] *)
Definition GetByID (id : string) : M (result Domain) :=
  err <~ db_call (QDomainSelect id) ;~
  match err with
  | Some e => ret (Err (Errorf_w "failed to get domain: " e))
  | None =>
      rows <~ get_domains ;~
      match List.find (fun r => String.eqb (d_ID r) id) rows with
      | None => ret (Err (errorString ("domain not found: " +:+ id)))
      | Some r => ret (Ok r)
      end
  end.

(** The row an [UPDATE domains SET ... WHERE id = ?] leaves in place of
    [r]: every column but [id] and [created_at] is written. *)
Definition updated_row (d r : Domain) : Domain :=
  if String.eqb (d_ID r) (d_ID d) then
    mkDomain (d_ID r) (d_Name d) (d_ExpirationDate d) (d_Nameservers d) (d_Registrant d)
             (d_Registrar d) (d_LastChecked d) (d_NextCheck d) (d_CreatedAt r) (d_UpdatedAt d)
  else r.

Definition rows_affected (id : string) (rows : list Domain) : Z :=
  Z.of_nat (length (List.filter (fun r => String.eqb (d_ID r) id) rows)).

(** [Update] stamps [d.UpdatedAt] on the caller's struct, then writes;
    [result.RowsAffected()] is taken to answer. *)
Definition Update (d : Domain) : M (Domain * option error) :=
  now <~ time_Now ;~
  let d := Domain_set_UpdatedAt d now in
  err <~ db_call (QDomainUpdate d) ;~
  match err with
  | Some e => ret (d, Some (Errorf_w "failed to update domain: " e))
  | None =>
      rows <~ get_domains ;~
      exec set_domains (List.map (updated_row d) rows) ;~
      if rows_affected (d_ID d) rows =? 0
      then ret (d, Some (errorString ("domain not found: " +:+ d_ID d)))
      else ret (d, None)
  end.

(** The rows
    [DELETE FROM domains WHERE created_at < ? AND id NOT IN (SELECT id FROM domains)]
    removes. *)
Definition delete_filter (cutoff : Time) (rows : list Domain) (r : Domain) : bool :=
  Time_Before (d_CreatedAt r) cutoff
  && negb (existsb (String.eqb (d_ID r)) (List.map d_ID rows)).

Definition DeleteOlderThan (cutoff : Time) : M (option error) :=
  err <~ db_call (QDomainDeleteOlderThan cutoff) ;~
  match err with
  | Some e => ret (Some (Errorf_w "failed to delete old domains: " e))
  | None =>
      rows <~ get_domains ;~
      exec set_domains (List.filter (fun r => negb (delete_filter cutoff rows r)) rows) ;~
      ret None
  end.

End DomainRepository.

Module ConfigRepository.

(** [createDefaultConfig] *)
Definition createDefaultConfig : M Config :=
  now <~ time_Now ;~
  let config := mkConfig 1 0 [] "" 0 now in
  let config := SetMonitoringInterval config (24 * Hour) in
  let config := SetRetentionPeriod config (90 * 24 * Hour) in
  let defaultThresholds := [90 * 24 * Hour; 60 * 24 * Hour; 30 * 24 * Hour; 7 * 24 * Hour] in
  ret (SetAlertThresholds config defaultThresholds).

(** [create]: [INSERT INTO config ...] *)
Definition create (config : Config) : M (Config * option error) :=
  now <~ time_Now ;~
  let config := Config_stamp config now in
  err <~ db_call (QConfigInsert config) ;~
  match err with
  | Some e => ret (config, Some (Errorf_w "failed to create config: " e))
  | None => exec set_config (Some config) ;~ ret (config, None)
  end.

(** [Get]: the single row, made from the defaults when there is none. *)
Definition Get : M (result Config) :=
  err <~ db_call QConfigSelect ;~
  match err with
  | Some e => ret (Err (Errorf_w "failed to get config: " e))
  | None =>
      row <~ get_config ;~
      match row with
      | Some config => ret (Ok config)
      | None =>
          defaultConfig <~ createDefaultConfig ;~
          '(defaultConfig, err) <~ create defaultConfig ;~
          match err with
          | Some e => ret (Err (Errorf_w "failed to create default config: " e))
          | None => ret (Ok defaultConfig)
          end
      end
  end.

(** [Update]: [UPDATE config SET ... WHERE id = 1], or [create] when no
    row was there. *)
Definition Update (config : Config) : M (Config * option error) :=
  now <~ time_Now ;~
  let config := Config_stamp config now in
  err <~ db_call (QConfigUpdate config) ;~
  match err with
  | Some e => ret (config, Some (Errorf_w "failed to update config: " e))
  | None =>
      row <~ get_config ;~
      match row with
      | None => create config
      | Some _ => exec set_config (Some config) ;~ ret (config, None)
      end
  end.

End ConfigRepository.

(* ===================================================================== *)
(** ** Package alert *)
(* ===================================================================== *)

Module AlertService.

(** The first line of the message as the source file spells it: the
    bytes C3 B0 C5 B8 E2 80 9D E2 80 9D, a space, and the title. *)
Definition title_prefix : string :=
  string_of_bytes [195; 176; 197; 184; 226; 128; 157; 226; 128; 157].

(** [FormatAlertMessage] *)
Definition FormatAlertMessage (alert : Alert) : string :=
  let daysRemaining := DaysUntilExpiration alert in
  let thresholdDays := f64_to_int (f64_div (Duration_Hours (GetThreshold alert)) (f64_of_Z 24)) in
  title_prefix +:+ " Domain Expiration Alert" +:+ nl +:+ nl +:+
  "Domain: " +:+ a_DomainName alert +:+ nl +:+
  "Expiration Date: " +:+ Time_Format_date (a_ExpirationDate alert) +:+ nl +:+
  "Days Remaining: " +:+ itoa daysRemaining +:+ nl +:+
  "Alert Threshold: " +:+ itoa thresholdDays +:+ " days" +:+ nl +:+ nl +:+
  "Please renew this domain to avoid service disruption.".

(** [sendToWebhook]: posts the payload [{"text": message}]; the event
    carries the message, its JSON encoding is left to [json.Marshal], which
    cannot fail on a map with one string. *)
Definition sendToWebhook (webhookURL message : string) : M (option error) :=
  resp <~ http_Post webhookURL message ;~
  match resp with
  | HttpError err => ret (Some (Errorf_w "failed to send webhook: " err))
  | HttpStatus code =>
      if (code <? 200) || (300 <=? code)
      then ret (Some (errorString ("webhook returned status " +:+ itoa code)))
      else ret None
  end.

(** The loop of [SendAlert]: [fuel] iterations are left before
    [attempt] reaches 3. *)
Fixpoint SendAlert_loop (fuel : nat) (webhookURL message : string)
         (attempt : Z) (backoff : Duration) (lastErr : option error) : M (option error) :=
  match fuel with
  | O =>
      ret (Some match lastErr with
                | Some e => Errorf_w "failed after 3 attempts: " e
                | None => errorString "failed after 3 attempts: %!w(<nil>)"
                end)
  | S fuel' =>
      err <~ sendToWebhook webhookURL message ;~
      match err with
      | None => ret None
      | Some e =>
          if attempt <? 2 then
            exec time_Sleep backoff ;~
            SendAlert_loop fuel' webhookURL message (attempt + 1) (wrap64 (backoff * 2)) (Some e)
          else
            SendAlert_loop fuel' webhookURL message (attempt + 1) backoff (Some e)
      end
  end.

(** [SendAlert] *)
Definition SendAlert (alert : Alert) (webhookURL : string) : M (option error) :=
  if String.eqb webhookURL "" then
    ret (Some (errorString "no webhook URL configured"))
  else
    let message := FormatAlertMessage alert in
    SendAlert_loop 3 webhookURL message 0 Second None.

(** One iteration of the loop of [EvaluateAlerts]; [Some err] is the
    [return] that leaves the function. *)
Definition evaluate_threshold (d : Domain) (config : Config)
           (timeUntilExpiration threshold : Duration) : M (option error) :=
  if (timeUntilExpiration <=? threshold) && (0 <? timeUntilExpiration) then
    sent <~ AlertRepository.HasAlertBeenSent (d_ID d) threshold ;~
    match sent with
    | Err err => ret (Some (Errorf_w "failed to check if alert was sent: " err))
    | Ok alreadySent =>
        if negb alreadySent then
          now <~ time_Now ;~
          let alert := mkAlert "" (d_ID d) (d_Name d) 0 (d_ExpirationDate d) now false "" in
          let alert := SetThreshold alert threshold in
          err <~ SendAlert alert (c_GoogleChatWebhook config) ;~
          let alert := match err with
                       | Some e => Alert_set_outcome alert false (Error e)
                       | None => Alert_set_outcome alert true (a_ErrorMessage alert)
                       end in
          '(_, err) <~ AlertRepository.Create alert ;~
          match err with
          | Some e => ret (Some (Errorf_w "failed to save alert: " e))
          | None => ret None
          end
        else ret None
    end
  else ret None.

Fixpoint evaluate_loop (d : Domain) (config : Config) (timeUntilExpiration : Duration)
         (thresholds : list Duration) : M (option error) :=
  match thresholds with
  | [] => ret None
  | threshold :: rest =>
      err <~ evaluate_threshold d config timeUntilExpiration threshold ;~
      match err with
      | Some e => ret (Some e)
      | None => evaluate_loop d config timeUntilExpiration rest
      end
  end.

(** [EvaluateAlerts] *)
Definition EvaluateAlerts (d : Domain) : M (option error) :=
  cfg <~ ConfigRepository.Get ;~
  match cfg with
  | Err err => ret (Some (Errorf_w "failed to get config: " err))
  | Ok config =>
      let thresholds := GetAlertThresholds config in
      timeUntilExpiration <~ time_Until (d_ExpirationDate d) ;~
      evaluate_loop d config timeUntilExpiration thresholds
  end.

End AlertService.

(* ===================================================================== *)
(** ** Package whois *)
(* ===================================================================== *)

Module Whois.

Record Service := mkService { timeout : Duration; maxRetries : Z }.

(** [NewService] *)
Definition NewService : Service := mkService (30 * Second) 3.

(** Digits after the decimal point of [v / 10^prec], trailing zeros
    dropped, as [Duration.String] prints them. *)
Fixpoint fmtFrac (prec : nat) (v : Z) (print : bool) (acc : string) : string * Z :=
  match prec with
  | O => (if print then String "."%char acc else acc, v)
  | S prec' =>
      let digit := v mod 10 in
      let print' := print || negb (digit =? 0) in
      fmtFrac prec' (v / 10) print' (if print' then String (digit_char digit) acc else acc)
  end.

(** [d.String()] *)
Definition Duration_String (d : Duration) : string :=
  let u := Z.abs d in
  let sign := if d <? 0 then "-" else "" in
  if d =? 0 then "0s"
  else if u <? Second then
    if u <? 1000 then sign +:+ itoa u +:+ "ns"
    else if u <? 1000000 then
      let '(frac, v) := fmtFrac 3 u false "" in
      sign +:+ itoa v +:+ frac +:+ string_of_bytes [194; 181] +:+ "s"
    else
      let '(frac, v) := fmtFrac 6 u false "" in
      sign +:+ itoa v +:+ frac +:+ "ms"
  else
    let '(frac, v) := fmtFrac 9 u false "" in
    let secs := itoa (v mod 60) +:+ frac +:+ "s" in
    let mins := v / 60 in
    if mins =? 0 then sign +:+ secs
    else
      let hours := mins / 60 in
      if hours =? 0 then sign +:+ itoa (mins mod 60) +:+ "m" +:+ secs
      else sign +:+ itoa hours +:+ "h" +:+ itoa (mins mod 60) +:+ "m" +:+ secs.

(** [queryWithTimeout]: the lookup runs in a goroutine and is raced
    against [time.After(s.timeout)]. *)
Definition queryWithTimeout (s : Service) (domainName : string) : M (result DomainInfo) :=
  r <~ whois_call domainName ;~
  match r with
  | WhoisInfo info => ret (Ok info)
  | WhoisError err => ret (Err err)
  | WhoisNoAnswer =>
      ret (Err (errorString ("WHOIS query timed out after " +:+ Duration_String (timeout s))))
  end.

(** The loop of [QueryDomain]: [fuel] iterations are left before
    [attempt] reaches [s.maxRetries]. *)
Fixpoint QueryDomain_loop (fuel : nat) (s : Service) (domainName : string)
         (attempt : Z) (backoff : Duration) (lastErr : option error) : M (result DomainInfo) :=
  match fuel with
  | O =>
      let prefix := "failed after " +:+ itoa (maxRetries s) +:+ " attempts: " in
      ret (Err match lastErr with
               | Some e => Errorf_w prefix e
               | None => errorString (prefix +:+ "%!w(<nil>)")
               end)
  | S fuel' =>
      r <~ queryWithTimeout s domainName ;~
      match r with
      | Ok info => ret (Ok info)
      | Err err =>
          if attempt <? maxRetries s - 1 then
            exec time_Sleep backoff ;~
            QueryDomain_loop fuel' s domainName (attempt + 1) (wrap64 (backoff * 2)) (Some err)
          else
            QueryDomain_loop fuel' s domainName (attempt + 1) backoff (Some err)
      end
  end.

(** [QueryDomain] *)
Definition QueryDomain (s : Service) (domainName : string) : M (result DomainInfo) :=
  QueryDomain_loop (Z.to_nat (maxRetries s)) s domainName 0 Second None.

End Whois.

(* ===================================================================== *)
(** ** Package scheduler *)
(* ===================================================================== *)

Module Scheduler.

Definition whoisSvc : Whois.Service := Whois.NewService.

(** Capacity of [workerPool]: [make(chan struct{}, 10)]. *)
Definition poolCapacity : nat := 10.

Definition get_sched : M (list Timer * gmap string nat) := fun w =>
  ((s_timers w, s_scheduledDomains w), w).
Definition set_sched (timers : list Timer) (m : gmap string nat) : M unit := fun w =>
  (tt, with_sched w timers m (s_ctxDone w) (s_workerPool w)).
Definition ctx_Done : M bool := fun w => (s_ctxDone w, w).
Definition set_pool (n : nat) : M unit := fun w =>
  (tt, with_sched w (s_timers w) (s_scheduledDomains w) (s_ctxDone w) n).
Definition get_pool : M nat := fun w => (s_workerPool w, w).

(** [timer.Stop()] *)
Definition stop_timer (h : nat) (timers : list Timer) : list Timer :=
  match timers !! h with
  | Some t => <[h := mkTimer (tm_delay t) (tm_domain t) false]> timers
  | None => timers
  end.

(** [time.AfterFunc(delay, func() { s.checkDomain(id) })]: a new pending
    timer; its handle is returned. *)
Definition AfterFunc (delay : Duration) (id : string) (timers : list Timer)
  : list Timer * nat :=
  (timers ++ [mkTimer delay id true], length timers).

(** [ScheduleDomain]; the whole body runs under [s.mu]. *)
Definition ScheduleDomain (d : Domain) : M unit :=
  '(timers, m) <~ get_sched ;~
  (* Cancel existing timer if any *)
  let timers := match m !! d_ID d with
                | Some h => stop_timer h timers
                | None => timers
                end in
  (* Calculate time until next check *)
  now <~ time_Now ;~
  delay <~ (if Time_Before now (d_NextCheck d)
            then time_Until (d_NextCheck d)
            else ret 0) ;~
  (* Schedule the check *)
  let '(timers, h) := AfterFunc delay (d_ID d) timers in
  set_sched timers (<[d_ID d := h]> m).

(** [UnscheduleDomain] *)
Definition UnscheduleDomain (domainID : string) : M unit :=
  '(timers, m) <~ get_sched ;~
  match m !! domainID with
  | Some h => set_sched (stop_timer h timers) (delete domainID m)
  | None => ret tt
  end.

(** [reschedule] *)
Definition reschedule (d : Domain) : M unit :=
  done <~ ctx_Done ;~
  if done then ret tt else ScheduleDomain d.

(** How a tick ended: it never got a worker slot because shutdown was
    signalled, it is still waiting for one, or the pipeline ran. *)
Inductive tick := Abandoned | Waiting | Ran.

(** The pipeline of [checkDomain], once a worker slot is held. *)
Definition pipeline (domainID : string) : M unit :=
  (* Get domain *)
  r <~ DomainRepository.GetByID domainID ;~
  match r with
  | Err _ => ret tt                           (* Domain might have been deleted *)
  | Ok d =>
      (* Get config for scheduling *)
      cfg <~ ConfigRepository.Get ;~
      match cfg with
      | Err _ => reschedule d
      | Ok config =>
          (* Perform WHOIS query *)
          q <~ Whois.QueryDomain whoisSvc (d_Name d) ;~
          match q with
          | Err _ =>
              (* WHOIS failed, but still evaluate alerts with existing data *)
              now1 <~ time_Now ;~
              let d := Domain_set_last d now1 in
              now2 <~ time_Now ;~
              let d := Domain_set_next d (Time_Add now2 (GetMonitoringInterval config)) in
              '(d, err) <~ DomainRepository.Update d ;~
              match err with
              | Some _ => reschedule d
              | None =>
                  exec AlertService.EvaluateAlerts d ;~
                  reschedule d
              end
          | Ok info =>
              let d := Domain_set_whois d info in
              now1 <~ time_Now ;~
              let d := Domain_set_last d now1 in
              now2 <~ time_Now ;~
              let d := Domain_set_next d (Time_Add now2 (GetMonitoringInterval config)) in
              '(d, err) <~ DomainRepository.Update d ;~
              match err with
              | Some _ => reschedule d
              | None =>
                  exec AlertService.EvaluateAlerts d ;~
                  reschedule d
              end
          end
      end
  end.

(** [checkDomain]: the select on the worker pool and on [ctx.Done()],
    then the pipeline, then the deferred release of the slot.  The wait
    group only matters to [Stop] and is left out. *)
Definition checkDomain (domainID : string) : M tick :=
  done <~ ctx_Done ;~
  used <~ get_pool ;~
  let slotFree := (used <? poolCapacity)%nat in
  acquire <~ (if done && slotFree then select_pick else ret slotFree) ;~
  if acquire then
    exec set_pool (S used) ;~
    exec pipeline domainID ;~
    used' <~ get_pool ;~
    exec set_pool (Nat.pred used') ;~
    ret Ran
  else if done then ret Abandoned else ret Waiting.

(** A timer goes off: it is no longer pending, and its callback runs. *)
Definition fire (h : nat) : M (option tick) :=
  '(timers, m) <~ get_sched ;~
  match timers !! h with
  | Some t =>
      if tm_pending t then
        exec set_sched (stop_timer h timers) m ;~
        r <~ checkDomain (tm_domain t) ;~
        ret (Some r)
      else ret None
  | None => ret None
  end.

(** The pending timers whose callback checks [id]. *)
Definition pending_for (id : string) (timers : list Timer) : list Timer :=
  List.filter (fun t => tm_pending t && String.eqb (tm_domain t) id) timers.

End Scheduler.

(* ===================================================================== *)
(** ** Package web: the configuration handler *)
(* ===================================================================== *)

Module Web.

Definition is_digit (c : ascii) : bool :=
  let n := Z.of_N (N_of_ascii c) in (48 <=? n) && (n <=? 57).

(** [strings.TrimLeftFunc(s, unicode.IsSpace)]: runes are taken off the
    front while they are white space. *)
Fixpoint TrimLeft_space (fuel : nat) (s : string) : string :=
  match fuel with
  | O => s
  | S fuel' =>
      match s with
      | EmptyString => s
      | _ =>
          let '(r, size) := DecodeRuneInString s in
          if IsSpace r then TrimLeft_space fuel' (string_drop size s) else s
      end
  end.

(** [lastIndexFunc(s, unicode.IsSpace, false)]: the index of the last
    rune, decoding from the end, that is not white space; -1 when there
    is none.  [i] is the end of what is still to be looked at. *)
Fixpoint lastIndex_not_space (fuel : nat) (s : string) (i : Z) : Z :=
  match fuel with
  | O => -1
  | S fuel' =>
      if 0 <? i then
        let '(r, size) := DecodeLastRuneInString (String.substring 0 (Z.to_nat i) s) in
        let i := i - Z.of_nat size in
        if negb (IsSpace r) then i else lastIndex_not_space fuel' s i
      else -1
  end.

(** [strings.TrimRightFunc(s, unicode.IsSpace)] *)
Definition TrimRight_space (s : string) : string :=
  let i := lastIndex_not_space (String.length s) s (Z.of_nat (String.length s)) in
  let i := if (0 <=? i) && (128 <=? byte_at s i)
           then i + Z.of_nat (snd (DecodeRuneInString (string_drop (Z.to_nat i) s)))
           else i + 1 in
  String.substring 0 (Z.to_nat i) s.

(** [strings.TrimSpace]: leading and trailing white space, as Unicode
    defines it, is removed (the function's fast path for ASCII gives
    what [TrimFunc(s, unicode.IsSpace)] gives). *)
Definition TrimSpace (s : string) : string :=
  TrimRight_space (TrimLeft_space (String.length s) s).

(** [strings.Split(s, ",")] *)
Fixpoint Split_comma (s : string) : list string :=
  match s with
  | EmptyString => [EmptyString]
  | String c s' =>
      if Ascii.eqb c ","%char then EmptyString :: Split_comma s'
      else match Split_comma s' with
           | piece :: rest => String c piece :: rest
           | [] => [String c EmptyString]
           end
  end.

Fixpoint scan_digits (s : string) (acc : Z) (seen : bool) : Z * bool :=
  match s with
  | String c s' =>
      if is_digit c then scan_digits s' (acc * 10 + (Z.of_N (N_of_ascii c) - 48)) true
      else (acc, seen)
  | EmptyString => (acc, seen)
  end.

(** [SkipSpace] of package fmt, as [Sscanf] runs it: white space is
    skipped, but a newline is an error ("unexpected newline"), also after
    a carriage return.  The result is the input left, or [None] for the
    error. *)
Fixpoint SkipSpace (fuel : nat) (s : string) : option string :=
  match fuel with
  | O => Some s
  | S fuel' =>
      match s with
      | EmptyString => Some s
      | _ =>
          let '(r, size) := DecodeRuneInString s in
          let rest := string_drop size s in
          if (r =? 13) && (byte_at rest 0 =? 10) then SkipSpace fuel' rest
          else if r =? 10 then None
          else if IsSpace r then SkipSpace fuel' rest
          else Some s
      end
  end.

(** [fmt.Sscanf(s, "%d", &n)] into a zero-initialised [int]: white space
    is skipped, an optional sign and the decimal digits are read and
    handed to [strconv.ParseInt(tok, 10, 64)], what follows them is left
    alone.  The result is the value left in [n] (0 when nothing was
    stored) and whether [err == nil]. *)
Definition Sscanf_d (s : string) : Z * bool :=
  match SkipSpace (String.length s) s with
  | None => (0, false)
  | Some s =>
      let '(neg, s) := match s with
                       | String c s' =>
                           if Ascii.eqb c "-"%char then (true, s')
                           else if Ascii.eqb c "+"%char then (false, s')
                           else (false, s)
                       | EmptyString => (false, s)
                       end in
      let '(v, seen) := scan_digits s 0 false in
      let v := if neg then - v else v in
      if seen && (minInt64 <=? v) && (v <=? maxInt64) then (v, true) else (0, false)
  end.

(** The fields of the posted form. *)
Record Form := mkForm {
  monitoring_interval : string;
  webhook_url : string;
  retention_period : string;
  alert_thresholds : string
}.

(** What the handler writes back: the status code and, for an error
    page, its message (for a redirect, the location). *)
Record Response := mkResponse { status : Z; text : string }.

Definition StatusSeeOther : Z := 303.
Definition StatusBadRequest : Z := 400.
Definition StatusInternalServerError : Z := 500.

(** [renderError] *)
Definition renderError (message : string) (err : option error) (statusCode : Z) : Response :=
  mkResponse statusCode
    match err with
    | Some e => message +:+ ": " +:+ Error e
    | None => message
    end.

(** The loop over the comma separated thresholds: the durations
    gathered, or the piece that is refused. *)
Fixpoint parse_thresholds (pieces : list string) (thresholds : list Duration)
  : list Duration + string :=
  match pieces with
  | [] => inl thresholds
  | dayStr :: rest =>
      let dayStr := TrimSpace dayStr in
      if String.eqb dayStr "" then parse_thresholds rest thresholds
      else
        let '(days, ok) := Sscanf_d dayStr in
        if negb ok || (days <=? 0) then inr dayStr
        else parse_thresholds rest
               (thresholds ++ [wrap64 (wrap64 (days * 24) * Hour)])
  end.

(** The block "Parse alert thresholds" of [handleUpdateConfig]: nothing
    to change ([inl None]), the new thresholds, or the message of the
    error page. *)
Definition parse_alert_thresholds (thresholdsStr : string)
  : option (list Duration) + string :=
  if String.eqb thresholdsStr "" then inl None
  else match parse_thresholds (Split_comma thresholdsStr) [] with
       | inr dayStr => inr ("Invalid threshold value: " +:+ dayStr)
       | inl [] => inr "At least one alert threshold is required"
       | inl thresholds => inl (Some thresholds)
       end.

(** [handleUpdateConfig]; the request is what [r.ParseForm()] gives: the
    form, or its error. *)
Definition handleUpdateConfig (req : result Form) : M Response :=
  match req with
  | Err err => ret (renderError "Invalid form data" (Some err) StatusBadRequest)
  | Ok form =>
  cfg <~ ConfigRepository.Get ;~
  match cfg with
  | Err err =>
      ret (renderError "Failed to load configuration" (Some err) StatusInternalServerError)
  | Ok config =>
  (* Parse and validate monitoring interval *)
  let intervalHours := monitoring_interval form in
  let hours := fst (Sscanf_d intervalHours) in
  if negb (String.eqb intervalHours "") && (hours <? 1) then
    ret (renderError "Monitoring interval must be at least 1 hour" None StatusBadRequest)
  else
  let config := if String.eqb intervalHours "" then config
                else SetMonitoringInterval config (wrap64 (hours * Hour)) in
  (* Parse webhook URL *)
  let webhook := webhook_url form in
  if negb (String.eqb webhook "") && negb (HasPrefix webhook "https://") then
    ret (renderError "Webhook URL must use HTTPS" None StatusBadRequest)
  else
  let config := Config_set_webhook config webhook in
  (* Parse retention period *)
  let retentionDays := retention_period form in
  let days := fst (Sscanf_d retentionDays) in
  if negb (String.eqb retentionDays "") && (days <? 1) then
    ret (renderError "Retention period must be at least 1 day" None StatusBadRequest)
  else
  let config := if String.eqb retentionDays "" then config
                else SetRetentionPeriod config (wrap64 (wrap64 (days * 24) * Hour)) in
  (* Parse alert thresholds *)
  match parse_alert_thresholds (alert_thresholds form) with
  | inr message => ret (renderError message None StatusBadRequest)
  | inl thresholds =>
  let config := match thresholds with
                | Some ts => SetAlertThresholds config ts
                | None => config
                end in
  (* Update configuration *)
  '(_, err) <~ ConfigRepository.Update config ;~
  match err with
  | Some e =>
      ret (renderError "Failed to update configuration" (Some e) StatusInternalServerError)
  | None => ret (mkResponse StatusSeeOther "/config")
  end
  end
  end
  end.

End Web.

(* ===================================================================== *)
(** ** Package repository: the connection and the remaining statements *)
(* ===================================================================== *)

Module DB.

(** [len(s)] and [s[i:j]] on the bytes of a string. *)
Definition len (s : string) : Z := Z.of_nat (String.length s).

Definition slice (s : string) (i j : Z) : string :=
  String.substring (Z.to_nat i) (Z.to_nat (j - i)) s.

(** The loop of [containsMiddle]: [for i := 0; i <= len(s)-len(substr); i++]. *)
Fixpoint containsMiddle_loop (fuel : nat) (i : Z) (s substr : string) : bool :=
  match fuel with
  | O => false
  | S fuel' =>
      if i <=? len s - len substr then
        if String.eqb (slice s i (i + len substr)) substr then true
        else containsMiddle_loop fuel' (i + 1) s substr
      else false
  end.

(** [containsMiddle] *)
Definition containsMiddle (s substr : string) : bool :=
  containsMiddle_loop (S (String.length s)) 0 s substr.

(** [contains] *)
Definition contains (s substr : string) : bool :=
  (len substr <=? len s)
  && (String.eqb s substr
      || ((len substr <? len s)
          && (String.eqb (slice s 0 (len substr)) substr
              || String.eqb (slice s (len s - len substr) (len s)) substr
              || containsMiddle s substr))).

(** [IsConstraintError] *)
Definition IsConstraintError (err : option error) : bool :=
  match err with
  | None => false
  | Some e =>
      let errStr := Error e in
      contains errStr "UNIQUE constraint failed" || contains errStr "constraint failed"
  end.

(** A call into the driver that the trace does not record: answered by
    the driver's next outcome, as [db_call] is. *)
Definition driver_call : M (option error) := fun w =>
  match w_db w with
  | [] => (None, w)
  | o :: rest =>
      (option_map errorString o,
       with_env w (w_now w) (w_later w) rest (w_http w) (w_whois w) (w_uuid w) (w_trace w))
  end.

(** [Ping] *)
Definition Ping : M (option error) := driver_call.

(** The loop of [ReconnectWithBackoff]: [fuel] iterations are left before
    [i] reaches [maxRetries]. *)
Fixpoint ReconnectWithBackoff_loop (fuel : nat) (maxRetries i : Z) (backoff : Duration)
  : M (option error) :=
  match fuel with
  | O =>
      ret (Some (errorString
                   ("failed to reconnect after " +:+ itoa maxRetries +:+ " attempts")))
  | S fuel' =>
      err <~ Ping ;~
      match err with
      | None => ret None
      | Some _ =>
          if i <? maxRetries - 1 then
            exec time_Sleep backoff ;~
            ReconnectWithBackoff_loop fuel' maxRetries (i + 1) (wrap64 (backoff * 2))
          else
            ReconnectWithBackoff_loop fuel' maxRetries (i + 1) backoff
      end
  end.

(** [ReconnectWithBackoff] *)
Definition ReconnectWithBackoff (maxRetries : Z) : M (option error) :=
  ReconnectWithBackoff_loop (Z.to_nat maxRetries) maxRetries 0 Second.

End DB.

(** The zero [time.Time]: January 1, year 1, 00:00:00 UTC. *)
Definition Time_zero : Time := mkTime (-62135596800 * 1000000000) 0.

Definition Domain_set_ID (d : Domain) (id : string) : Domain :=
  mkDomain id (d_Name d) (d_ExpirationDate d) (d_Nameservers d) (d_Registrant d)
           (d_Registrar d) (d_LastChecked d) (d_NextCheck d) (d_CreatedAt d) (d_UpdatedAt d).

Definition Domain_set_created (d : Domain) (now : Time) : Domain :=
  mkDomain (d_ID d) (d_Name d) (d_ExpirationDate d) (d_Nameservers d) (d_Registrant d)
           (d_Registrar d) (d_LastChecked d) (d_NextCheck d) now now.

(** [Create], [GetAll] and [Delete] of [DomainRepository]. *)
Module Domains.

(** [Create]: the id is generated when empty, both time stamps are set
    on the caller's struct, then [INSERT INTO domains ...] adds the row. *)
Definition Create (d : Domain) : M (Domain * option error) :=
  d <~ (if String.eqb (d_ID d) "" then
          id <~ uuid_New ;~ ret (Domain_set_ID d id)
        else ret d) ;~
  now <~ time_Now ;~
  let d := Domain_set_created d now in
  err <~ DB.driver_call ;~
  match err with
  | Some e =>
      if DB.IsConstraintError (Some e)
      then ret (d, Some (errorString ("domain " +:+ d_Name d +:+ " already exists")))
      else ret (d, Some (Errorf_w "failed to create domain: " e))
  | None =>
      rows <~ get_domains ;~
      exec set_domains (rows ++ [d]) ;~
      ret (d, None)
  end.

(** [ORDER BY expiration_date ASC].  The order is the database's:
    [before a b] says whether it finds the stored time [a] below [b]
    (SQLite compares the text the driver wrote, in the zone each value
    carries; MySQL compares DATETIME values).  Rows it does not tell apart
    are put in table order. *)
Fixpoint insert_by_expiration (before : Time -> Time -> bool) (d : Domain)
         (rows : list Domain) : list Domain :=
  match rows with
  | [] => [d]
  | r :: rows' =>
      if negb (before (d_ExpirationDate r) (d_ExpirationDate d))
      then d :: r :: rows'
      else r :: insert_by_expiration before d rows'
  end.

Definition order_by_expiration (before : Time -> Time -> bool) (rows : list Domain)
  : list Domain :=
  fold_right (insert_by_expiration before) [] rows.

(** [GetAll] *)
Definition GetAll (before : Time -> Time -> bool) : M (result (list Domain)) :=
  err <~ DB.driver_call ;~
  match err with
  | Some e => ret (Err (Errorf_w "failed to get all domains: " e))
  | None =>
      rows <~ get_domains ;~
      ret (Ok (order_by_expiration before rows))
  end.

(** [Delete]: [DELETE FROM domains WHERE id = ?].  The alerts of the
    domain go with it when the database enforces the foreign key
    ([ON DELETE CASCADE]): [fk] says whether it does. *)
Definition Delete (fk : bool) (id : string) : M (option error) :=
  err <~ DB.driver_call ;~
  match err with
  | Some e => ret (Some (Errorf_w "failed to delete domain: " e))
  | None =>
      rows <~ get_domains ;~
      exec set_domains (List.filter (fun r => negb (String.eqb (d_ID r) id)) rows) ;~
      exec (if fk then
              als <~ get_alerts ;~
              set_alerts (List.filter (fun a => negb (String.eqb (a_DomainID a) id)) als)
            else ret tt) ;~
      if DomainRepository.rows_affected id rows =? 0
      then ret (Some (errorString ("domain not found: " +:+ id)))
      else ret None
  end.

End Domains.

(** [AlertRepository.DeleteOlderThan]: [DELETE FROM alerts WHERE sent_at < ?].
    The comparison is the database's: [before a b] says whether it finds
    the stored time [a] below the bound value [b]. *)
Module Alerts.

Definition DeleteOlderThan (before : Time -> Time -> bool) (cutoff : Time)
  : M (option error) :=
  err <~ DB.driver_call ;~
  match err with
  | Some e => ret (Some (Errorf_w "failed to delete old alerts: " e))
  | None =>
      rows <~ get_alerts ;~
      exec set_alerts (List.filter (fun a => negb (before (a_SentAt a) cutoff)) rows) ;~
      ret None
  end.

End Alerts.

(* ===================================================================== *)
(** ** Package whois: parsing a response *)
(* ===================================================================== *)

Module WhoisParse.

(** What [whoisparser.Parse] gives, as far as the service reads it. *)
Record Contact := mkContact { Name : string; Organization : string; Email : string }.

Record ParsedDomain := mkParsedDomain {
  pd_Domain : string;
  pd_NameServers : list string;
  pd_CreatedDate : string;
  pd_UpdatedDate : string;
  pd_ExpirationDate : string
}.

Record Parsed := mkParsed {
  p_Domain : option ParsedDomain;
  p_Registrar : option Contact;
  p_Registrant : option Contact
}.

(** [extractRegistrant] *)
Definition extractRegistrant (parsed : Parsed) : string :=
  match p_Registrant parsed with
  | None => "Unknown"
  | Some registrant =>
      if negb (String.eqb (Name registrant) "") then Name registrant
      else if negb (String.eqb (Organization registrant) "") then Organization registrant
      else if negb (String.eqb (Email registrant) "") then Email registrant
      else "Unknown"
  end.

Definition dateFormats : list string :=
  ["2006-01-02"; "2006-01-02T15:04:05Z"; "2006-01-02 15:04:05"; "2006-01-02T15:04:05";
   "2006-01-02 15:04:05 MST"].

Section Parsers.

(** The two library parsers: [whoisparser.Parse], and [time.Parse] of a
    layout and a value (on an error it returns the zero time). *)
Variable whoisparser_Parse : string -> result Parsed.
Variable time_Parse : string -> string -> result Time.

(** [for _, format := range dateFormats { t, parseErr = time.Parse(format, value);
      if parseErr == nil { break } }] *)
Fixpoint parse_date (formats : list string) (value : string)
         (t : Time) (parseErr : option error) : Time * option error :=
  match formats with
  | [] => (t, parseErr)
  | format :: rest =>
      match time_Parse format value with
      | Ok t' => (t', None)
      | Err e => parse_date rest value Time_zero (Some e)
      end
  end.

(** [ParseWHOISResponse] *)
Definition ParseWHOISResponse (rawResponse : string) : result DomainInfo :=
  match whoisparser_Parse rawResponse with
  | Err err => Err (Errorf_w "failed to parse WHOIS response: " err)
  | Ok parsed =>
      match p_Domain parsed with
      | None => Err (errorString "WHOIS response does not contain domain information")
      | Some dom =>
          let '(expirationDate, parseErr) :=
            parse_date dateFormats (pd_ExpirationDate dom) Time_zero None in
          match parseErr with
          | Some e =>
              Err (wrapError ("failed to parse expiration date '" +:+ pd_ExpirationDate dom
                              +:+ "': " +:+ Error e) e)
          | None =>
              let '(createdDate, parseErr) :=
                if negb (String.eqb (pd_CreatedDate dom) "")
                then parse_date dateFormats (pd_CreatedDate dom) Time_zero parseErr
                else (Time_zero, parseErr) in
              let '(updatedDate, parseErr) :=
                if negb (String.eqb (pd_UpdatedDate dom) "")
                then parse_date dateFormats (pd_UpdatedDate dom) Time_zero parseErr
                else (Time_zero, parseErr) in
              let domainName := pd_Domain dom in
              let nameservers := pd_NameServers dom in
              let registrarName := match p_Registrar parsed with
                                   | Some registrar => Name registrar
                                   | None => ""
                                   end in
              Ok (mkDomainInfo domainName expirationDate nameservers
                               (extractRegistrant parsed) registrarName
                               createdDate updatedDate)
          end
      end
  end.

End Parsers.

End WhoisParse.

(* ===================================================================== *)
(** ** Package scheduler: start and stop *)
(* ===================================================================== *)

Module Lifecycle.

(** [for _, d := range domains { s.ScheduleDomain(d) }] *)
Fixpoint schedule_all (domains : list Domain) : M unit :=
  match domains with
  | [] => ret tt
  | d :: rest => exec Scheduler.ScheduleDomain d ;~ schedule_all rest
  end.

(** [Start]; [before] is the order the database puts on stored times. *)
Definition Start (before : Time -> Time -> bool) : M (option error) :=
  r <~ Domains.GetAll before ;~
  match r with
  | Err err => ret (Some (Errorf_w "failed to load domains: " err))
  | Ok domains =>
      exec schedule_all domains ;~
      ret None
  end.

(** [s.cancel()] *)
Definition cancel : M unit := fun w =>
  (tt, with_sched w (s_timers w) (s_scheduledDomains w) true (s_workerPool w)).

(** [for _, timer := range s.scheduledDomains { timer.Stop() }] *)
Definition stop_all (m : gmap string nat) (timers : list Timer) : list Timer :=
  fold_right (fun entry ts => Scheduler.stop_timer (snd entry) ts) timers (map_to_list m).

(** [Stop]; [drained] says whether the wait group gets to zero within
    the 30 seconds. *)
Definition Stop (drained : bool) : M (option error) :=
  exec cancel ;~
  '(timers, m) <~ Scheduler.get_sched ;~
  exec Scheduler.set_sched (stop_all m timers) m ;~
  if drained then ret None
  else ret (Some (errorString "timeout waiting for workers to finish")).

End Lifecycle.

(* ===================================================================== *)
(** ** Package web: adding and deleting a domain *)
(* ===================================================================== *)

Module WebDomains.

Definition StatusOK : Z := 200.

(** [handleAddDomain]; the request is what [r.ParseForm()] and
    [r.FormValue("domain")] give. *)
Definition handleAddDomain (req : result string) : M Web.Response :=
  match req with
  | Err err => ret (Web.renderError "Invalid form data" (Some err) Web.StatusBadRequest)
  | Ok domainName =>
  if String.eqb domainName "" then
    ret (Web.renderError "Domain name is required" None Web.StatusBadRequest)
  else
  (* Perform immediate WHOIS query *)
  q <~ Whois.QueryDomain Scheduler.whoisSvc domainName ;~
  match q with
  | Err err => ret (Web.renderError "Failed to query domain" (Some err) Web.StatusBadRequest)
  | Ok info =>
  (* Create domain *)
  now1 <~ time_Now ;~
  now2 <~ time_Now ;~
  let d := mkDomain "" domainName (di_ExpirationDate info) (di_Nameservers info)
                    (di_Registrant info) (di_Registrar info)
                    now1 (Time_Add now2 (24 * Hour)) Time_zero Time_zero in
  '(d, err) <~ Domains.Create d ;~
  match err with
  | Some e =>
      ret (Web.renderError "Failed to add domain" (Some e) Web.StatusInternalServerError)
  | None =>
      (* Schedule monitoring *)
      exec Scheduler.ScheduleDomain d ;~
      ret (Web.mkResponse Web.StatusSeeOther "/")
  end
  end
  end.

(** [handleDeleteDomain]; [id] is [r.URL.Query().Get("id")]. *)
Definition handleDeleteDomain (fk : bool) (id : string) : M Web.Response :=
  if String.eqb id "" then
    ret (Web.renderError "Domain ID is required" None Web.StatusBadRequest)
  else
    (* Unschedule monitoring *)
    exec Scheduler.UnscheduleDomain id ;~
    (* Delete domain *)
    err <~ Domains.Delete fk id ;~
    match err with
    | Some e =>
        ret (Web.renderError "Failed to delete domain" (Some e) Web.StatusInternalServerError)
    | None => ret (Web.mkResponse StatusOK "")
    end.

End WebDomains.

(* ===================================================================== *)
(** ** Observations used in the statements *)
(* ===================================================================== *)

Definition is_lookup (e : Event) : bool :=
  match e with EvWhois _ => true | _ => false end.

(** Number of resolver calls recorded in a trace. *)
Definition lookups (tr : list Event) : nat := length (List.filter is_lookup tr).

(** The error [queryWithTimeout] turns a resolver outcome into, if any. *)
Definition attempt_error (s : Whois.Service) (o : whois_outcome) : option error :=
  match o with
  | WhoisInfo _ => None
  | WhoisError err => Some err
  | WhoisNoAnswer =>
      Some (errorString ("WHOIS query timed out after " +:+ Whois.Duration_String (Whois.timeout s)))
  end.

(** The outcome of the [i]-th resolver call from now on. *)
Definition next_outcome (i : nat) (w : World) : whois_outcome :=
  nth i (w_whois w) WhoisNoAnswer.

(** Every database call still to come goes through. *)
Definition db_healthy (w : World) : Prop := Forall (fun o => o = None) (w_db w).

(** Number of alert records stored for the pair (domain id, threshold). *)
Definition records_for (id : string) (t : Z) (w : World) : nat :=
  length (AlertRepository.matching id t (t_alerts w)).

(** The configuration an evaluation starting in [w] reads. *)
Definition config_read (w : World) : result Config := (ConfigRepository.Get w).1.

(** [remaining = d.ExpirationDate - now] as [EvaluateAlerts] computes it:
    [time.Until] reads the clock right after the configuration is read. *)
Definition remaining (d : Domain) (w : World) : Duration :=
  Time_Sub (d_ExpirationDate d) (w_now (ConfigRepository.Get w).2).

(** The test of the loop: [timeUntilExpiration <= threshold && timeUntilExpiration > 0]. *)
Definition eligible (rem t : Duration) : bool := (rem <=? t) && (0 <? rem).

(** *** Sample data *)

Definition Day : Duration := 24 * Hour.

(** 2025-12-04 00:00:00 UTC and 2025-12-29 00:00:00 UTC. *)
Definition dec04 : Time := mkTime (1764806400 * 1000000000) 0.
Definition dec29 : Time := mkTime (1766966400 * 1000000000) 0.

Definition sample_config : Config :=
  mkConfig 1 (24 * Hour) [90 * Day; 60 * Day; 30 * Day; 7 * Day] "" (90 * Day) dec04.

Definition sample_domain : Domain :=
  mkDomain "d1" "test-alert-domain.com" dec29 ["ns1.example.com"; "ns2.example.com"]
           "Test User" "Test Registrar" dec04 dec04 dec04 dec04.

(** A quiet world at [now]: the given tables, no timers, a clock that
    stands still, a database and a webhook that answer, a resolver that
    does not. *)
Definition world_at (now : Time) (doms : list Domain) (cfg : option Config)
           (als : list Alert) : World :=
  mkWorld now [] [] [] [] 0 [] doms cfg als [] ∅ false 0 [].

Definition sample_world : World := world_at dec04 [sample_domain] (Some sample_config) [].

(** The same world with another run of database outcomes ahead. *)
Definition world_with_db (w : World) (db : list (option string)) : World :=
  with_env w (w_now w) (w_later w) db (w_http w) (w_whois w) (w_uuid w) (w_trace w).

(** The fifth database call from now fails. *)
Definition flaky_world : World :=
  world_with_db sample_world [None; None; None; None; Some "database is locked"].

(** *** Delivery attempts *)

Definition is_delivery (e : Event) : bool :=
  match e with EvPost _ _ | EvSleep _ => true | _ => false end.

(** Number of webhook posts and back-off sleeps recorded in a trace. *)
Definition deliveries (tr : list Event) : nat := length (List.filter is_delivery tr).

(** What an alert record says: the pair it is for and the delivery outcome. *)
Definition summary (a : Alert) : string * Z * bool * string :=
  (a_DomainID a, a_Threshold a, a_Success a, a_ErrorMessage a).

(** *** Scheduler *)

(** The duration [ScheduleDomain] passes to [time.AfterFunc]: the clock
    is read once for the comparison and once more by [time.Until]. *)
Definition armed_delay (d : Domain) (w : World) : Duration :=
  if Time_Before (w_now w) (d_NextCheck d)
  then Time_Sub (d_NextCheck d) (w_now (time_Now w).2)
  else 0.

(** Every pending timer is the one registered for its domain. *)
Definition sched_inv (w : World) : Prop :=
  forall h t, s_timers w !! h = Some t -> tm_pending t = true ->
              s_scheduledDomains w !! tm_domain t = Some h.

(** A timer after [Stop]. *)
Definition stopped (t : Timer) : Timer := mkTimer (tm_delay t) (tm_domain t) false.

(** The domains table and the scheduler are as they were. *)
Definition untouched (w w' : World) : Prop :=
  t_domains w' = t_domains w
  /\ s_timers w' = s_timers w
  /\ s_scheduledDomains w' = s_scheduledDomains w
  /\ s_ctxDone w' = s_ctxDone w
  /\ s_workerPool w' = s_workerPool w.

(** Shutdown has not been signalled and every pending timer is registered. *)
Definition sched_ok (w : World) : Prop := s_ctxDone w = false /\ sched_inv w.

(** The sample domain scheduled once; and the same state with a driver
    error ahead for the next database call. *)
Definition scheduled_world : World := (Scheduler.ScheduleDomain sample_domain sample_world).2.

Definition failing_read_world : World :=
  world_with_db scheduled_world [Some "driver: bad connection"].

(** *** Configuration updates *)








(** *** Configuration updates as the specification gives them *)













(** White space that is not ASCII: the no-break space U+00A0 and the
    ideographic space U+3000, in UTF-8; and a carriage return. *)
Definition NBSP : string := string_of_bytes [194; 160].
Definition IDSP : string := string_of_bytes [227; 128; 128].
Definition CR : string := string_of_bytes [13].

(** *** The alert message *)

(** The bell, U+1F514, in UTF-8. *)
Definition bell : string := string_of_bytes [240; 159; 148; 148].

(** What follows the first character in every message. *)
Definition message_body (alert : Alert) : string :=
  " Domain Expiration Alert" +:+ nl +:+ nl +:+
  "Domain: " +:+ a_DomainName alert +:+ nl +:+
  "Expiration Date: " +:+ Time_Format_date (a_ExpirationDate alert) +:+ nl +:+
  "Days Remaining: " +:+ itoa (DaysUntilExpiration alert) +:+ nl +:+
  "Alert Threshold: "
    +:+ itoa (f64_to_int (f64_div (Duration_Hours (GetThreshold alert)) (f64_of_Z 24)))
    +:+ " days" +:+ nl +:+ nl +:+
  "Please renew this domain to avoid service disruption.".

(** The message as the specification gives it: the bell, then the body. *)
Definition spec_message (alert : Alert) : string := bell +:+ message_body alert.

Definition sample_alert : Alert :=
  mkAlert "a1" "d1" "test-alert-domain.com" (30 * Day) dec29 dec04 false "".

(** *** Back-off *)

(** The [n] waits of a back-off that starts at [b] and doubles. *)
Fixpoint doubling (n : nat) (b : Duration) : list Duration :=
  match n with
  | O => []
  | S n' => b :: doubling n' (wrap64 (b * 2))
  end.

(** The error [sendToWebhook] makes of an answer, if any. *)
Definition post_error (o : http_outcome) : option error :=
  match o with
  | HttpError err => Some (Errorf_w "failed to send webhook: " err)
  | HttpStatus code =>
      if (code <? 200) || (300 <=? code)
      then Some (errorString ("webhook returned status " +:+ itoa code))
      else None
  end.

(** The answer to the [i]-th webhook post from now on. *)
Definition next_post (i : nat) (w : World) : http_outcome :=
  nth i (w_http w) (HttpStatus 200).

(** *** Stored domains *)

Definition stored (id : string) (w : World) : bool :=
  existsb (fun r => String.eqb (d_ID r) id) (t_domains w).

(** No timer is pending. *)
Definition all_stopped (w : World) : Prop :=
  forall h t, s_timers w !! h = Some t -> tm_pending t = false.

(** The form that leaves every field of the configuration page empty. *)
Definition empty_form : Web.Form := Web.mkForm "" "" "" "".

(** *** The timer registry *)

(** Every registered handle is a timer of the domain it is registered for. *)
Definition sched_wf (w : World) : Prop :=
  forall id h, s_scheduledDomains w !! id = Some h ->
               exists t, s_timers w !! h = Some t /\ tm_domain t = id.

(** A scheduler as [NewScheduler] makes it, or any state reached from it. *)
Definition sched_good (w : World) : Prop := sched_inv w /\ sched_wf w.

(** A fresh installation whose resolver answers the next lookup. *)
Definition sample_info : DomainInfo :=
  mkDomainInfo "example.org" dec29 ["ns1.example.org"] "Example Registrant"
               "Example Registrar" dec04 dec04.

Definition answering_world : World :=
  mkWorld dec04 [] [] [] [WhoisInfo sample_info] 0 [] [] (Some sample_config) [] [] ∅ false 0 [].

(** *** Dates of a WHOIS response *)

(** What the first layout that parses [value] gives, if any does. *)
Fixpoint first_parse (time_Parse : string -> string -> result Time)
         (formats : list string) (value : string) : option Time :=
  match formats with
  | [] => None
  | format :: rest =>
      match time_Parse format value with
      | Ok t => Some t
      | Err _ => first_parse time_Parse rest value
      end
  end.

(** An optional date field: the zero time when it is empty or no layout
    parses it. *)
Definition optional_date (time_Parse : string -> string -> result Time)
           (value : string) : Time :=
  if String.eqb value "" then Time_zero
  else match first_parse time_Parse WhoisParse.dateFormats value with
       | Some t => t
       | None => Time_zero
       end.

(** A [time.Parse] that knows one date, and a parser that finds a domain
    with that expiration date and unreadable creation and update dates. *)
Definition sample_time_Parse (layout value : string) : result Time :=
  if String.eqb layout "2006-01-02T15:04:05Z" && String.eqb value "2025-12-29T00:00:00Z"
  then Ok dec29
  else Err (errorString ("parsing time " +:+ value)).

Definition sample_parsed : WhoisParse.Parsed :=
  WhoisParse.mkParsed
    (Some (WhoisParse.mkParsedDomain "example.org" ["ns1.example.org"]
             "before 1995" "n/a" "2025-12-29T00:00:00Z"))
    None
    (Some (WhoisParse.mkContact "" "Example Org" "admin@example.org")).

Definition sample_whoisparser (raw : string) : result WhoisParse.Parsed := Ok sample_parsed.

(** A stored domain whose next lookup is answered. *)
Definition refresh_world : World :=
  mkWorld dec04 [] [] [] [WhoisInfo sample_info] 0 [] [sample_domain] (Some sample_config) []
          [] ∅ false 0 [].

(** A configuration with a webhook, and a world whose webhook answers
    the next three posts with the given status codes. *)
Definition hook_config : Config := Config_set_webhook sample_config "https://chat.example/hook".

Definition hook_world (codes : list Z) : World :=
  with_env sample_world dec04 [] [] (List.map HttpStatus codes) [] 0%nat [].

(* ===================================================================== *)
(** * Properties *)
(* ===================================================================== *)

(** ** Running the monad *)

Ltac mrun :=
  cbv beta iota delta
    [bind ret log db_call http_Post whois_call time_Now time_Until time_Sleep uuid_New
     select_pick get_domains set_domains get_config set_config get_alerts set_alerts
     with_env with_tables with_sched
     Scheduler.get_sched Scheduler.set_sched Scheduler.ctx_Done Scheduler.set_pool
     Scheduler.get_pool];
  simpl.

Ltac destruct_world w :=
  destruct w as [wnow wlater wdb whttp wwhois wuuid wpick wdoms wcfg wals
                 wtimers wsched wdone wpool wtr].

Lemma bind_run {A B} (m : M A) (k : A -> M B) (w : World) :
  bind m k w = k (fst (m w)) (snd (m w)).
Proof. unfold bind. destruct (m w); reflexivity. Qed.

Lemma ret_run {A} (a : A) (w : World) : ret a w = (a, w).
Proof. reflexivity. Qed.

(** ** Retention deletion of the domain store (C9) *)

Lemma existsb_own_id (r : Domain) (rows : list Domain) :
  In r rows -> existsb (String.eqb (d_ID r)) (List.map d_ID rows) = true.
Proof.
  intros Hin. apply existsb_exists. exists (d_ID r). split.
  - apply in_map. exact Hin.
  - apply String.eqb_refl.
Qed.

Lemma delete_filter_never (cutoff : Time) (rows : list Domain) (r : Domain) :
  In r rows -> DomainRepository.delete_filter cutoff rows r = false.
Proof.
  intros Hin. unfold DomainRepository.delete_filter.
  rewrite (existsb_own_id r rows Hin). simpl. apply andb_false_r.
Qed.

Lemma filter_keeps_all {A} (f : A -> bool) (l : list A) :
  (forall x, In x l -> f x = true) -> List.filter f l = l.
Proof.
  induction l as [|a l IH]; intros Hall; simpl.
  - reflexivity.
  - rewrite (Hall a (or_introl eq_refl)). f_equal. apply IH.
    intros x Hx. apply Hall. right. exact Hx.
Qed.

(** C9. For every cutoff and every database state, the filter of
    [DomainRepository.DeleteOlderThan] selects no stored row (a row's id
    always appears among the ids of the table), and the call leaves the
    domains table, the config row and the alerts table as they were,
    whether or not the driver reports an error. *)
Theorem DeleteOlderThan_deletes_nothing :
  forall (cutoff : Time) (w : World),
    (forall r, In r (t_domains w) ->
               DomainRepository.delete_filter cutoff (t_domains w) r = false)
    /\ t_domains (snd (DomainRepository.DeleteOlderThan cutoff w)) = t_domains w
    /\ t_config (snd (DomainRepository.DeleteOlderThan cutoff w)) = t_config w
    /\ t_alerts (snd (DomainRepository.DeleteOlderThan cutoff w)) = t_alerts w.
Proof.
  intros cutoff w. split.
  - intros r Hin. apply delete_filter_never. exact Hin.
  - assert (Hkeep : forall rows : list Domain,
               List.filter (fun r => negb (DomainRepository.delete_filter cutoff rows r)) rows = rows).
    { intros rows. apply filter_keeps_all. intros x Hx.
      rewrite (delete_filter_never cutoff rows x Hx). reflexivity. }
    unfold DomainRepository.DeleteOlderThan. mrun.
    destruct (w_db w) as [|[msg|] rest]; simpl; rewrite ?Hkeep; auto.
Qed.

Lemma DeleteOlderThan_deletes_nothing_witness :
  DomainRepository.delete_filter dec29 [sample_domain] sample_domain = false
  /\ t_domains (DomainRepository.DeleteOlderThan dec29 sample_world).2 = [sample_domain].
Proof.
  destruct (DeleteOlderThan_deletes_nothing dec29 sample_world) as (Hnone & Hsame & _).
  split; [apply Hnone; left; reflexivity | exact Hsame].
Defined.

(** ** Alert evaluation: one record per crossed threshold (C1) *)

(** [SendAlert] only consumes webhook outcomes and extends the trace. *)
Lemma SendAlert_loop_frame (fuel : nat) :
  forall url msg attempt backoff lastErr w,
  exists r http' evs,
    AlertService.SendAlert_loop fuel url msg attempt backoff lastErr w
    = (r, with_env w (w_now w) (w_later w) (w_db w) http' (w_whois w) (w_uuid w)
                   (w_trace w ++ evs)).
Proof.
  induction fuel as [|fuel IH]; intros url msg attempt backoff lastErr w.
  - destruct_world w. simpl. exists (Some match lastErr with
                  | Some e => Errorf_w "failed after 3 attempts: " e
                  | None => errorString "failed after 3 attempts: %!w(<nil>)"
                  end), whttp, []. rewrite app_nil_r. reflexivity.
  - destruct_world w. simpl. unfold AlertService.sendToWebhook. mrun.
    destruct whttp as [|[code|err] rest]; simpl.
    + eexists _, _, _. reflexivity.
    + destruct ((code <? 200) || (300 <=? code)).
      * destruct (attempt <? 2);
          match goal with |- context [AlertService.SendAlert_loop fuel ?u ?m ?a ?b ?l ?w] =>
            destruct (IH u m a b l w) as (r & h & t & ->) end;
          simpl; rewrite <- !app_assoc; eexists _, _, _; reflexivity.
      * eexists _, _, _. reflexivity.
    + destruct (attempt <? 2);
          match goal with |- context [AlertService.SendAlert_loop fuel ?u ?m ?a ?b ?l ?w] =>
            destruct (IH u m a b l w) as (r & h & t & ->) end;
          simpl; rewrite <- !app_assoc; eexists _, _, _; reflexivity.
Qed.

Lemma SendAlert_frame (a : Alert) (url : string) (w : World) :
  exists r http' evs,
    AlertService.SendAlert a url w
    = (r, with_env w (w_now w) (w_later w) (w_db w) http' (w_whois w) (w_uuid w)
                   (w_trace w ++ evs)).
Proof.
  unfold AlertService.SendAlert. destruct (String.eqb url "").
  - destruct_world w. simpl. exists (Some (errorString "no webhook URL configured")), whttp, [].
    rewrite app_nil_r. reflexivity.
  - apply SendAlert_loop_frame.
Qed.

Ltac use_SendAlert_frame :=
  match goal with
  | |- context [AlertService.SendAlert ?a ?u ?w] =>
      let r := fresh "sendErr" in
      let h := fresh "http'" in
      let tr := fresh "tr'" in
      destruct (SendAlert_frame a u w) as (r & h & tr & ->)
  end.

Lemma count_positive (id : string) (t : Z) (rows : list Alert) :
  (0 <? Z.of_nat (length (AlertRepository.matching id t rows))) = false
  <-> length (AlertRepository.matching id t rows) = 0%nat.
Proof. rewrite Z.ltb_ge. lia. Qed.

(** What one iteration does to the alerts table. *)
Lemma evaluate_threshold_alerts (d : Domain) (cfg : Config) (rem th : Duration) (w : World) :
  let w' := (AlertService.evaluate_threshold d cfg rem th w).2 in
  t_alerts w' = t_alerts w
  \/ (eligible rem th = true /\ records_for (d_ID d) th w = 0%nat
      /\ exists a, t_alerts w' = t_alerts w ++ [a]
                   /\ a_DomainID a = d_ID d /\ a_Threshold a = th).
Proof.
  destruct_world w. unfold AlertService.evaluate_threshold, eligible, records_for.
  destruct ((rem <=? th) && (0 <? rem)); [|left; reflexivity].
  unfold AlertRepository.HasAlertBeenSent. mrun.
  destruct wdb as [|[msg|] rest]; simpl; try (left; reflexivity).
  all: destruct (0 <? Z.of_nat (length (AlertRepository.matching (d_ID d) th wals))) eqn:Hc;
    simpl; try (left; reflexivity).
  all: apply count_positive in Hc.
  all: destruct wlater as [|t1 later]; simpl.
  all: use_SendAlert_frame; simpl.
  all: unfold AlertRepository.Create; mrun.
  all: destruct sendErr; simpl.
  all: try (destruct rest as [|[msg|] rest]; simpl).
  all: try (left; reflexivity).
  all: right; split; [reflexivity|]; split; [exact Hc|]; eexists; split; [reflexivity|]; split; reflexivity.
Qed.

Lemma db_healthy_inv (o : option string) (rest : list (option string)) :
  Forall (fun o => o = None) (o :: rest) -> o = None /\ Forall (fun o => o = None) rest.
Proof. intros H. apply Forall_cons in H. exact H. Qed.

(** With a database that answers, an iteration returns no error and
    records the threshold when it is due and not yet recorded. *)
Lemma evaluate_threshold_healthy (d : Domain) (cfg : Config) (rem th : Duration) (w : World) :
  db_healthy w ->
  let r := (AlertService.evaluate_threshold d cfg rem th w).1 in
  let w' := (AlertService.evaluate_threshold d cfg rem th w).2 in
  r = None /\ db_healthy w'
  /\ (eligible rem th = true -> records_for (d_ID d) th w = 0%nat ->
      exists a, t_alerts w' = t_alerts w ++ [a]
                /\ a_DomainID a = d_ID d /\ a_Threshold a = th).
Proof.
  destruct_world w. unfold db_healthy, AlertService.evaluate_threshold, eligible, records_for. simpl.
  intros Hdb.
  destruct ((rem <=? th) && (0 <? rem)); [|simpl; repeat split; [exact Hdb | discriminate]].
  unfold AlertRepository.HasAlertBeenSent. mrun.
  destruct wdb as [|o rest]; simpl.
  2: { apply db_healthy_inv in Hdb. destruct Hdb as [-> Hdb]. simpl.
       destruct (0 <? Z.of_nat (length (AlertRepository.matching (d_ID d) th wals))) eqn:Hc; simpl.
       { repeat split; [exact Hdb|]. intros _ Hz. apply count_positive in Hz. congruence. }
       destruct wlater as [|t1 later]; simpl.
       all: use_SendAlert_frame; simpl.
       all: unfold AlertRepository.Create; mrun.
       all: destruct sendErr; simpl.
       all: destruct rest as [|o' rest]; simpl.
       all: try (apply db_healthy_inv in Hdb; destruct Hdb as [-> Hdb]; simpl).
       all: repeat split; try assumption; try (constructor).
       all: intros _ _; eexists; split; [reflexivity|]; split; reflexivity. }
  destruct (0 <? Z.of_nat (length (AlertRepository.matching (d_ID d) th wals))) eqn:Hc; simpl.
  { repeat split; [exact Hdb|]. intros _ Hz. apply count_positive in Hz. congruence. }
  destruct wlater as [|t1 later]; simpl.
  all: use_SendAlert_frame; simpl.
  all: unfold AlertRepository.Create; mrun.
  all: destruct sendErr; simpl.
  all: repeat split; try assumption; try (constructor).
  all: intros _ _; eexists; split; [reflexivity|]; split; reflexivity.
Qed.

Lemma evaluate_loop_cons (d : Domain) (cfg : Config) (rem th : Duration)
      (rest : list Duration) (w : World) :
  AlertService.evaluate_loop d cfg rem (th :: rest) w
  = match (AlertService.evaluate_threshold d cfg rem th w).1 with
    | Some e => (Some e, (AlertService.evaluate_threshold d cfg rem th w).2)
    | None => AlertService.evaluate_loop d cfg rem rest
                (AlertService.evaluate_threshold d cfg rem th w).2
    end.
Proof.
  simpl. unfold bind. destruct (AlertService.evaluate_threshold d cfg rem th w) as [[e|] w'];
    reflexivity.
Qed.

Lemma matching_app (id : string) (t : Z) (rows : list Alert) (a : Alert) :
  length (AlertRepository.matching id t (rows ++ [a]))
  = (length (AlertRepository.matching id t rows)
     + (if String.eqb (a_DomainID a) id && Z.eqb (a_Threshold a) t then 1 else 0))%nat.
Proof.
  unfold AlertRepository.matching. rewrite List.filter_app, length_app. simpl.
  destruct (String.eqb (a_DomainID a) id && (a_Threshold a =? t)); reflexivity.
Qed.

(** An iteration for threshold [th] leaves the number of records of any
    other threshold, of a threshold that is not due, and of a threshold
    already recorded, as it was. *)
Lemma evaluate_threshold_keeps (d : Domain) (cfg : Config) (rem th t : Duration) (w : World) :
  eligible rem t = false \/ records_for (d_ID d) t w <> 0%nat \/ th <> t ->
  records_for (d_ID d) t (AlertService.evaluate_threshold d cfg rem th w).2
  = records_for (d_ID d) t w.
Proof.
  intros Hcase.
  destruct (evaluate_threshold_alerts d cfg rem th w) as [Hsame | (Hel & Hzero & a & Happ & Hid & Hth)].
  - unfold records_for. rewrite Hsame. reflexivity.
  - unfold records_for. rewrite Happ, matching_app.
    destruct (Z.eq_dec th t) as [->|Hne].
    + destruct Hcase as [Hcase | [Hcase | Hcase]]; congruence.
    + rewrite Hth. replace (th =? t) with false by (symmetry; apply Z.eqb_neq; exact Hne).
      rewrite andb_false_r. lia.
Qed.

Lemma evaluate_loop_keeps (d : Domain) (cfg : Config) (rem t : Duration)
      (ts : list Duration) :
  forall w,
    eligible rem t = false \/ records_for (d_ID d) t w <> 0%nat ->
    records_for (d_ID d) t (AlertService.evaluate_loop d cfg rem ts w).2
    = records_for (d_ID d) t w.
Proof.
  induction ts as [|th rest IH]; intros w Hcase.
  - reflexivity.
  - rewrite evaluate_loop_cons.
    assert (Hstep := evaluate_threshold_keeps d cfg rem th t w
                       ltac:(destruct Hcase; [left | right; left]; assumption)).
    destruct (AlertService.evaluate_threshold d cfg rem th w).1; simpl.
    + exact Hstep.
    + rewrite IH; [exact Hstep|]. rewrite Hstep. exact Hcase.
Qed.

Lemma evaluate_loop_healthy (d : Domain) (cfg : Config) (rem : Duration) (ts : list Duration) :
  forall w, db_healthy w ->
            (AlertService.evaluate_loop d cfg rem ts w).1 = None
            /\ db_healthy (AlertService.evaluate_loop d cfg rem ts w).2.
Proof.
  induction ts as [|th rest IH]; intros w Hdb.
  - split; [reflexivity | exact Hdb].
  - rewrite evaluate_loop_cons.
    destruct (evaluate_threshold_healthy d cfg rem th w Hdb) as (-> & Hdb' & _).
    apply IH. exact Hdb'.
Qed.

Lemma evaluate_loop_records (d : Domain) (cfg : Config) (rem t : Duration)
      (ts : list Duration) :
  forall w,
    db_healthy w -> In t ts -> eligible rem t = true -> records_for (d_ID d) t w = 0%nat ->
    records_for (d_ID d) t (AlertService.evaluate_loop d cfg rem ts w).2 = 1%nat.
Proof.
  induction ts as [|th rest IH]; intros w Hdb Hin Hel Hzero.
  - destruct Hin.
  - rewrite evaluate_loop_cons.
    destruct (evaluate_threshold_healthy d cfg rem th w Hdb) as (Hnone & Hdb' & Hnew).
    rewrite Hnone.
    destruct (Z.eq_dec th t) as [->|Hne].
    + destruct (Hnew Hel Hzero) as (a & Happ & Hid & Hth).
      assert (Hone : records_for (d_ID d) t (AlertService.evaluate_threshold d cfg rem t w).2 = 1%nat).
      { unfold records_for in *. rewrite Happ, matching_app, Hzero, Hid, Hth.
        rewrite String.eqb_refl, Z.eqb_refl. reflexivity. }
      rewrite evaluate_loop_keeps; [exact Hone | right; lia].
    + apply IH; try assumption.
      * destruct Hin as [Heq | Hin]; [congruence | exact Hin].
      * rewrite evaluate_threshold_keeps; [exact Hzero | right; right; exact Hne].
Qed.

(** Reading the configuration never touches the other tables nor the
    scheduler. *)
Lemma Get_frame (w : World) :
  t_alerts (ConfigRepository.Get w).2 = t_alerts w
  /\ t_domains (ConfigRepository.Get w).2 = t_domains w
  /\ s_timers (ConfigRepository.Get w).2 = s_timers w
  /\ s_scheduledDomains (ConfigRepository.Get w).2 = s_scheduledDomains w
  /\ s_ctxDone (ConfigRepository.Get w).2 = s_ctxDone w.
Proof.
  destruct_world w. unfold ConfigRepository.Get, ConfigRepository.createDefaultConfig,
    ConfigRepository.create. mrun.
  destruct wdb as [|[msg|] rest]; simpl; auto.
  all: destruct wcfg; simpl; auto.
  all: destruct wlater as [|t1 [|t2 later]]; simpl; auto.
  all: destruct rest as [|[msg|] rest]; simpl; auto.
Qed.

Lemma Get_healthy (w : World) :
  db_healthy w ->
  db_healthy (ConfigRepository.Get w).2 /\ exists cfg, (ConfigRepository.Get w).1 = Ok cfg.
Proof.
  destruct_world w. unfold db_healthy, ConfigRepository.Get, ConfigRepository.createDefaultConfig,
    ConfigRepository.create. simpl. intros Hdb. mrun.
  destruct wdb as [|o rest]; simpl.
  - destruct wcfg; simpl; [eauto|].
    destruct wlater as [|t1 [|t2 later]]; simpl; eauto.
  - apply db_healthy_inv in Hdb. destruct Hdb as [-> Hdb]. simpl.
    destruct wcfg; simpl; [eauto|].
    destruct wlater as [|t1 [|t2 later]]; simpl.
    all: destruct rest as [|o' rest]; simpl; eauto.
    all: apply db_healthy_inv in Hdb; destruct Hdb as [-> Hdb]; simpl; eauto.
Qed.

Lemma EvaluateAlerts_run (d : Domain) (w : World) :
  AlertService.EvaluateAlerts d w
  = match (ConfigRepository.Get w).1 with
    | Err err => (Some (Errorf_w "failed to get config: " err), (ConfigRepository.Get w).2)
    | Ok config =>
        AlertService.evaluate_loop d config (remaining d w) (GetAlertThresholds config)
          (time_Now (ConfigRepository.Get w).2).2
    end.
Proof.
  unfold AlertService.EvaluateAlerts, remaining, time_Until, bind, ret, time_Now.
  destruct (ConfigRepository.Get w) as [[cfg|err] w0]; simpl; [|reflexivity].
  destruct (w_later w0); reflexivity.
Qed.

Lemma time_Now_frame (w : World) :
  t_alerts (time_Now w).2 = t_alerts w /\ w_db (time_Now w).2 = w_db w.
Proof. destruct_world w. unfold time_Now. simpl. destruct wlater; simpl; auto. Qed.

Lemma EvaluateAlerts_keeps (d : Domain) (t : Duration) (w : World) :
  eligible (remaining d w) t = false \/ records_for (d_ID d) t w <> 0%nat ->
  records_for (d_ID d) t (AlertService.EvaluateAlerts d w).2 = records_for (d_ID d) t w.
Proof.
  intros Hcase. rewrite EvaluateAlerts_run.
  assert (Hget : records_for (d_ID d) t (ConfigRepository.Get w).2 = records_for (d_ID d) t w).
  { unfold records_for. destruct (Get_frame w) as (-> & _). reflexivity. }
  destruct (ConfigRepository.Get w).1 as [cfg|err]; simpl; [|exact Hget].
  assert (Hnow : records_for (d_ID d) t (time_Now (ConfigRepository.Get w).2).2
                 = records_for (d_ID d) t w).
  { unfold records_for. destruct (time_Now_frame (ConfigRepository.Get w).2) as (-> & _).
    exact Hget. }
  rewrite evaluate_loop_keeps; [exact Hnow|]. rewrite Hnow. exact Hcase.
Qed.

(** C1. If the database answers, [t] is a configured threshold,
    [0 < remaining <= t] and no record exists for [(d.ID, t)], then one
    call to [EvaluateAlerts] returns no error and leaves exactly one record
    for that pair, and a further call in any state with that alerts table
    leaves it at one.  Whatever the database does, a call creates no
    record for a threshold with [remaining > t] or with [remaining <= 0]. *)
Theorem EvaluateAlerts_once_per_threshold :
  forall (d : Domain) (w : World),
    (forall cfg t,
        db_healthy w ->
        config_read w = Ok cfg ->
        In t (GetAlertThresholds cfg) ->
        0 < remaining d w <= t ->
        records_for (d_ID d) t w = 0%nat ->
        let w1 := (AlertService.EvaluateAlerts d w).2 in
        (AlertService.EvaluateAlerts d w).1 = None
        /\ records_for (d_ID d) t w1 = 1%nat
        /\ forall w2, t_alerts w2 = t_alerts w1 ->
                      records_for (d_ID d) t (AlertService.EvaluateAlerts d w2).2 = 1%nat)
    /\ (forall t,
          remaining d w > t \/ remaining d w <= 0 ->
          records_for (d_ID d) t (AlertService.EvaluateAlerts d w).2
          = records_for (d_ID d) t w).
Proof.
  intros d w. split.
  - intros cfg t Hdb Hcfg Hin Hrem Hzero w1.
    assert (Hel : eligible (remaining d w) t = true).
    { unfold eligible. apply andb_true_intro. split; [apply Z.leb_le | apply Z.ltb_lt]; lia. }
    destruct (Get_healthy w Hdb) as (Hdb0 & _).
    assert (Hdb1 : db_healthy (time_Now (ConfigRepository.Get w).2).2).
    { unfold db_healthy. destruct (time_Now_frame (ConfigRepository.Get w).2) as (_ & ->).
      exact Hdb0. }
    assert (Hz1 : records_for (d_ID d) t (time_Now (ConfigRepository.Get w).2).2 = 0%nat).
    { unfold records_for. destruct (time_Now_frame (ConfigRepository.Get w).2) as (-> & _).
      destruct (Get_frame w) as (-> & _). exact Hzero. }
    assert (Hone : records_for (d_ID d) t w1 = 1%nat).
    { subst w1. rewrite EvaluateAlerts_run. unfold config_read in Hcfg. rewrite Hcfg.
      apply evaluate_loop_records; assumption. }
    split; [|split].
    + rewrite EvaluateAlerts_run. unfold config_read in Hcfg. rewrite Hcfg.
      apply evaluate_loop_healthy. exact Hdb1.
    + exact Hone.
    + intros w2 Hsame.
      assert (Hw2 : records_for (d_ID d) t w2 = 1%nat).
      { unfold records_for in *. rewrite Hsame. exact Hone. }
      rewrite EvaluateAlerts_keeps; [exact Hw2 | right; lia].
  - intros t Hcase. apply EvaluateAlerts_keeps. left.
    unfold eligible. apply andb_false_iff.
    destruct Hcase; [left; apply Z.leb_gt | right; apply Z.ltb_ge]; lia.
Qed.

Lemma EvaluateAlerts_once_per_threshold_witness :
  (AlertService.EvaluateAlerts sample_domain sample_world).1 = None
  /\ records_for "d1" (30 * Day) (AlertService.EvaluateAlerts sample_domain sample_world).2 = 1%nat
  /\ records_for "d1" (30 * Day)
       (AlertService.EvaluateAlerts sample_domain
          (AlertService.EvaluateAlerts sample_domain sample_world).2).2 = 1%nat
  /\ records_for "d1" (7 * Day) (AlertService.EvaluateAlerts sample_domain sample_world).2
     = 0%nat.
Proof.
  destruct (EvaluateAlerts_once_per_threshold sample_domain sample_world) as [H Hnot].
  destruct (H sample_config (30 * Day)) as (H1 & H2 & H3).
  - constructor.
  - reflexivity.
  - simpl. auto.
  - vm_compute. split; [reflexivity | discriminate].
  - reflexivity.
  - split; [exact H1 | split; [exact H2 | split; [apply H3; reflexivity|]]].
    refine (eq_trans (Hnot (7 * Day) _) _); [left; vm_compute; reflexivity | reflexivity].
Defined.

(** ** Lookup retries (C4) *)

Lemma lookups_app (l k : list Event) : lookups (l ++ k) = (lookups l + lookups k)%nat.
Proof. unfold lookups. rewrite List.filter_app, length_app. reflexivity. Qed.

(** C4. [QueryDomain] of the service [NewService] builds calls the
    resolver at most three times; when the three attempts fail it sleeps 1s
    after the first and 2s after the second, does nothing after the third,
    and returns an error that wraps the third attempt's error under the
    text "failed after 3 attempts: ". *)
Theorem QueryDomain_three_attempts :
  forall (name : string) (w : World),
    let r := fst (Whois.QueryDomain Whois.NewService name w) in
    let w' := snd (Whois.QueryDomain Whois.NewService name w) in
    (lookups (w_trace w') <= lookups (w_trace w) + 3)%nat
    /\ forall e1 e2 e3,
         attempt_error Whois.NewService (next_outcome 0 w) = Some e1 ->
         attempt_error Whois.NewService (next_outcome 1 w) = Some e2 ->
         attempt_error Whois.NewService (next_outcome 2 w) = Some e3 ->
         r = Err (wrapError ("failed after 3 attempts: " +:+ Error e3) e3)
         /\ w_trace w' = w_trace w ++ [EvWhois name; EvSleep Second; EvWhois name;
                                       EvSleep (2 * Second); EvWhois name].
Proof.
  intros name w r w'. subst r w'.
  unfold Whois.QueryDomain, Whois.NewService, next_outcome, attempt_error. simpl.
  unfold Whois.queryWithTimeout. mrun.
  destruct (w_whois w) as [|o1 [|o2 [|o3 rest]]]; simpl.
  all: repeat match goal with o : whois_outcome |- _ => destruct o end; simpl.
  all: rewrite <- ?app_assoc; simpl; rewrite ?lookups_app; simpl.
  all: split; [ unfold lookups; simpl; lia | ].
  all: intros e1 e2 e3 H1 H2 H3; try discriminate.
  all: inversion H1; inversion H2; inversion H3; subst; split; reflexivity.
Qed.

Lemma QueryDomain_three_attempts_witness :
  (Whois.QueryDomain Whois.NewService "example.com" sample_world).1
  = Err (wrapError "failed after 3 attempts: WHOIS query timed out after 30s"
                   (errorString "WHOIS query timed out after 30s"))
  /\ w_trace (Whois.QueryDomain Whois.NewService "example.com" sample_world).2
     = [EvWhois "example.com"; EvSleep Second; EvWhois "example.com";
        EvSleep (2 * Second); EvWhois "example.com"].
Proof.
  destruct (QueryDomain_three_attempts "example.com" sample_world) as [_ H].
  apply (H (errorString "WHOIS query timed out after 30s")
           (errorString "WHOIS query timed out after 30s")
           (errorString "WHOIS query timed out after 30s")); reflexivity.
Defined.

(** ** Errors end the evaluation (C10) *)

Lemma evaluate_loop_app (d : Domain) (cfg : Config) (rem t : Duration)
      (pre post : list Duration) :
  forall w,
    (AlertService.evaluate_loop d cfg rem pre w).1 = None ->
    AlertService.evaluate_loop d cfg rem (pre ++ t :: post) w
    = AlertService.evaluate_loop d cfg rem (t :: post)
        (AlertService.evaluate_loop d cfg rem pre w).2.
Proof.
  induction pre as [|th pre IH]; intros w Hnone.
  - reflexivity.
  - change ((th :: pre) ++ t :: post) with (th :: (pre ++ t :: post)).
    rewrite (evaluate_loop_cons d cfg rem th pre w) in Hnone.
    rewrite (evaluate_loop_cons d cfg rem th (pre ++ t :: post) w),
            (evaluate_loop_cons d cfg rem th pre w).
    destruct (AlertService.evaluate_threshold d cfg rem th w).1; [discriminate|].
    apply IH. exact Hnone.
Qed.

(** Records are only ever added at the end of the table. *)
Lemma evaluate_loop_extends (d : Domain) (cfg : Config) (rem : Duration) (ts : list Duration) :
  forall w, exists new,
    t_alerts (AlertService.evaluate_loop d cfg rem ts w).2 = t_alerts w ++ new.
Proof.
  induction ts as [|th rest IH]; intros w.
  - exists []. simpl. rewrite app_nil_r. reflexivity.
  - rewrite evaluate_loop_cons.
    assert (Hstep : exists new,
               t_alerts (AlertService.evaluate_threshold d cfg rem th w).2 = t_alerts w ++ new).
    { destruct (evaluate_threshold_alerts d cfg rem th w) as [Hsame | (_ & _ & a & Happ & _)].
      - exists []. rewrite app_nil_r. exact Hsame.
      - exists [a]. exact Happ. }
    destruct Hstep as [new1 Hstep].
    destruct (AlertService.evaluate_threshold d cfg rem th w).1; simpl.
    + exists new1. exact Hstep.
    + destruct (IH (AlertService.evaluate_threshold d cfg rem th w).2) as [new2 Hrest].
      exists (new1 ++ new2). rewrite Hrest, Hstep, app_assoc. reflexivity.
Qed.

(** The dedup query fails: the iteration returns its error at once. *)
Lemma evaluate_threshold_query_fails (d : Domain) (cfg : Config) (rem t : Duration)
      (w : World) (msg : string) (rest : list (option string)) :
  eligible rem t = true ->
  w_db w = Some msg :: rest ->
  let r := (AlertService.evaluate_threshold d cfg rem t w).1 in
  let w' := (AlertService.evaluate_threshold d cfg rem t w).2 in
  r = Some (Errorf_w "failed to check if alert was sent: "
              (Errorf_w "failed to check if alert was sent: " (errorString msg)))
  /\ t_alerts w' = t_alerts w
  /\ w_db w' = rest
  /\ w_trace w' = w_trace w ++ [EvSQL (QAlertCount (d_ID d) t)].
Proof.
  destruct_world w. unfold AlertService.evaluate_threshold, eligible. simpl.
  intros -> ->. unfold AlertRepository.HasAlertBeenSent. mrun. auto.
Qed.

(** The insert fails: the iteration returns its error, and the table is
    as before. *)
Lemma evaluate_threshold_insert_fails (d : Domain) (cfg : Config) (rem t : Duration)
      (w : World) (msg : string) (rest : list (option string)) :
  eligible rem t = true ->
  records_for (d_ID d) t w = 0%nat ->
  w_db w = None :: Some msg :: rest ->
  let r := (AlertService.evaluate_threshold d cfg rem t w).1 in
  let w' := (AlertService.evaluate_threshold d cfg rem t w).2 in
  r = Some (Errorf_w "failed to save alert: "
              (Errorf_w "failed to create alert: " (errorString msg)))
  /\ t_alerts w' = t_alerts w
  /\ w_db w' = rest
  /\ exists a evs,
       w_trace w' = w_trace w ++ [EvSQL (QAlertCount (d_ID d) t)] ++ evs ++ [EvSQL (QAlertInsert a)]
       /\ a_DomainID a = d_ID d /\ a_Threshold a = t.
Proof.
  destruct_world w. unfold AlertService.evaluate_threshold, eligible, records_for. simpl.
  intros -> Hz ->. unfold AlertRepository.HasAlertBeenSent. mrun.
  rewrite Hz. simpl.
  destruct wlater as [|t1 later]; simpl.
  all: use_SendAlert_frame; simpl.
  all: unfold AlertRepository.Create; mrun.
  all: destruct sendErr; simpl.
  all: repeat split.
  all: rewrite <- !app_assoc; simpl.
  all: eexists _, _; split; [reflexivity|]; split; reflexivity.
Qed.

(** C10. When the configuration cannot be read, [EvaluateAlerts] returns
    that error and has done nothing but the read.  When, after the
    thresholds [pre] went through, the dedup query or the insert for the
    next due threshold [t] fails, the call returns that error; the alerts
    table is the one the earlier thresholds left (which extends the
    initial one), the failing statement is the last thing in the trace and
    no database outcome after it is consumed, whatever thresholds [post]
    follow [t] in the list. *)
Theorem EvaluateAlerts_stops_at_first_error :
  forall (d : Domain) (w : World),
    let out := AlertService.EvaluateAlerts d w in
    (forall e,
        config_read w = Err e ->
        out.1 = Some (Errorf_w "failed to get config: " e)
        /\ out.2 = (ConfigRepository.Get w).2
        /\ t_alerts out.2 = t_alerts w)
    /\ (forall cfg pre t post msg rest,
          config_read w = Ok cfg ->
          GetAlertThresholds cfg = pre ++ t :: post ->
          let rem := remaining d w in
          let w0 := (time_Now (ConfigRepository.Get w).2).2 in
          (AlertService.evaluate_loop d cfg rem pre w0).1 = None ->
          let w1 := (AlertService.evaluate_loop d cfg rem pre w0).2 in
          eligible rem t = true ->
          (w_db w1 = Some msg :: rest ->
             out.1 = Some (Errorf_w "failed to check if alert was sent: "
                             (Errorf_w "failed to check if alert was sent: " (errorString msg)))
             /\ t_alerts out.2 = t_alerts w1
             /\ w_db out.2 = rest
             /\ w_trace out.2 = w_trace w1 ++ [EvSQL (QAlertCount (d_ID d) t)])
          /\ (w_db w1 = None :: Some msg :: rest ->
              records_for (d_ID d) t w1 = 0%nat ->
              out.1 = Some (Errorf_w "failed to save alert: "
                              (Errorf_w "failed to create alert: " (errorString msg)))
              /\ t_alerts out.2 = t_alerts w1
              /\ w_db out.2 = rest
              /\ exists a evs,
                   w_trace out.2
                   = w_trace w1 ++ [EvSQL (QAlertCount (d_ID d) t)] ++ evs ++ [EvSQL (QAlertInsert a)]
                   /\ a_DomainID a = d_ID d /\ a_Threshold a = t)
          /\ exists kept, t_alerts w1 = t_alerts w ++ kept).
Proof.
  intros d w out. subst out. split.
  - intros e He. rewrite EvaluateAlerts_run. unfold config_read in He. rewrite He. simpl.
    repeat split. apply Get_frame.
  - intros cfg pre t post msg rest Hcfg Hts rem w0 Hpre w1 Hel.
    assert (Hrun : AlertService.EvaluateAlerts d w
                   = match (AlertService.evaluate_threshold d cfg rem t w1).1 with
                     | Some e => (Some e, (AlertService.evaluate_threshold d cfg rem t w1).2)
                     | None => AlertService.evaluate_loop d cfg rem post
                                 (AlertService.evaluate_threshold d cfg rem t w1).2
                     end).
    { rewrite EvaluateAlerts_run. unfold config_read in Hcfg. rewrite Hcfg, Hts.
      fold rem w0. rewrite (evaluate_loop_app d cfg rem t pre post w0 Hpre).
      apply evaluate_loop_cons. }
    split; [|split].
    + intros Hdb.
      destruct (evaluate_threshold_query_fails d cfg rem t w1 msg rest Hel Hdb)
        as (Hr & Ha & Hd & Ht).
      rewrite Hrun, Hr. simpl. auto.
    + intros Hdb Hz.
      destruct (evaluate_threshold_insert_fails d cfg rem t w1 msg rest Hel Hz Hdb)
        as (Hr & Ha & Hd & Ht).
      rewrite Hrun, Hr. simpl. auto.
    + destruct (evaluate_loop_extends d cfg rem pre w0) as [kept Hkept].
      exists kept. subst w1. rewrite Hkept. subst w0.
      destruct (time_Now_frame (ConfigRepository.Get w).2) as (-> & _).
      destruct (Get_frame w) as (-> & _). reflexivity.
Qed.

Lemma EvaluateAlerts_stops_at_first_error_witness :
  let locked := world_with_db sample_world [Some "database is locked"] in
  let locked_query := world_with_db sample_world [None; Some "database is locked"] in
  (AlertService.EvaluateAlerts sample_domain locked).1
  = Some (Errorf_w "failed to get config: "
            (Errorf_w "failed to get config: " (errorString "database is locked")))
  /\ ((AlertService.EvaluateAlerts sample_domain locked_query).1
      = Some (Errorf_w "failed to check if alert was sent: "
                (Errorf_w "failed to check if alert was sent: "
                   (errorString "database is locked")))
      /\ t_alerts (AlertService.EvaluateAlerts sample_domain locked_query).2 = [])
  /\ (AlertService.EvaluateAlerts sample_domain flaky_world).1
     = Some (Errorf_w "failed to save alert: "
               (Errorf_w "failed to create alert: " (errorString "database is locked")))
  /\ List.map a_Threshold (t_alerts (AlertService.EvaluateAlerts sample_domain flaky_world).2)
     = [90 * Day]
  /\ w_db (AlertService.EvaluateAlerts sample_domain flaky_world).2 = [].
Proof.
  intros locked locked_query. split; [|split].
  - destruct (EvaluateAlerts_stops_at_first_error sample_domain locked) as [H _].
    apply (H (Errorf_w "failed to get config: " (errorString "database is locked"))).
    reflexivity.
  - destruct (EvaluateAlerts_stops_at_first_error sample_domain locked_query) as [_ H].
    destruct (H sample_config [] (90 * Day) [60 * Day; 30 * Day; 7 * Day]
                "database is locked" []) as (Hq & _ & _); try reflexivity.
    destruct Hq as (Hr & Ha & _); [reflexivity|].
    split; [exact Hr | rewrite Ha; reflexivity].
  - destruct (EvaluateAlerts_stops_at_first_error sample_domain flaky_world) as [_ H].
    destruct (H sample_config [90 * Day] (60 * Day) [30 * Day; 7 * Day]
                "database is locked" []) as (_ & Hins & _); try reflexivity.
    destruct Hins as (Hr & Ha & Hd & _); try reflexivity.
    split; [exact Hr | split; [rewrite Ha; reflexivity | exact Hd]].
Defined.

(** ** The 25 days scenario (C3) *)

Lemma deliveries_app (l k : list Event) :
  deliveries (l ++ k) = (deliveries l + deliveries k)%nat.
Proof. unfold deliveries. rewrite List.filter_app, length_app. reflexivity. Qed.

Lemma SendAlert_no_webhook (a : Alert) (w : World) :
  AlertService.SendAlert a "" w = (Some (errorString "no webhook URL configured"), w).
Proof. reflexivity. Qed.

Lemma evaluate_threshold_not_due (d : Domain) (cfg : Config) (rem th : Duration) (w : World) :
  eligible rem th = false -> AlertService.evaluate_threshold d cfg rem th w = (None, w).
Proof. unfold AlertService.evaluate_threshold, eligible. intros ->. reflexivity. Qed.

(** A due, unrecorded threshold with no webhook configured: the record
    is stored as failed, and nothing is posted. *)
Lemma evaluate_threshold_no_webhook (d : Domain) (cfg : Config) (rem th : Duration) (w : World) :
  db_healthy w ->
  c_GoogleChatWebhook cfg = "" ->
  eligible rem th = true ->
  records_for (d_ID d) th w = 0%nat ->
  let w' := (AlertService.evaluate_threshold d cfg rem th w).2 in
  (AlertService.evaluate_threshold d cfg rem th w).1 = None
  /\ db_healthy w'
  /\ deliveries (w_trace w') = deliveries (w_trace w)
  /\ exists a, t_alerts w' = t_alerts w ++ [a]
               /\ summary a = (d_ID d, th, false, "no webhook URL configured").
Proof.
  destruct_world w. unfold db_healthy, AlertService.evaluate_threshold, eligible, records_for.
  simpl. intros Hdb -> -> Hz.
  unfold AlertRepository.HasAlertBeenSent, AlertService.SendAlert, AlertRepository.Create. mrun.
  destruct wdb as [|o rest]; simpl.
  - rewrite Hz. simpl. destruct wlater as [|t1 later]; simpl.
    all: unfold deliveries; rewrite ?List.filter_app, ?length_app; simpl.
    all: repeat split; try assumption; try lia.
    all: eexists; split; reflexivity.
  - apply db_healthy_inv in Hdb. destruct Hdb as [-> Hdb]. simpl. rewrite Hz. simpl.
    destruct wlater as [|t1 later]; simpl.
    all: destruct rest as [|o' rest]; simpl.
    all: try (apply db_healthy_inv in Hdb; destruct Hdb as [-> Hdb]; simpl).
    all: unfold deliveries; rewrite ?List.filter_app, ?length_app; simpl.
    all: repeat split; try assumption; try constructor; try lia.
    all: eexists; split; reflexivity.
Qed.

Lemma records_for_app_other (id : string) (t : Z) (w w' : World) (a : Alert) :
  t_alerts w' = t_alerts w ++ [a] -> a_Threshold a <> t ->
  records_for id t w' = records_for id t w.
Proof.
  intros Happ Hne. unfold records_for. rewrite Happ, matching_app.
  replace (a_Threshold a =? t) with false by (symmetry; apply Z.eqb_neq; exact Hne).
  rewrite andb_false_r. lia.
Qed.

Lemma Get_stored (w : World) (cfg : Config) :
  db_healthy w -> t_config w = Some cfg ->
  (ConfigRepository.Get w).1 = Ok cfg
  /\ db_healthy (ConfigRepository.Get w).2
  /\ deliveries (w_trace (ConfigRepository.Get w).2) = deliveries (w_trace w)
  /\ w_now (ConfigRepository.Get w).2 = w_now w.
Proof.
  destruct_world w. unfold db_healthy, ConfigRepository.Get. simpl. intros Hdb ->. mrun.
  destruct wdb as [|o rest]; simpl.
  - unfold deliveries; rewrite ?List.filter_app, ?length_app; simpl. repeat split; solve [assumption | lia].
  - apply db_healthy_inv in Hdb. destruct Hdb as [-> Hdb]. simpl.
    unfold deliveries; rewrite ?List.filter_app, ?length_app; simpl. repeat split; solve [assumption | lia].
Qed.

Lemma time_Now_trace (w : World) : w_trace (time_Now w).2 = w_trace w.
Proof. destruct_world w. unfold time_Now. simpl. destruct wlater; reflexivity. Qed.

Lemma summary_threshold (a : Alert) id t ok msg :
  summary a = (id, t, ok, msg) -> a_Threshold a = t.
Proof. unfold summary. intros H. inversion H. reflexivity. Qed.

Ltac neq_days := let H := fresh in intro H; vm_compute in H; discriminate H.

(** C3 (amended). With thresholds 90, 60, 30 and 7 days, no webhook
    configured, a database that answers, 25 days remaining and no record
    yet for the domain, one evaluation stores exactly three records, for
    90, 60 and 30 days in that order, each failed with the message
    "no webhook URL configured"; no post and no sleep happens
    ([SendAlert] returns at once); and in any later state with that
    alerts table an evaluation leaves one record for each of the three. *)
Theorem scenario_25_days_no_webhook :
  forall (d : Domain) (w : World) (cfg : Config),
    db_healthy w ->
    t_config w = Some cfg ->
    GetAlertThresholds cfg = [90 * Day; 60 * Day; 30 * Day; 7 * Day] ->
    c_GoogleChatWebhook cfg = "" ->
    remaining d w = 25 * Day ->
    (forall t, records_for (d_ID d) t w = 0%nat) ->
    let w' := (AlertService.EvaluateAlerts d w).2 in
    (AlertService.EvaluateAlerts d w).1 = None
    /\ (exists a90 a60 a30,
          t_alerts w' = t_alerts w ++ [a90; a60; a30]
          /\ List.map summary [a90; a60; a30]
             = [(d_ID d, 90 * Day, false, "no webhook URL configured");
                (d_ID d, 60 * Day, false, "no webhook URL configured");
                (d_ID d, 30 * Day, false, "no webhook URL configured")])
    /\ deliveries (w_trace w') = deliveries (w_trace w)
    /\ (forall a w0,
          AlertService.SendAlert a "" w0
          = (Some (errorString "no webhook URL configured"), w0))
    /\ (forall w2 t,
          t_alerts w2 = t_alerts w' ->
          In t [90 * Day; 60 * Day; 30 * Day] ->
          records_for (d_ID d) t (AlertService.EvaluateAlerts d w2).2 = 1%nat).
Proof.
  intros d w cfg Hdb Hcfg Hts Hurl Hrem Hnone w'.
  assert (Hel90 : eligible (25 * Day) (90 * Day) = true) by (vm_compute; reflexivity).
  assert (Hel60 : eligible (25 * Day) (60 * Day) = true) by (vm_compute; reflexivity).
  assert (Hel30 : eligible (25 * Day) (30 * Day) = true) by (vm_compute; reflexivity).
  assert (Hel7 : eligible (25 * Day) (7 * Day) = false) by (vm_compute; reflexivity).
  assert (N69 : 60 * Day <> 90 * Day) by neq_days.
  assert (N39 : 30 * Day <> 90 * Day) by neq_days.
  assert (N36 : 30 * Day <> 60 * Day) by neq_days.
  remember (25 * Day) as rem eqn:E25. remember (90 * Day) as t90 eqn:E90.
  remember (60 * Day) as t60 eqn:E60. remember (30 * Day) as t30 eqn:E30.
  remember (7 * Day) as t7 eqn:E7. clear E25 E90 E60 E30 E7.
  destruct (Get_stored w cfg Hdb Hcfg) as (Hget & Hdb0 & Hdel0 & _).
  assert (Hrun : AlertService.EvaluateAlerts d w
                 = AlertService.evaluate_loop d cfg rem [t90; t60; t30; t7]
                     (time_Now (ConfigRepository.Get w).2).2).
  { rewrite EvaluateAlerts_run, Hget, Hts, Hrem. reflexivity. }
  assert (Hals0 : t_alerts (time_Now (ConfigRepository.Get w).2).2 = t_alerts w).
  { destruct (time_Now_frame (ConfigRepository.Get w).2) as (-> & _). apply Get_frame. }
  assert (Hdbw0 : db_healthy (time_Now (ConfigRepository.Get w).2).2).
  { unfold db_healthy.
    destruct (time_Now_frame (ConfigRepository.Get w).2) as (_ & ->). exact Hdb0. }
  assert (Hdelw0 : deliveries (w_trace (time_Now (ConfigRepository.Get w).2).2)
                   = deliveries (w_trace w)).
  { rewrite time_Now_trace. exact Hdel0. }
  remember (time_Now (ConfigRepository.Get w).2).2 as w0 eqn:Ew0. clear Ew0.
  assert (Hz0 : forall t, records_for (d_ID d) t w0 = 0%nat).
  { intros t. unfold records_for. rewrite Hals0. apply Hnone. }
  (* 90 days *)
  pose proof (evaluate_threshold_no_webhook d cfg rem t90 w0 Hdbw0 Hurl Hel90 (Hz0 t90)) as H1.
  cbv zeta in H1. rewrite (evaluate_loop_cons d cfg rem t90) in Hrun.
  remember (AlertService.evaluate_threshold d cfg rem t90 w0) as s1 eqn:E1. clear E1.
  destruct s1 as [r1 w1]. cbn [fst snd] in H1, Hrun.
  destruct H1 as (-> & Hdb1 & Hdel1 & a90 & Happ1 & Hsum1).
  assert (Hz1 : forall t, t <> t90 -> records_for (d_ID d) t w1 = 0%nat).
  { intros t Hne. rewrite (records_for_app_other _ _ w0 w1 a90 Happ1); [apply Hz0|].
    rewrite (summary_threshold _ _ _ _ _ Hsum1). congruence. }
  (* 60 days *)
  pose proof (evaluate_threshold_no_webhook d cfg rem t60 w1 Hdb1 Hurl Hel60 (Hz1 t60 N69)) as H2.
  cbv zeta in H2. rewrite (evaluate_loop_cons d cfg rem t60) in Hrun.
  remember (AlertService.evaluate_threshold d cfg rem t60 w1) as s2 eqn:E2. clear E2.
  destruct s2 as [r2 w2]. cbn [fst snd] in H2, Hrun.
  destruct H2 as (-> & Hdb2 & Hdel2 & a60 & Happ2 & Hsum2).
  assert (Hz2 : records_for (d_ID d) t30 w2 = 0%nat).
  { rewrite (records_for_app_other _ _ w1 w2 a60 Happ2); [apply Hz1; exact N39|].
    rewrite (summary_threshold _ _ _ _ _ Hsum2). congruence. }
  (* 30 days *)
  pose proof (evaluate_threshold_no_webhook d cfg rem t30 w2 Hdb2 Hurl Hel30 Hz2) as H3.
  cbv zeta in H3. rewrite (evaluate_loop_cons d cfg rem t30) in Hrun.
  remember (AlertService.evaluate_threshold d cfg rem t30 w2) as s3 eqn:E3. clear E3.
  destruct s3 as [r3 w3]. cbn [fst snd] in H3, Hrun.
  destruct H3 as (-> & Hdb3 & Hdel3 & a30 & Happ3 & Hsum3).
  (* 7 days: not due *)
  rewrite (evaluate_loop_cons d cfg rem t7), (evaluate_threshold_not_due d cfg rem t7 w3 Hel7)
    in Hrun.
  cbn [fst snd AlertService.evaluate_loop ret] in Hrun.
  assert (Hw' : w' = w3). { subst w'. rewrite Hrun. reflexivity. }
  assert (Htable : t_alerts w3 = t_alerts w ++ [a90; a60; a30]).
  { rewrite Happ3, Happ2, Happ1, Hals0, <- !app_assoc. reflexivity. }
  split; [rewrite Hrun; reflexivity|].
  split; [|split; [|split]].
  - exists a90, a60, a30. rewrite Hw'. split; [exact Htable|].
    simpl. rewrite Hsum1, Hsum2, Hsum3. reflexivity.
  - rewrite Hw', Hdel3, Hdel2, Hdel1. exact Hdelw0.
  - intros a wx. reflexivity.
  - intros wx t Hsame Hin.
    assert (Hone : records_for (d_ID d) t wx = 1%nat).
    { unfold records_for. rewrite Hsame, Hw', Htable.
      change (t_alerts w ++ [a90; a60; a30]) with (t_alerts w ++ [a90] ++ [a60] ++ [a30]).
      rewrite !app_assoc, !matching_app.
      fold (records_for (d_ID d) t w). rewrite Hnone.
      unfold summary in Hsum1, Hsum2, Hsum3.
      inversion Hsum1 as [[Hi1 Ht1 Hs1 Hm1]]. inversion Hsum2 as [[Hi2 Ht2 Hs2 Hm2]].
      inversion Hsum3 as [[Hi3 Ht3 Hs3 Hm3]].
      rewrite Hi1, Ht1, Hi2, Ht2, Hi3, Ht3, !String.eqb_refl.
      destruct Hin as [<- | [<- | [<- | []]]]; rewrite ?Z.eqb_refl; simpl.
      - rewrite (proj2 (Z.eqb_neq t60 t90) N69), (proj2 (Z.eqb_neq t30 t90) N39). reflexivity.
      - rewrite (proj2 (Z.eqb_neq t90 t60) (not_eq_sym N69)), (proj2 (Z.eqb_neq t30 t60) N36).
        reflexivity.
      - rewrite (proj2 (Z.eqb_neq t90 t30) (not_eq_sym N39)),
                (proj2 (Z.eqb_neq t60 t30) (not_eq_sym N36)).
        reflexivity. }
    rewrite EvaluateAlerts_keeps; [exact Hone | right; lia].
Qed.

(** C3 as stated fails: the evaluation of the scenario does not leave a
    single record. *)
Lemma scenario_25_days_counterexample :
  ~ (exists a,
        t_alerts (AlertService.EvaluateAlerts sample_domain sample_world).2 = [a]
        /\ a_Threshold a = 30 * Day
        /\ a_Success a = false
        /\ a_ErrorMessage a = "no endpoint configured").
Proof.
  intros (a & Htable & _). vm_compute in Htable. discriminate Htable.
Qed.

Lemma scenario_25_days_no_webhook_witness :
  List.map summary (t_alerts (AlertService.EvaluateAlerts sample_domain sample_world).2)
  = [("d1", 90 * Day, false, "no webhook URL configured");
     ("d1", 60 * Day, false, "no webhook URL configured");
     ("d1", 30 * Day, false, "no webhook URL configured")].
Proof.
  destruct (scenario_25_days_no_webhook sample_domain sample_world sample_config)
    as (_ & (a90 & a60 & a30 & Htable & Hsum) & _).
  - constructor.
  - reflexivity.
  - reflexivity.
  - reflexivity.
  - reflexivity.
  - intros t. reflexivity.
  - rewrite Htable. exact Hsum.
Defined.

(** ** Scheduling a domain (C6) *)

Lemma ScheduleDomain_run (d : Domain) (w : World) :
  let w1 := (Scheduler.ScheduleDomain d w).2 in
  s_timers w1
  = match s_scheduledDomains w !! d_ID d with
    | Some h => Scheduler.stop_timer h (s_timers w)
    | None => s_timers w
    end ++ [mkTimer (armed_delay d w) (d_ID d) true]
  /\ s_scheduledDomains w1 = <[d_ID d := length (s_timers w)]> (s_scheduledDomains w)
  /\ s_ctxDone w1 = s_ctxDone w
  /\ s_workerPool w1 = s_workerPool w
  /\ t_domains w1 = t_domains w /\ t_config w1 = t_config w /\ t_alerts w1 = t_alerts w.
Proof.
  destruct_world w. unfold Scheduler.ScheduleDomain, armed_delay, Scheduler.AfterFunc. mrun.
  destruct wlater as [|t1 [|t2 later]]; simpl.
  all: destruct (Time_Before wnow (d_NextCheck d)); simpl.
  all: destruct (wsched !! d_ID d) as [h|]; simpl.
  all: repeat split.
  all: unfold Scheduler.stop_timer; destruct (wtimers !! h); rewrite ?length_insert; reflexivity.
Qed.

Lemma stop_timer_length (h : nat) (timers : list Timer) :
  length (Scheduler.stop_timer h timers) = length timers.
Proof.
  unfold Scheduler.stop_timer. destruct (timers !! h); [apply length_insert | reflexivity].
Qed.

Lemma stop_timer_lookup (h k : nat) (timers : list Timer) :
  Scheduler.stop_timer h timers !! k
  = if decide (k = h) then stopped <$> timers !! k else timers !! k.
Proof.
  unfold Scheduler.stop_timer. destruct (timers !! h) as [t|] eqn:Hh.
  - destruct (decide (k = h)) as [->|Hne].
    + rewrite list_lookup_insert_eq; [|eapply lookup_lt_Some; exact Hh].
      rewrite Hh. reflexivity.
    + rewrite list_lookup_insert_ne; [reflexivity | congruence].
  - destruct (decide (k = h)) as [->|Hne]; [rewrite Hh|]; reflexivity.
Qed.

Lemma filter_nil_all {A} (f : A -> bool) (l : list A) :
  (forall k x, l !! k = Some x -> f x = false) -> List.filter f l = [].
Proof.
  induction l as [|a l IH]; intros Hall; simpl.
  - reflexivity.
  - rewrite (Hall 0%nat a eq_refl). apply IH. intros k x Hk. apply (Hall (S k) x). exact Hk.
Qed.

(** Under the invariant, once the timer registered for [id] (if any) is
    stopped, no pending timer is left for [id]. *)
Lemma cancelled_none_pending (id : string) (w : World) :
  sched_inv w ->
  Scheduler.pending_for id
    match s_scheduledDomains w !! id with
    | Some h => Scheduler.stop_timer h (s_timers w)
    | None => s_timers w
    end = [].
Proof.
  intros Hinv. apply filter_nil_all. intros k t Hk.
  destruct (tm_pending t) eqn:Hp; [|reflexivity]. simpl.
  destruct (String.eqb (tm_domain t) id) eqn:Hid; [|reflexivity].
  apply String.eqb_eq in Hid. exfalso.
  destruct (s_scheduledDomains w !! id) as [h|] eqn:Hm.
  - rewrite stop_timer_lookup in Hk. destruct (decide (k = h)) as [->|Hne].
    + destruct (s_timers w !! h); simpl in Hk; [|discriminate].
      inversion Hk; subst. discriminate Hp.
    + pose proof (Hinv k t Hk Hp) as Hreg. rewrite Hid, Hm in Hreg. congruence.
  - pose proof (Hinv k t Hk Hp) as Hreg. rewrite Hid, Hm in Hreg. discriminate.
Qed.

Lemma ScheduleDomain_inv (d : Domain) (w : World) :
  sched_inv w ->
  sched_inv (Scheduler.ScheduleDomain d w).2
  /\ Scheduler.pending_for (d_ID d) (s_timers (Scheduler.ScheduleDomain d w).2)
     = [mkTimer (armed_delay d w) (d_ID d) true].
Proof.
  intros Hinv. destruct (ScheduleDomain_run d w) as (Htimers & Hmap & _).
  split.
  - intros k t Hk Hp. rewrite Hmap. rewrite Htimers in Hk.
    apply lookup_app_Some in Hk. destruct Hk as [Hk | [Hlen Hk]].
    + assert (Hold : s_timers w !! k = Some t /\ s_scheduledDomains w !! d_ID d <> Some k).
      { destruct (s_scheduledDomains w !! d_ID d) as [h|] eqn:Hm.
        - rewrite stop_timer_lookup in Hk. destruct (decide (k = h)) as [->|Hne].
          + destruct (s_timers w !! h); simpl in Hk; [|discriminate].
            inversion Hk; subst. discriminate Hp.
          + split; [exact Hk | congruence].
        - split; [exact Hk | discriminate]. }
      destruct Hold as [Hold Hnot].
      pose proof (Hinv k t Hold Hp) as Hreg.
      rewrite lookup_insert_ne; [exact Hreg|]. intros Heq. rewrite <- Heq in Hreg. contradiction.
    + assert (Hl : length match s_scheduledDomains w !! d_ID d with
                          | Some h => Scheduler.stop_timer h (s_timers w)
                          | None => s_timers w
                          end = length (s_timers w)).
      { destruct (s_scheduledDomains w !! d_ID d); [apply stop_timer_length | reflexivity]. }
      rewrite Hl in *.
      destruct (k - length (s_timers w))%nat as [|n] eqn:Hk0; simpl in Hk; [|discriminate].
      inversion Hk; subst t. simpl. replace k with (length (s_timers w)) by lia.
      apply lookup_insert_eq.
  - rewrite Htimers. unfold Scheduler.pending_for. rewrite List.filter_app.
    fold (Scheduler.pending_for (d_ID d) match s_scheduledDomains w !! d_ID d with
                          | Some h => Scheduler.stop_timer h (s_timers w)
                          | None => s_timers w
                          end).
    rewrite (cancelled_none_pending (d_ID d) w Hinv). simpl.
    rewrite String.eqb_refl. reflexivity.
Qed.

(** C6. [ScheduleDomain d] stops the timer registered for [d.ID], if
    any, and arms one new pending timer, registered for [d.ID], whose
    delay is [d.NextCheck - now] when that is positive and 0 otherwise
    (for a clock that does not move between the two readings the call
    makes).  From a state in which every pending timer is the registered
    one, the new timer is the only pending timer for the id, and it is
    again so after a second call for the same id. *)
Theorem ScheduleDomain_one_timer :
  forall (d : Domain) (w : World),
    let id := d_ID d in
    let w1 := (Scheduler.ScheduleDomain d w).2 in
    let h1 := length (s_timers w) in
    (forall h t, s_scheduledDomains w !! id = Some h -> s_timers w !! h = Some t ->
                 s_timers w1 !! h = Some (stopped t))
    /\ length (s_timers w1) = S (length (s_timers w))
    /\ s_scheduledDomains w1 !! id = Some h1
    /\ s_timers w1 !! h1 = Some (mkTimer (armed_delay d w) id true)
    /\ (w_now (time_Now w).2 = w_now w ->
        armed_delay d w = Z.max 0 (Time_Sub (d_NextCheck d) (w_now w)))
    /\ (sched_inv w ->
        sched_inv w1
        /\ Scheduler.pending_for id (s_timers w1) = [mkTimer (armed_delay d w) id true]
        /\ forall d', d_ID d' = id ->
             let w2 := (Scheduler.ScheduleDomain d' w1).2 in
             sched_inv w2
             /\ length (Scheduler.pending_for id (s_timers w2)) = 1%nat
             /\ Scheduler.pending_for id (s_timers w2) = [mkTimer (armed_delay d' w1) id true]).
Proof.
  intros d w id w1 h1. destruct (ScheduleDomain_run d w) as (Htimers & Hmap & _).
  fold w1 in Htimers, Hmap. fold id in Htimers, Hmap.
  assert (Hl : length match s_scheduledDomains w !! id with
                      | Some h => Scheduler.stop_timer h (s_timers w)
                      | None => s_timers w
                      end = length (s_timers w)).
  { destruct (s_scheduledDomains w !! id); [apply stop_timer_length | reflexivity]. }
  split; [|split; [|split; [|split; [|split]]]].
  - intros h t Hm Hh. rewrite Htimers, Hm.
    rewrite lookup_app_l; [|rewrite stop_timer_length; eapply lookup_lt_Some; exact Hh].
    rewrite stop_timer_lookup. destruct (decide (h = h)); [|congruence]. rewrite Hh. reflexivity.
  - rewrite Htimers, length_app, Hl. simpl. lia.
  - rewrite Hmap. apply lookup_insert_eq.
  - rewrite Htimers. rewrite lookup_app_r; [|rewrite Hl; subst h1; lia].
    rewrite Hl. subst h1. rewrite Nat.sub_diag. reflexivity.
  - intros Hclock. unfold armed_delay, Time_Before, Time_Sub, saturate64. rewrite Hclock.
    unfold minInt64, maxInt64.
    destruct (unixNano (w_now w) <? unixNano (d_NextCheck d)) eqn:Hb.
    + apply Z.ltb_lt in Hb.
      destruct (unixNano (d_NextCheck d) - unixNano (w_now w) <? - 2 ^ 63) eqn:H1; [apply Z.ltb_lt in H1; lia|].
      destruct (2 ^ 63 - 1 <? unixNano (d_NextCheck d) - unixNano (w_now w)) eqn:H2; lia.
    + apply Z.ltb_ge in Hb.
      destruct (unixNano (d_NextCheck d) - unixNano (w_now w) <? - 2 ^ 63) eqn:H1; [lia|].
      destruct (2 ^ 63 - 1 <? unixNano (d_NextCheck d) - unixNano (w_now w)) eqn:H2; [apply Z.ltb_lt in H2; lia|lia].
  - intros Hinv. destruct (ScheduleDomain_inv d w Hinv) as [Hinv1 Hone].
    split; [exact Hinv1 | split; [exact Hone|]].
    intros d' Hid w2. subst w2. rewrite <- Hid.
    destruct (ScheduleDomain_inv d' w1 Hinv1) as [Hinv2 Htwo].
    split; [exact Hinv2 | split; [rewrite Htwo; reflexivity | exact Htwo]].
Qed.

Lemma sched_inv_no_timers (w : World) : s_timers w = [] -> sched_inv w.
Proof. intros Hnil h t Hh. rewrite Hnil in Hh. discriminate. Qed.

Lemma ScheduleDomain_one_timer_witness :
  let w2 := (Scheduler.ScheduleDomain sample_domain
               (Scheduler.ScheduleDomain sample_domain sample_world).2).2 in
  length (Scheduler.pending_for "d1" (s_timers w2)) = 1%nat
  /\ Scheduler.pending_for "d1" (s_timers w2) = [mkTimer 0 "d1" true]
  /\ armed_delay sample_domain sample_world
     = Z.max 0 (Time_Sub (d_NextCheck sample_domain) (w_now sample_world)).
Proof.
  destruct (ScheduleDomain_one_timer sample_domain sample_world)
    as (_ & _ & _ & _ & Hdelay & H).
  destruct H as (_ & _ & H2).
  - apply sched_inv_no_timers. reflexivity.
  - destruct (H2 sample_domain eq_refl) as (_ & Hlen & Hlist).
    split; [exact Hlen | split; [exact Hlist | apply Hdelay; reflexivity]].
Defined.

(** The invariant holds with no timers, and the other operations on the
    registry keep it too. *)

(** Stopping a timer keeps the invariant. *)
Lemma stop_timer_inv (h : nat) (w : World) :
  sched_inv w ->
  sched_inv (with_sched w (Scheduler.stop_timer h (s_timers w)) (s_scheduledDomains w)
                        (s_ctxDone w) (s_workerPool w)).
Proof.
  intros Hinv k t Hk Hp. destruct_world w. simpl in *.
  rewrite stop_timer_lookup in Hk. destruct (decide (k = h)) as [->|Hne].
  - destruct (wtimers !! h); simpl in Hk; [|discriminate].
    inversion Hk; subst. discriminate Hp.
  - apply (Hinv k t Hk Hp).
Qed.

(** [UnscheduleDomain] keeps the invariant and leaves no pending timer
    for the id. *)
Lemma UnscheduleDomain_inv (id : string) (w : World) :
  sched_inv w ->
  sched_inv (Scheduler.UnscheduleDomain id w).2
  /\ Scheduler.pending_for id (s_timers (Scheduler.UnscheduleDomain id w).2) = [].
Proof.
  intros Hinv. pose proof (cancelled_none_pending id w Hinv) as Hnone.
  destruct_world w. unfold Scheduler.UnscheduleDomain. mrun. simpl in Hnone.
  destruct (wsched !! id) as [h|] eqn:Hm; simpl; [|split; assumption].
  split; [|exact Hnone].
  intros k t Hk Hp. simpl in *.
  rewrite stop_timer_lookup in Hk. destruct (decide (k = h)) as [->|Hne].
  - destruct (wtimers !! h); simpl in Hk; [|discriminate].
    inversion Hk; subst. discriminate Hp.
  - pose proof (Hinv k t Hk Hp) as Hreg. simpl in Hreg.
    rewrite lookup_delete_ne; [exact Hreg|]. intros Heq. subst id. congruence.
Qed.

(** ** What the tick leaves alone *)

Lemma untouched_refl (w : World) : untouched w w.
Proof. unfold untouched. auto. Qed.

Lemma untouched_trans (w1 w2 w3 : World) :
  untouched w1 w2 -> untouched w2 w3 -> untouched w1 w3.
Proof. unfold untouched. intros (a & b & c & e & f) (a' & b' & c' & e' & f'). repeat split; congruence. Qed.

Lemma time_Now_untouched (w : World) : untouched w (time_Now w).2.
Proof. destruct_world w. unfold untouched, time_Now. simpl. destruct wlater; simpl; auto. Qed.

Lemma Get_untouched (w : World) : untouched w (ConfigRepository.Get w).2.
Proof.
  destruct_world w. unfold untouched, ConfigRepository.Get, ConfigRepository.createDefaultConfig,
    ConfigRepository.create. mrun.
  destruct wdb as [|[msg|] rest]; simpl; auto.
  all: destruct wcfg; simpl; auto.
  all: destruct wlater as [|t1 [|t2 later]]; simpl; auto.
  all: destruct rest as [|[msg|] rest]; simpl; auto.
Qed.

Lemma GetByID_untouched (id : string) (w : World) :
  untouched w (DomainRepository.GetByID id w).2.
Proof.
  destruct_world w. unfold untouched, DomainRepository.GetByID. mrun.
  destruct wdb as [|[msg|] rest]; simpl; auto.
  all: destruct (List.find (fun r => String.eqb (d_ID r) id) wdoms); simpl; auto.
Qed.

Lemma QueryDomain_loop_untouched (fuel : nat) :
  forall s name attempt backoff lastErr w,
    untouched w (Whois.QueryDomain_loop fuel s name attempt backoff lastErr w).2.
Proof.
  induction fuel as [|fuel IH]; intros s name attempt backoff lastErr w.
  - apply untouched_refl.
  - destruct_world w. simpl. unfold Whois.queryWithTimeout. mrun.
    destruct wwhois as [|[info|err|] rest]; simpl;
      try solve [unfold untouched; simpl; auto].
    all: destruct (attempt <? Whois.maxRetries s - 1); simpl.
    all: match goal with |- context [Whois.QueryDomain_loop _ ?s ?n ?a ?b ?l ?w] =>
           pose proof (IH s n a b l w) as H end.
    all: unfold untouched in *; simpl in *; exact H.
Qed.

Lemma QueryDomain_untouched (s : Whois.Service) (name : string) (w : World) :
  untouched w (Whois.QueryDomain s name w).2.
Proof. apply QueryDomain_loop_untouched. Qed.

Lemma evaluate_threshold_untouched (d : Domain) (cfg : Config) (rem th : Duration) (w : World) :
  untouched w (AlertService.evaluate_threshold d cfg rem th w).2.
Proof.
  destruct_world w. unfold AlertService.evaluate_threshold.
  destruct ((rem <=? th) && (0 <? rem)); [|apply untouched_refl].
  unfold untouched, AlertRepository.HasAlertBeenSent. mrun.
  destruct wdb as [|[msg|] rest]; simpl; auto.
  all: destruct (0 <? Z.of_nat (length (AlertRepository.matching (d_ID d) th wals))); simpl; auto.
  all: destruct wlater as [|t1 later]; simpl.
  all: use_SendAlert_frame; simpl.
  all: unfold AlertRepository.Create; mrun.
  all: destruct sendErr; simpl.
  all: try (destruct rest as [|[msg|] rest]; simpl).
  all: auto.
Qed.

Lemma evaluate_loop_untouched (d : Domain) (cfg : Config) (rem : Duration) (ts : list Duration) :
  forall w, untouched w (AlertService.evaluate_loop d cfg rem ts w).2.
Proof.
  induction ts as [|th rest IH]; intros w.
  - apply untouched_refl.
  - rewrite evaluate_loop_cons.
    pose proof (evaluate_threshold_untouched d cfg rem th w) as Hstep.
    destruct (AlertService.evaluate_threshold d cfg rem th w).1; simpl; [exact Hstep|].
    eapply untouched_trans; [exact Hstep | apply IH].
Qed.

Lemma EvaluateAlerts_untouched (d : Domain) (w : World) :
  untouched w (AlertService.EvaluateAlerts d w).2.
Proof.
  rewrite EvaluateAlerts_run.
  destruct (ConfigRepository.Get w).1; simpl; [|apply Get_untouched].
  eapply untouched_trans; [apply Get_untouched|].
  eapply untouched_trans; [apply time_Now_untouched | apply evaluate_loop_untouched].
Qed.

(** ** A tick whose lookup fails (C5) *)

Lemma GetByID_found (id : string) (w w1 : World) (d : Domain) :
  DomainRepository.GetByID id w = (Ok d, w1) ->
  List.find (fun r => String.eqb (d_ID r) id) (t_domains w) = Some d /\ d_ID d = id.
Proof.
  destruct_world w. unfold DomainRepository.GetByID. mrun.
  destruct wdb as [|[msg|] rest]; simpl; try discriminate.
  all: destruct (List.find (fun r => String.eqb (d_ID r) id) wdoms) as [r|] eqn:Hf;
    simpl; try discriminate.
  all: intros H; inversion H; subst; split; [reflexivity|].
  all: apply List.find_some in Hf; destruct Hf as [_ Hf]; apply String.eqb_eq; exact Hf.
Qed.

Lemma Update_stored (d1 d2 : Domain) (w w' : World) :
  DomainRepository.Update d1 w = ((d2, None), w') ->
  d2 = Domain_set_UpdatedAt d1 (w_now w)
  /\ t_domains w' = List.map (DomainRepository.updated_row d2) (t_domains w).
Proof.
  destruct_world w. unfold DomainRepository.Update. mrun.
  destruct wlater as [|t1 later]; simpl.
  all: destruct wdb as [|[msg|] rest]; simpl; try discriminate.
  all: destruct (DomainRepository.rows_affected (d_ID d1) wdoms =? 0); try discriminate.
  all: intros H; inversion H; subst; split; reflexivity.
Qed.

Lemma Update_sched (d1 : Domain) (w : World) :
  let w' := (DomainRepository.Update d1 w).2 in
  s_timers w' = s_timers w /\ s_scheduledDomains w' = s_scheduledDomains w
  /\ s_ctxDone w' = s_ctxDone w /\ s_workerPool w' = s_workerPool w
  /\ d_ID (DomainRepository.Update d1 w).1.1 = d_ID d1.
Proof.
  destruct_world w. unfold DomainRepository.Update. mrun.
  destruct wlater as [|t1 later]; simpl.
  all: destruct wdb as [|[msg|] rest]; simpl; auto.
  all: destruct (DomainRepository.rows_affected (d_ID d1) wdoms =? 0); simpl; auto.
Qed.

Lemma find_updated (d2 : Domain) (id : string) (rows : list Domain) (r0 : Domain) :
  List.find (fun r => String.eqb (d_ID r) id) rows = Some r0 ->
  List.find (fun r => String.eqb (d_ID r) id) (List.map (DomainRepository.updated_row d2) rows)
  = Some (DomainRepository.updated_row d2 r0).
Proof.
  induction rows as [|r rows IH]; simpl; [discriminate|].
  assert (Hid : d_ID (DomainRepository.updated_row d2 r) = d_ID r).
  { unfold DomainRepository.updated_row. destruct (String.eqb (d_ID r) (d_ID d2)); reflexivity. }
  rewrite Hid. destruct (String.eqb (d_ID r) id).
  - intros H. inversion H. reflexivity.
  - exact IH.
Qed.

Lemma reschedule_domains (d : Domain) (w : World) :
  t_domains (Scheduler.reschedule d w).2 = t_domains w.
Proof.
  unfold Scheduler.reschedule, bind, Scheduler.ctx_Done. destruct (s_ctxDone w).
  - reflexivity.
  - apply ScheduleDomain_run.
Qed.

(** C5. In a tick whose domain re-read and configuration read succeed,
    whose lookup fails and whose update is stored, the stored row gets
    [LastChecked] = the clock reading taken for it and [NextCheck] = the
    next reading plus the configured interval, while its expiration date,
    name servers, registrant and registrar are those stored before; the
    tick then is the alert evaluation on that domain (stale expiration
    date included) followed by the reschedule. *)
Theorem checkDomain_keeps_stale_data_on_lookup_failure :
  forall (id : string) (w w1 w2 w3 w6 : World) (d d2 : Domain) (cfg : Config) (e : error),
    DomainRepository.GetByID id w = (Ok d, w1) ->
    ConfigRepository.Get w1 = (Ok cfg, w2) ->
    Whois.QueryDomain Scheduler.whoisSvc (d_Name d) w2 = (Err e, w3) ->
    let now1 := (time_Now w3).1 in
    let now2 := (time_Now (time_Now w3).2).1 in
    let w5 := (time_Now (time_Now w3).2).2 in
    let next := Time_Add now2 (GetMonitoringInterval cfg) in
    DomainRepository.Update (Domain_set_checks d now1 next) w5 = ((d2, None), w6) ->
    let w' := (Scheduler.pipeline id w).2 in
    List.find (fun r => String.eqb (d_ID r) id) (t_domains w) = Some d
    /\ (exists r,
          List.find (fun r => String.eqb (d_ID r) id) (t_domains w') = Some r
          /\ d_LastChecked r = now1
          /\ d_NextCheck r = next
          /\ d_ExpirationDate r = d_ExpirationDate d
          /\ d_Nameservers r = d_Nameservers d
          /\ d_Registrant r = d_Registrant d
          /\ d_Registrar r = d_Registrar d)
    /\ d_ExpirationDate d2 = d_ExpirationDate d
    /\ w' = (Scheduler.reschedule d2 (AlertService.EvaluateAlerts d2 w6).2).2.
Proof.
  intros id w w1 w2 w3 w6 d d2 cfg e Hget Hcfg Hq now1 now2 w5 next Hupd w'.
  destruct (GetByID_found id w w1 d Hget) as [Hfound Hid].
  destruct (Update_stored _ _ _ _ Hupd) as [Hd2 Htable].
  assert (Hrun : Scheduler.pipeline id w
                 = (tt, (Scheduler.reschedule d2 (AlertService.EvaluateAlerts d2 w6).2).2)).
  { unfold Scheduler.pipeline.
    rewrite bind_run, Hget. cbn [fst snd].
    rewrite bind_run, Hcfg. cbn [fst snd].
    rewrite bind_run, Hq. cbn [fst snd].
    rewrite bind_run. rewrite bind_run.
    replace (Domain_set_next (Domain_set_last d (time_Now w3).1)
               (Time_Add (time_Now (time_Now w3).2).1 (GetMonitoringInterval cfg)))
      with (Domain_set_checks d now1 next) by reflexivity.
    rewrite bind_run. fold w5. rewrite Hupd. cbn [fst snd].
    rewrite bind_run.
    destruct (Scheduler.reschedule d2 (AlertService.EvaluateAlerts d2 w6).2) as [[] w8].
    reflexivity. }
  assert (Hw5 : t_domains w5 = t_domains w).
  { assert (H : untouched w w5).
    { eapply untouched_trans; [apply (GetByID_untouched id w)|]. rewrite Hget. simpl.
      eapply untouched_trans; [apply (Get_untouched w1)|]. rewrite Hcfg. simpl.
      eapply untouched_trans; [apply (QueryDomain_untouched Scheduler.whoisSvc (d_Name d) w2)|].
      rewrite Hq. simpl.
      eapply untouched_trans; [apply (time_Now_untouched w3)|]. apply time_Now_untouched. }
    apply H. }
  assert (Hw' : t_domains w' = t_domains w6).
  { subst w'. rewrite Hrun. simpl. rewrite reschedule_domains.
    apply EvaluateAlerts_untouched. }
  split; [exact Hfound|]. split; [|split].
  - exists (DomainRepository.updated_row d2 d). split.
    + rewrite Hw', Htable, Hw5. apply find_updated. exact Hfound.
    + unfold DomainRepository.updated_row. rewrite Hd2. simpl. rewrite String.eqb_refl. simpl.
      repeat split.
  - rewrite Hd2. reflexivity.
  - subst w'. rewrite Hrun. reflexivity.
Qed.

Lemma checkDomain_keeps_stale_data_on_lookup_failure_witness :
  exists r,
    List.find (fun r => String.eqb (d_ID r) "d1")
              (t_domains (Scheduler.pipeline "d1" sample_world).2) = Some r
    /\ d_LastChecked r = dec04
    /\ d_NextCheck r = Time_Add dec04 (24 * Hour)
    /\ d_ExpirationDate r = dec29
    /\ d_Registrar r = "Test Registrar".
Proof.
  edestruct (checkDomain_keeps_stale_data_on_lookup_failure "d1" sample_world)
    as (_ & (r & Hr & Hlast & Hnext & Hexp & _ & _ & Hreg) & _).
  - vm_compute. reflexivity.
  - vm_compute. reflexivity.
  - vm_compute. reflexivity.
  - vm_compute. reflexivity.
  - exists r. split; [exact Hr|]. split; [exact Hlast|]. split; [exact Hnext|].
    split; [exact Hexp | exact Hreg].
Defined.

(** ** Rescheduling after a tick (C2) *)

Lemma stopped_none_pending (h : nat) (t : Timer) (w : World) :
  sched_inv w ->
  s_timers w !! h = Some t -> tm_pending t = true ->
  Scheduler.pending_for (tm_domain t) (Scheduler.stop_timer h (s_timers w)) = [].
Proof.
  intros Hinv Hh Hp. pose proof (cancelled_none_pending (tm_domain t) w Hinv) as H.
  rewrite (Hinv h t Hh Hp) in H. exact H.
Qed.

(** C2 fails on the domain re-read.  A timer fires while shutdown is not
    signalled and a worker slot is free; the re-read of the domain hits a
    driver error.  The tick runs and ends with no pending timer for the
    domain, although the domains table is untouched. *)
Theorem checkDomain_read_error_not_rescheduled :
  forall (w : World) (h : nat) (t : Timer) (msg : string) (rest : list (option string)),
    s_ctxDone w = false ->
    (s_workerPool w < Scheduler.poolCapacity)%nat ->
    sched_inv w ->
    s_timers w !! h = Some t ->
    tm_pending t = true ->
    w_db w = Some msg :: rest ->
    let w' := (Scheduler.fire h w).2 in
    (Scheduler.fire h w).1 = Some Scheduler.Ran
    /\ Scheduler.pending_for (tm_domain t) (s_timers w') = []
    /\ t_domains w' = t_domains w
    /\ s_ctxDone w' = false.
Proof.
  intros w h t msg rest Hdone Hpool Hinv Hh Hp Hdb w'.
  pose proof (stopped_none_pending h t w Hinv Hh Hp) as Hnone.
  subst w'. destruct_world w. simpl in *. subst wdone wdb.
  unfold Scheduler.fire, Scheduler.checkDomain, Scheduler.pipeline, DomainRepository.GetByID.
  mrun. rewrite Hh, Hp. simpl.
  apply Nat.ltb_lt in Hpool. rewrite Hpool. simpl.
  repeat split. exact Hnone.
Qed.

Lemma checkDomain_read_error_not_rescheduled_witness :
  let w' := (Scheduler.fire 0 failing_read_world).2 in
  Scheduler.pending_for "d1" (s_timers failing_read_world) = [mkTimer 0 "d1" true]
  /\ (Scheduler.fire 0 failing_read_world).1 = Some Scheduler.Ran
  /\ Scheduler.pending_for "d1" (s_timers w') = []
  /\ List.find (fun r => String.eqb (d_ID r) "d1") (t_domains w') = Some sample_domain
  /\ s_ctxDone w' = false.
Proof.
  destruct (checkDomain_read_error_not_rescheduled failing_read_world 0 (mkTimer 0 "d1" true)
              "driver: bad connection" []) as (H1 & H2 & H3 & H4).
  - reflexivity.
  - unfold Scheduler.poolCapacity. simpl. lia.
  - change (sched_inv (Scheduler.ScheduleDomain sample_domain sample_world).2).
    apply ScheduleDomain_inv, sched_inv_no_timers. reflexivity.
  - reflexivity.
  - reflexivity.
  - reflexivity.
  - split; [reflexivity|]. split; [exact H1|]. split; [exact H2|].
    split; [rewrite H3; reflexivity | exact H4].
Defined.

Lemma sched_ok_untouched (w w' : World) : untouched w w' -> sched_ok w -> sched_ok w'.
Proof.
  unfold untouched, sched_ok, sched_inv. intros (_ & Ht & Hm & Hd & _) [Hdone Hinv].
  rewrite Hd, Ht, Hm. split; assumption.
Qed.

Lemma sched_ok_Update (d1 : Domain) (w : World) :
  sched_ok w -> sched_ok (DomainRepository.Update d1 w).2.
Proof.
  unfold sched_ok, sched_inv. intros [Hdone Hinv].
  destruct (Update_sched d1 w) as (Ht & Hm & Hd & _). rewrite Hd, Ht, Hm. split; assumption.
Qed.

Lemma reschedule_pending (d : Domain) (w : World) :
  sched_ok w ->
  sched_inv (Scheduler.reschedule d w).2
  /\ length (Scheduler.pending_for (d_ID d) (s_timers (Scheduler.reschedule d w).2)) = 1%nat.
Proof.
  intros [Hdone Hinv]. unfold Scheduler.reschedule, bind, Scheduler.ctx_Done. rewrite Hdone.
  destruct (ScheduleDomain_inv d w Hinv) as [Hinv' Hone]. rewrite Hone. split; [exact Hinv' | reflexivity].
Qed.

(** Once the domain has been re-read, every way through the pipeline ends
    with the domain rescheduled. *)
Lemma pipeline_reschedules (id : string) (w w1 : World) (d : Domain) :
  DomainRepository.GetByID id w = (Ok d, w1) ->
  s_ctxDone w = false ->
  sched_inv w ->
  let w' := (Scheduler.pipeline id w).2 in
  sched_inv w' /\ length (Scheduler.pending_for id (s_timers w')) = 1%nat.
Proof.
  intros Hget Hdone Hinv w'. subst w'.
  destruct (GetByID_found id w w1 d Hget) as [_ Hid].
  assert (Hok1 : sched_ok w1).
  { apply (sched_ok_untouched w); [|split; assumption].
    pose proof (GetByID_untouched id w) as H. rewrite Hget in H. exact H. }
  unfold Scheduler.pipeline. rewrite bind_run, Hget. cbn [fst snd].
  rewrite bind_run.
  pose proof (sched_ok_untouched _ _ (Get_untouched w1) Hok1) as Hok2.
  destruct (ConfigRepository.Get w1).1 as [cfg|err];
    [|rewrite <- Hid; apply reschedule_pending; exact Hok2].
  rewrite bind_run.
  pose proof (sched_ok_untouched _ _
                (QueryDomain_untouched Scheduler.whoisSvc (d_Name d) (ConfigRepository.Get w1).2)
                Hok2) as Hok3.
  set (w3 := (Whois.QueryDomain Scheduler.whoisSvc (d_Name d) (ConfigRepository.Get w1).2).2) in *.
  pose proof (sched_ok_untouched _ _ (time_Now_untouched w3) Hok3) as Hok4.
  pose proof (sched_ok_untouched _ _ (time_Now_untouched (time_Now w3).2) Hok4) as Hok5.
  destruct (Whois.QueryDomain Scheduler.whoisSvc (d_Name d) (ConfigRepository.Get w1).2).1
    as [info|err].
  all: rewrite bind_run; rewrite bind_run; rewrite bind_run.
  all: match goal with |- context [DomainRepository.Update ?dd ?ww] =>
         pose proof (sched_ok_Update dd ww Hok5) as Hok6;
         destruct (Update_sched dd ww) as (_ & _ & _ & _ & Hid6);
         destruct (DomainRepository.Update dd ww) as [[dU errU] wU]
       end.
  all: cbn [fst snd] in *.
  all: assert (HidU : d_ID dU = id) by (rewrite Hid6; simpl; exact Hid).
  all: destruct errU as [errU|].
  all: try (rewrite <- HidU; apply reschedule_pending; exact Hok6).
  all: rewrite bind_run.
  all: rewrite <- HidU; apply reschedule_pending.
  all: apply (sched_ok_untouched wU); [apply EvaluateAlerts_untouched | exact Hok6].
Qed.

(** ** Refused thresholds, and writing the configuration *)



Lemma Update_healthy (c : Config) (w : World) :
  db_healthy w ->
  (ConfigRepository.Update c w).1.2 = None
  /\ db_healthy (ConfigRepository.Update c w).2
  /\ exists t, t_config (ConfigRepository.Update c w).2 = Some (Config_stamp c t).
Proof.
  destruct_world w. unfold db_healthy, ConfigRepository.Update, ConfigRepository.create. simpl.
  intros Hdb. mrun.
  destruct wlater as [|t1 [|t2 later]]; simpl.
  all: destruct wdb as [|o rest]; simpl.
  all: try (apply db_healthy_inv in Hdb; destruct Hdb as [-> Hdb]; simpl).
  all: destruct wcfg; simpl.
  all: try (destruct rest as [|o' rest]; simpl).
  all: try (apply db_healthy_inv in Hdb; destruct Hdb as [-> Hdb]; simpl).
  all: repeat split; try assumption; try (eexists; reflexivity);
    try (constructor; [reflexivity | assumption]); try constructor.
Qed.

(** ** The text of the alert (C8) *)

(** C8 fails on the first character.  For every alert the message
    [FormatAlertMessage] builds is the ten bytes C3 B0 C5 B8 E2 80 9D E2 80
    9D followed by the body, where the specified text has the four bytes
    of the bell, F0 9F 94 94, followed by the same body; the two differ. *)
Theorem FormatAlertMessage_title_bytes :
  forall alert : Alert,
    AlertService.FormatAlertMessage alert
    = string_of_bytes [195; 176; 197; 184; 226; 128; 157; 226; 128; 157] +:+ message_body alert
    /\ spec_message alert = string_of_bytes [240; 159; 148; 148] +:+ message_body alert
    /\ AlertService.FormatAlertMessage alert <> spec_message alert.
Proof.
  intros alert.
  assert (Hcode : AlertService.FormatAlertMessage alert
                  = AlertService.title_prefix +:+ message_body alert).
  { reflexivity. }
  split; [exact Hcode|]. split; [reflexivity|].
  rewrite Hcode. unfold spec_message, AlertService.title_prefix, bell. simpl.
  intros H. inversion H.
Qed.

(** The alert of the testing guide: 25 days, threshold 30 days. *)
Example FormatAlertMessage_sample :
  AlertService.FormatAlertMessage sample_alert
  = string_of_bytes [195; 176; 197; 184; 226; 128; 157; 226; 128; 157]
    +:+ " Domain Expiration Alert" +:+ nl +:+ nl
    +:+ "Domain: test-alert-domain.com" +:+ nl
    +:+ "Expiration Date: 2025-12-29" +:+ nl
    +:+ "Days Remaining: 25" +:+ nl
    +:+ "Alert Threshold: 30 days" +:+ nl +:+ nl
    +:+ "Please renew this domain to avoid service disruption.".
Proof. vm_compute. reflexivity. Qed.

(** [Duration.Hours] is a float64: one nanosecond short of 171 days
    already rounds to 171 days. *)
Example DaysUntilExpiration_float_rounding :
  DaysUntilExpiration (mkAlert "" "" "" 0 (mkTime (171 * Day - 1) 0) (mkTime 0 0) false "") = 171
  /\ Z.quot (171 * Day - 1) Day = 170.
Proof. split; vm_compute; reflexivity. Qed.

Lemma FormatAlertMessage_title_bytes_witness :
  AlertService.FormatAlertMessage sample_alert <> spec_message sample_alert.
Proof. apply (FormatAlertMessage_title_bytes sample_alert). Defined.

(** ** The connection: substring test, constraint errors, reconnecting *)

(** *** Substrings *)

Lemma substring_prefix_iff (sub : string) :
  forall s, String.substring 0 (String.length sub) s = sub <-> exists post, s = sub +:+ post.
Proof.
  induction sub as [|c sub IH]; intros s; simpl.
  - split; [intros _; exists s; reflexivity | intros _; destruct s; reflexivity].
  - destruct s as [|d s]; simpl.
    + split; [discriminate | intros [post H]; discriminate].
    + split.
      * intros H. inversion H as [[Hc Hs]]. rewrite Hs. apply IH in Hs. destruct Hs as [post ->].
        exists post. reflexivity.
      * intros [post H]. inversion H; subst. f_equal. apply IH. exists post. reflexivity.
Qed.

Lemma append_length (a b : string) :
  String.length (a +:+ b) = (String.length a + String.length b)%nat.
Proof. induction a as [|c a IH]; simpl; [reflexivity | rewrite IH; reflexivity]. Qed.

(** [sub] sits in [s] at offset [i]. *)
Lemma substring_at_iff (sub : string) (i : nat) :
  forall s,
    ((i + String.length sub <= String.length s)%nat
     /\ String.substring i (String.length sub) s = sub)
    <-> exists pre post, s = pre +:+ sub +:+ post /\ String.length pre = i.
Proof.
  induction i as [|i IH]; intros s.
  - split.
    + intros [_ H]. apply substring_prefix_iff in H. destruct H as [post ->].
      exists "", post. split; reflexivity.
    + intros (pre & post & -> & Hlen). destruct pre; [|discriminate]. simpl. split.
      * rewrite !append_length. simpl. lia.
      * apply substring_prefix_iff. exists post. reflexivity.
  - destruct s as [|c s].
    + split.
      * intros [Hle _]. simpl in Hle. lia.
      * intros (pre & post & H & Hlen). destruct pre; discriminate.
    + simpl. split.
      * intros [Hle H]. destruct (proj1 (IH s)) as (pre & post & -> & Hlen); [split; [lia | exact H]|].
        exists (String c pre), post. simpl. rewrite Hlen. split; reflexivity.
      * intros (pre & post & H & Hlen). destruct pre as [|d pre]; [discriminate|].
        simpl in H, Hlen. inversion H; subst.
        destruct (proj2 (IH (pre +:+ sub +:+ post))) as [Hle Hs].
        { exists pre, post. split; [reflexivity | lia]. }
        split; [lia | exact Hs].
Qed.

Lemma substring_whole (s : string) : String.substring 0 (String.length s) s = s.
Proof. apply substring_prefix_iff. exists "". induction s as [|c s IH]; [reflexivity | change (String c s = String c (s +:+ "")); f_equal; exact IH]. Qed.

Lemma slice_at (s sub : string) (j : nat) :
  DB.slice s (Z.of_nat j) (Z.of_nat j + DB.len sub)
  = String.substring j (String.length sub) s.
Proof.
  unfold DB.slice, DB.len. rewrite Nat2Z.id.
  replace (Z.of_nat j + Z.of_nat (String.length sub) - Z.of_nat j)
    with (Z.of_nat (String.length sub)) by lia.
  rewrite Nat2Z.id. reflexivity.
Qed.

Lemma containsMiddle_loop_iff (s sub : string) (fuel : nat) :
  forall i : nat,
    DB.containsMiddle_loop fuel (Z.of_nat i) s sub = true
    <-> exists j, (i <= j < i + fuel)%nat
                  /\ (j + String.length sub <= String.length s)%nat
                  /\ String.substring j (String.length sub) s = sub.
Proof.
  induction fuel as [|fuel IH]; intros i; simpl.
  - split; [discriminate | intros (j & Hj & _); lia].
  - destruct (Z.of_nat i <=? DB.len s - DB.len sub) eqn:Hb.
    + apply Z.leb_le in Hb. unfold DB.len in Hb.
      rewrite slice_at.
      destruct (String.eqb (String.substring i (String.length sub) s) sub) eqn:He.
      * apply String.eqb_eq in He. split; [|reflexivity]. intros _.
        exists i. split; [lia|]. split; [lia | exact He].
      * apply String.eqb_neq in He.
        replace (Z.of_nat i + 1) with (Z.of_nat (S i)) by lia. rewrite IH. split.
        -- intros (j & Hj & Hle & Hs). exists j. split; [lia|]. split; assumption.
        -- intros (j & Hj & Hle & Hs). exists j.
           destruct (Nat.eq_dec j i) as [->|Hne]; [contradiction|].
           split; [lia|]. split; assumption.
    + apply Z.leb_gt in Hb. unfold DB.len in Hb. split; [discriminate|].
      intros (j & Hj & Hle & _). lia.
Qed.

Lemma contains_occurs :
  forall s substr : string,
    DB.contains s substr = true <-> exists pre post, s = pre +:+ substr +:+ post.
Proof.
  intros s sub.
  assert (Hspec : (exists pre post, s = pre +:+ sub +:+ post)
                  <-> exists j, (j + String.length sub <= String.length s)%nat
                                /\ String.substring j (String.length sub) s = sub).
  { split.
    - intros (pre & post & H). exists (String.length pre).
      apply substring_at_iff. exists pre, post. split; [exact H | reflexivity].
    - intros (j & Hj). apply substring_at_iff in Hj. destruct Hj as (pre & post & H & _).
      exists pre, post. exact H. }
  rewrite Hspec. unfold DB.contains, DB.containsMiddle.
  assert (Hpre : DB.slice s 0 (DB.len sub) = String.substring 0 (String.length sub) s).
  { unfold DB.slice, DB.len. rewrite Z.sub_0_r, Nat2Z.id. reflexivity. }
  rewrite Hpre. clear Hpre.
  split.
  - intros H. apply andb_prop in H. destruct H as [Hle H]. apply Z.leb_le in Hle.
    unfold DB.len in Hle.
    apply orb_prop in H. destruct H as [H | H].
    + apply String.eqb_eq in H. subst sub. exists 0%nat. split; [lia | apply substring_whole].
    + apply andb_prop in H. destruct H as [Hlt H]. apply Z.ltb_lt in Hlt.
      apply orb_prop in H. destruct H as [H | H]; [apply orb_prop in H; destruct H as [H | H]|].
      * apply String.eqb_eq in H. exists 0%nat. split; [lia | exact H].
      * apply String.eqb_eq in H. exists (String.length s - String.length sub)%nat.
        split; [lia|]. rewrite <- slice_at.
        replace (Z.of_nat (String.length s - String.length sub))
          with (DB.len s - DB.len sub) by (unfold DB.len in *; lia).
        replace (DB.len s - DB.len sub + DB.len sub) with (DB.len s) by lia.
        exact H.
      * apply (containsMiddle_loop_iff s sub (S (String.length s)) 0) in H. destruct H as (j & _ & Hle' & Hs).
        exists j. split; assumption.
  - intros (j & Hle & Hs). apply andb_true_intro. split; [apply Z.leb_le; unfold DB.len; lia|].
    destruct (Nat.eq_dec (String.length sub) (String.length s)) as [Heq|Hne].
    + assert (j = 0%nat) by lia. subst j. rewrite Heq, substring_whole in Hs. subst sub.
      rewrite String.eqb_refl. reflexivity.
    + apply orb_true_intro. right. apply andb_true_intro.
      split; [apply Z.ltb_lt; unfold DB.len; lia|].
      apply orb_true_intro. right.
      apply (containsMiddle_loop_iff s sub (S (String.length s)) 0).
      exists j. split; [lia|]. split; assumption.
Qed.

(** X1. [contains s substr] is true exactly when [substr] occurs somewhere
    in [s] (so the empty string is contained in every string): the four
    tests of the function together are the substring test. *)
Theorem contains_iff_substring :
  forall s substr : string,
    DB.contains s substr = true <-> exists pre post, s = pre +:+ substr +:+ post.
Proof. exact contains_occurs. Qed.

Lemma string_app_assoc (a b c : string) : (a +:+ b) +:+ c = a +:+ (b +:+ c).
Proof.
  induction a as [|x a IH]; [reflexivity|].
  change (String x ((a +:+ b) +:+ c) = String x (a +:+ (b +:+ c))). f_equal. exact IH.
Qed.

(** X2. [IsConstraintError] answers true exactly for a non-nil error whose
    message contains "constraint failed"; the test for "UNIQUE constraint
    failed" adds nothing to it, and a nil error is never a constraint error. *)
Theorem IsConstraintError_iff :
  forall err : option error,
    DB.IsConstraintError err = true
    <-> exists e pre post, err = Some e /\ Error e = pre +:+ "constraint failed" +:+ post.
Proof.
  intros [e|]; simpl.
  - rewrite orb_true_iff, !contains_occurs. split.
    + intros [(pre & post & H) | (pre & post & H)].
      * exists e, (pre +:+ "UNIQUE "), post. split; [reflexivity|].
        rewrite H, string_app_assoc. reflexivity.
      * exists e, pre, post. split; [reflexivity | exact H].
    + intros (e' & pre & post & He & H). inversion He; subst e'.
      right. exists pre, post. exact H.
  - split; [discriminate | intros (e & pre & post & He & _); discriminate].
Qed.

Lemma wrap64_small (z : Z) : minInt64 <= z <= maxInt64 -> wrap64 z = z.
Proof.
  unfold wrap64, minInt64, maxInt64. intros H.
  rewrite Z.mod_small; lia.
Qed.

Lemma doubling_closed (n : nat) :
  forall j0 : nat, (j0 + n <= 34)%nat ->
    doubling n (Second * 2 ^ Z.of_nat j0)
    = List.map (fun j => Second * 2 ^ Z.of_nat j) (seq j0 n).
Proof.
  induction n as [|n IH]; intros j0 Hle; [reflexivity|].
  cbn [doubling seq List.map]. f_equal.
  destruct n as [|n]; [reflexivity|].
  rewrite <- (IH (S j0)) by lia. f_equal.
  replace (Second * 2 ^ Z.of_nat j0 * 2) with (Second * 2 ^ Z.of_nat (S j0)).
  2:{ rewrite Nat2Z.inj_succ, Z.pow_succ_r by lia. lia. }
  apply wrap64_small.
  assert (Hp : 2 ^ Z.of_nat (S j0) <= 2 ^ 33) by (apply Z.pow_le_mono_r; lia).
  assert (Hq : 0 < 2 ^ Z.of_nat (S j0)) by (apply Z.pow_pos_nonneg; lia).
  unfold minInt64, maxInt64, Second in *.
  change (2 ^ 33) with 8589934592 in Hp. change (2 ^ 63) with 9223372036854775808. lia.
Qed.

Lemma Reconnect_loop_gives_up (fuel : nat) :
  forall (maxRetries i : Z) (backoff : Duration) (msgs : list string)
         (rest : list (option string)) (w : World),
    w_db w = List.map Some msgs ++ rest ->
    length msgs = fuel ->
    Z.of_nat fuel = maxRetries - i ->
    DB.ReconnectWithBackoff_loop fuel maxRetries i backoff w
    = (Some (errorString ("failed to reconnect after " +:+ itoa maxRetries +:+ " attempts")),
       with_env w (w_now w) (w_later w) rest (w_http w) (w_whois w) (w_uuid w)
                (w_trace w ++ List.map EvSleep (doubling (Nat.pred fuel) backoff))).
Proof.
  induction fuel as [|fuel IH]; intros maxRetries i backoff msgs rest w Hdb Hlen Hfuel.
  - destruct msgs; [|discriminate]. simpl in Hdb. destruct_world w. simpl in *. subst wdb.
    unfold ret, with_env. simpl. rewrite app_nil_r. reflexivity.
  - destruct msgs as [|m msgs]; [discriminate|]. simpl in Hdb, Hlen.
    destruct_world w. simpl in Hdb. subst wdb.
    cbn [DB.ReconnectWithBackoff_loop]. unfold DB.Ping, DB.driver_call.
    rewrite bind_run. cbn [w_db fst snd option_map with_env w_now w_later w_http w_whois
                           w_uuid w_trace w_pick t_domains t_config t_alerts s_timers
                           s_scheduledDomains s_ctxDone s_workerPool].
    destruct fuel as [|fuel].
    + replace (i <? maxRetries - 1) with false by (symmetry; apply Z.ltb_ge; lia).
      match goal with |- context [DB.ReconnectWithBackoff_loop _ _ _ _ ?w'] =>
        rewrite (IH maxRetries (i + 1) backoff msgs rest w' eq_refl) by (simpl; lia) end.
      simpl. reflexivity.
    + replace (i <? maxRetries - 1) with true by (symmetry; apply Z.ltb_lt; lia).
      rewrite bind_run. unfold time_Sleep, log. cbn [fst snd].
      match goal with |- context [DB.ReconnectWithBackoff_loop _ _ _ _ ?w'] =>
        rewrite (IH maxRetries (i + 1) (wrap64 (backoff * 2)) msgs rest w' eq_refl)
          by (simpl; lia) end.
      unfold with_env. simpl. rewrite <- app_assoc. reflexivity.
Qed.

Lemma Reconnect_loop_succeeds (fuel : nat) :
  forall (maxRetries i : Z) (backoff : Duration) (msgs : list string)
         (tail : list (option string)) (w : World),
    w_db w = List.map Some msgs ++ tail ->
    hd None tail = None ->
    (length msgs < fuel)%nat ->
    Z.of_nat fuel = maxRetries - i ->
    DB.ReconnectWithBackoff_loop fuel maxRetries i backoff w
    = (None,
       with_env w (w_now w) (w_later w) (tl tail) (w_http w) (w_whois w) (w_uuid w)
                (w_trace w ++ List.map EvSleep (doubling (length msgs) backoff))).
Proof.
  induction fuel as [|fuel IH]; intros maxRetries i backoff msgs tail w Hdb Hhd Hlen Hfuel.
  - lia.
  - destruct_world w. simpl in Hdb. subst wdb.
    cbn [DB.ReconnectWithBackoff_loop]. unfold DB.Ping, DB.driver_call.
    rewrite bind_run.
    destruct msgs as [|m msgs].
    + destruct tail as [|[msg|] rest]; [| discriminate Hhd |];
        simpl; unfold ret, with_env; simpl; rewrite app_nil_r; reflexivity.
    + cbn [w_db fst snd option_map with_env w_now w_later w_http w_whois List.map app
           w_uuid w_trace w_pick t_domains t_config t_alerts s_timers
           s_scheduledDomains s_ctxDone s_workerPool].
      simpl in Hlen.
      replace (i <? maxRetries - 1) with true by (symmetry; apply Z.ltb_lt; lia).
      rewrite bind_run. unfold time_Sleep, log. cbn [fst snd].
      match goal with |- context [DB.ReconnectWithBackoff_loop _ _ _ _ ?w'] =>
        rewrite (IH maxRetries (i + 1) (wrap64 (backoff * 2)) msgs tail w' eq_refl Hhd)
          by (simpl; lia) end.
      unfold with_env. simpl. rewrite <- app_assoc. reflexivity.
Qed.

(** X3. [ReconnectWithBackoff]: when the first [k] pings fail and the next
    one goes through, with [k < maxRetries], the function returns nil
    having made exactly [k + 1] pings and slept [k] times, the waits
    starting at one second and doubling (1s, 2s, 4s, ...). *)
Theorem ReconnectWithBackoff_stops_at_first_success :
  forall (maxRetries : Z) (msgs : list string) (tail : list (option string)) (w : World),
    w_db w = List.map Some msgs ++ tail ->
    hd None tail = None ->
    Z.of_nat (length msgs) < maxRetries ->
    DB.ReconnectWithBackoff maxRetries w
    = (None,
       with_env w (w_now w) (w_later w) (tl tail) (w_http w) (w_whois w) (w_uuid w)
                (w_trace w ++ List.map EvSleep (doubling (length msgs) Second)))
    /\ ((length msgs <= 34)%nat ->
        doubling (length msgs) Second
        = List.map (fun j => Second * 2 ^ Z.of_nat j) (seq 0 (length msgs))).
Proof.
  intros maxRetries msgs tail w Hdb Hhd Hlt. split.
  - unfold DB.ReconnectWithBackoff.
    apply Reconnect_loop_succeeds; [exact Hdb | exact Hhd | lia | lia].
  - intros Hle. apply (doubling_closed (length msgs) 0). lia.
Qed.

Lemma ReconnectWithBackoff_stops_at_first_success_witness :
  fst (DB.ReconnectWithBackoff 5
         (world_with_db sample_world [Some "bad connection"; Some "bad connection"; None]))
  = None
  /\ w_trace (snd (DB.ReconnectWithBackoff 5
         (world_with_db sample_world [Some "bad connection"; Some "bad connection"; None])))
     = [EvSleep Second; EvSleep (2 * Second)].
Proof.
  destruct (ReconnectWithBackoff_stops_at_first_success 5
              ["bad connection"; "bad connection"] [None]
              (world_with_db sample_world [Some "bad connection"; Some "bad connection"; None])
              eq_refl eq_refl ltac:(simpl; lia)) as [Hrun _].
  rewrite Hrun. split; reflexivity.
Defined.

(** X4. [ReconnectWithBackoff]: when all [maxRetries] pings fail, the
    function returns "failed to reconnect after <maxRetries> attempts"
    after exactly [maxRetries] pings and [maxRetries - 1] doubling waits:
    it does not wait after the last failure.  With [maxRetries <= 0] it
    reports that failure without pinging at all. *)
Theorem ReconnectWithBackoff_gives_up :
  forall (maxRetries : Z) (msgs : list string) (rest : list (option string)) (w : World),
    w_db w = List.map Some msgs ++ rest ->
    length msgs = Z.to_nat maxRetries ->
    DB.ReconnectWithBackoff maxRetries w
    = (Some (errorString ("failed to reconnect after " +:+ itoa maxRetries +:+ " attempts")),
       with_env w (w_now w) (w_later w) rest (w_http w) (w_whois w) (w_uuid w)
                (w_trace w
                 ++ List.map EvSleep (doubling (Nat.pred (Z.to_nat maxRetries)) Second))).
Proof.
  intros maxRetries msgs rest w Hdb Hlen. unfold DB.ReconnectWithBackoff.
  destruct (Z_le_gt_dec maxRetries 0) as [Hle|Hgt].
  - replace (Z.to_nat maxRetries) with 0%nat in * by lia.
    destruct msgs; [|discriminate]. simpl in Hdb.
    simpl. unfold ret. destruct_world w. simpl in *. subst wdb.
    unfold with_env. simpl. rewrite app_nil_r. reflexivity.
  - apply (Reconnect_loop_gives_up (Z.to_nat maxRetries) maxRetries 0 Second msgs rest w Hdb Hlen).
    lia.
Qed.

Lemma ReconnectWithBackoff_gives_up_witness :
  DB.ReconnectWithBackoff 3
    (world_with_db sample_world [Some "refused"; Some "refused"; Some "refused"; None])
  = (Some (errorString "failed to reconnect after 3 attempts"),
     with_env sample_world dec04 [] [None] [] [] 0%nat [EvSleep Second; EvSleep (2 * Second)]).
Proof.
  rewrite (ReconnectWithBackoff_gives_up 3 ["refused"; "refused"; "refused"] [None]
             (world_with_db sample_world
                [Some "refused"; Some "refused"; Some "refused"; None])
             eq_refl eq_refl).
  reflexivity.
Defined.

(** ** The domain store: creating and deleting rows *)

Lemma healthy_cases (w : World) :
  db_healthy w -> w_db w = [] \/ exists rest, w_db w = None :: rest /\ Forall (fun o => o = None) rest.
Proof.
  unfold db_healthy. destruct (w_db w) as [|o rest]; [left; reflexivity|].
  intros H. apply db_healthy_inv in H. destruct H as [-> H]. right. exists rest. split; [reflexivity | exact H].
Qed.

Lemma find_app_new (id : string) (rows : list Domain) (d : Domain) :
  existsb (fun r => String.eqb (d_ID r) id) rows = false ->
  d_ID d = id ->
  List.find (fun r => String.eqb (d_ID r) id) (rows ++ [d]) = Some d.
Proof.
  intros Hno Hid. induction rows as [|r rows IH]; simpl in *.
  - rewrite Hid, String.eqb_refl. reflexivity.
  - apply orb_false_iff in Hno. destruct Hno as [Hr Hrows]. rewrite Hr. apply IH. exact Hrows.
Qed.

(** The id [Create] stores a domain under. *)
Lemma Create_healthy (d : Domain) (w : World) :
  db_healthy w ->
  let id := if String.eqb (d_ID d) "" then "uuid-" +:+ itoa (Z.of_nat (w_uuid w)) else d_ID d in
  let d' := Domain_set_created (Domain_set_ID d id) (w_now w) in
  (Domains.Create d w).1 = (d', None)
  /\ t_domains (Domains.Create d w).2 = t_domains w ++ [d']
  /\ t_alerts (Domains.Create d w).2 = t_alerts w
  /\ t_config (Domains.Create d w).2 = t_config w
  /\ s_timers (Domains.Create d w).2 = s_timers w
  /\ s_scheduledDomains (Domains.Create d w).2 = s_scheduledDomains w
  /\ s_ctxDone (Domains.Create d w).2 = s_ctxDone w
  /\ w_now (Domains.Create d w).2 = w_now (time_Now w).2
  /\ db_healthy (Domains.Create d w).2.
Proof.
  intros Hh. destruct (healthy_cases w Hh) as [Hdb | (rest & Hdb & Hrest)];
    destruct_world w; simpl in Hdb; subst wdb;
    unfold Domains.Create, DB.driver_call, db_healthy; mrun;
    destruct (String.eqb (d_ID d) "") eqn:E; simpl;
    destruct wlater; simpl; rewrite ?E; simpl;
    destruct d; simpl in *; repeat split; try reflexivity; try constructor; try assumption.
Qed.

(** X5. [DomainRepository.Create] on a healthy database stores the domain
    under its own id, or under a fresh UUID when the id is empty, with
    [CreatedAt] and [UpdatedAt] both set to the time of the call, whatever
    the caller had put there; a following [GetByID] of that id returns
    exactly the row created, provided no row had that id before. *)
Theorem Create_then_GetByID :
  forall (d : Domain) (w : World),
    db_healthy w ->
    let id := if String.eqb (d_ID d) "" then "uuid-" +:+ itoa (Z.of_nat (w_uuid w))
              else d_ID d in
    stored id w = false ->
    let d' := (Domains.Create d w).1.1 in
    let w' := (Domains.Create d w).2 in
    (Domains.Create d w).1.2 = None
    /\ d' = Domain_set_created (Domain_set_ID d id) (w_now w)
    /\ t_domains w' = t_domains w ++ [d']
    /\ (DomainRepository.GetByID id w').1 = Ok d'.
Proof.
  intros d w Hh id Hnew d' w'.
  destruct (Create_healthy d w Hh) as (Hr & Hdoms & _ & _ & _ & _ & _ & _ & Hh').
  fold id in Hr, Hdoms. subst d' w'. rewrite Hr in *. simpl.
  split; [reflexivity|]. split; [reflexivity|]. split; [exact Hdoms|].
  remember (Domains.Create d w).2 as w1.
  assert (Hfind : List.find (fun r => String.eqb (d_ID r) id) (t_domains w1)
                  = Some (Domain_set_created (Domain_set_ID d id) (w_now w))).
  { rewrite Hdoms. apply find_app_new; [exact Hnew | reflexivity]. }
  clear Heqw1 Hdoms Hr.
  destruct (healthy_cases w1 Hh') as [Hdb | (rest & Hdb & _)];
    destruct_world w1; simpl in Hdb, Hfind; subst wdb;
    unfold DomainRepository.GetByID; mrun; rewrite Hfind; reflexivity.
Qed.

Lemma Create_then_GetByID_witness :
  (DomainRepository.GetByID "uuid-0"
     (Domains.Create (Domain_set_ID sample_domain "") (world_at dec04 [] None [])).2).1
  = Ok (Domain_set_ID sample_domain "uuid-0").
Proof.
  destruct (Create_then_GetByID (Domain_set_ID sample_domain "") (world_at dec04 [] None [])
              ltac:(constructor) eq_refl) as (_ & Hd & _ & Hget).
  etransitivity; [exact Hget|]. rewrite Hd. reflexivity.
Defined.

(** X6. When the driver refuses the insert, [DomainRepository.Create]
    stores nothing, and maps the error by its text alone: a message that
    contains "constraint failed" becomes "domain <name> already exists",
    which no longer wraps the driver's error; any other message is wrapped
    as "failed to create domain: <message>". *)
Theorem Create_driver_error :
  forall (d : Domain) (msg : string) (rest : list (option string)) (w : World),
    w_db w = Some msg :: rest ->
    let err := (Domains.Create d w).1.2 in
    t_domains (Domains.Create d w).2 = t_domains w
    /\ ((exists pre post, msg = pre +:+ "constraint failed" +:+ post) ->
        err = Some (errorString ("domain " +:+ d_Name d +:+ " already exists")))
    /\ (~ (exists pre post, msg = pre +:+ "constraint failed" +:+ post) ->
        err = Some (wrapError ("failed to create domain: " +:+ msg) (errorString msg))).
Proof.
  intros d msg rest w Hdb err. subst err.
  assert (Hiff : DB.contains msg "UNIQUE constraint failed"
                 || DB.contains msg "constraint failed" = true
                 <-> exists pre post, msg = pre +:+ "constraint failed" +:+ post).
  { rewrite orb_true_iff, !contains_occurs. split.
    - intros [(pre & post & H) | H]; [|exact H].
      exists (pre +:+ "UNIQUE "), post. rewrite H, string_app_assoc. reflexivity.
    - intros H. right. exact H. }
  destruct_world w. simpl in Hdb. subst wdb.
  unfold Domains.Create, DB.driver_call. mrun.
  destruct (String.eqb (d_ID d) ""); simpl; destruct wlater; simpl;
    destruct (DB.contains msg "UNIQUE constraint failed"
              || DB.contains msg "constraint failed") eqn:E; simpl;
    (split; [reflexivity|]); split; intros H;
    try reflexivity;
    try (apply Hiff in H; discriminate H);
    try (exfalso; apply H; apply Hiff; reflexivity).
Qed.

Lemma Create_driver_error_witness :
  (Domains.Create sample_domain
     (world_with_db sample_world [Some "UNIQUE constraint failed: domains.name"])).1.2
  = Some (errorString "domain test-alert-domain.com already exists").
Proof.
  destruct (Create_driver_error sample_domain "UNIQUE constraint failed: domains.name" []
              (world_with_db sample_world [Some "UNIQUE constraint failed: domains.name"])
              eq_refl) as (_ & Hdup & _).
  apply Hdup. exists "UNIQUE ", ": domains.name". reflexivity.
Defined.

Lemma rows_affected_stored (id : string) (rows : list Domain) :
  (DomainRepository.rows_affected id rows =? 0)
  = negb (existsb (fun r => String.eqb (d_ID r) id) rows).
Proof.
  unfold DomainRepository.rows_affected.
  induction rows as [|r rows IH]; [reflexivity|]. simpl.
  destruct (String.eqb (d_ID r) id); simpl; [reflexivity | exact IH].
Qed.

Lemma existsb_filter_out {A} (f : A -> bool) (l : list A) :
  existsb f (List.filter (fun x => negb (f x)) l) = false.
Proof.
  induction l as [|a l IH]; [reflexivity|]. simpl.
  destruct (f a) eqn:E; simpl; [exact IH | rewrite E, IH; reflexivity].
Qed.

Lemma find_none_stored (id : string) (rows : list Domain) :
  existsb (fun r => String.eqb (d_ID r) id) rows = false ->
  List.find (fun r => String.eqb (d_ID r) id) rows = None.
Proof.
  induction rows as [|r rows IH]; [reflexivity|]. simpl.
  destruct (String.eqb (d_ID r) id); simpl; [discriminate | exact IH].
Qed.

Lemma Delete_healthy (fk : bool) (id : string) (w : World) :
  db_healthy w ->
  (Domains.Delete fk id w).1
  = (if stored id w then None else Some (errorString ("domain not found: " +:+ id)))
  /\ t_domains (Domains.Delete fk id w).2
     = List.filter (fun r => negb (String.eqb (d_ID r) id)) (t_domains w)
  /\ t_alerts (Domains.Delete fk id w).2
     = (if fk then List.filter (fun a => negb (String.eqb (a_DomainID a) id)) (t_alerts w)
        else t_alerts w)
  /\ s_timers (Domains.Delete fk id w).2 = s_timers w
  /\ s_scheduledDomains (Domains.Delete fk id w).2 = s_scheduledDomains w
  /\ db_healthy (Domains.Delete fk id w).2.
Proof.
  intros Hh. destruct (healthy_cases w Hh) as [Hdb | (rest & Hdb & Hrest)];
    destruct_world w; simpl in Hdb; subst wdb;
    unfold Domains.Delete, DB.driver_call, db_healthy, stored; mrun;
    destruct fk; mrun; rewrite rows_affected_stored;
    destruct (existsb (fun r => String.eqb (d_ID r) id) wdoms); simpl;
    repeat split; try constructor; try assumption.
Qed.

(** X7. [DomainRepository.Delete] on a healthy database leaves no row
    with the given id and keeps every other row; it returns nil when such
    a row was stored and "domain not found: <id>" when none was; afterwards
    [GetByID] of that id answers "domain not found: <id>".  The alerts of
    the domain are removed only if the database enforces the foreign key. *)
Theorem Delete_then_GetByID :
  forall (fk : bool) (id : string) (w : World),
    db_healthy w ->
    let w' := (Domains.Delete fk id w).2 in
    (Domains.Delete fk id w).1
    = (if stored id w then None else Some (errorString ("domain not found: " +:+ id)))
    /\ stored id w' = false
    /\ (forall r, In r (t_domains w) -> d_ID r <> id -> In r (t_domains w'))
    /\ (forall r, In r (t_domains w') -> In r (t_domains w))
    /\ (DomainRepository.GetByID id w').1 = Err (errorString ("domain not found: " +:+ id))
    /\ (fk = false -> t_alerts w' = t_alerts w)
    /\ (fk = true -> forall a, In a (t_alerts w') -> a_DomainID a <> id).
Proof.
  intros fk id w Hh w'. subst w'.
  destruct (Delete_healthy fk id w Hh) as (Hr & Hdoms & Hals & _ & _ & Hh').
  remember (Domains.Delete fk id w).2 as w1.
  assert (Hgone : stored id w1 = false).
  { unfold stored. rewrite Hdoms. apply (existsb_filter_out (fun r => String.eqb (d_ID r) id)). }
  split; [exact Hr|]. split; [exact Hgone|]. split; [|split; [|split; [|split]]].
  - intros r Hin Hne. rewrite Hdoms. apply List.filter_In. split; [exact Hin|].
    apply negb_true_iff. apply String.eqb_neq. exact Hne.
  - intros r Hin. rewrite Hdoms in Hin. apply List.filter_In in Hin. tauto.
  - apply find_none_stored in Hgone. clear Heqw1 Hdoms Hals Hr.
    destruct (healthy_cases w1 Hh') as [Hdb | (rest & Hdb & _)];
      destruct_world w1; simpl in Hdb, Hgone; subst wdb;
      unfold DomainRepository.GetByID; mrun; rewrite Hgone; reflexivity.
  - intros ->. exact Hals.
  - intros -> a Hin. rewrite Hals in Hin. apply List.filter_In in Hin.
    destruct Hin as [_ Hne]. apply negb_true_iff in Hne. apply String.eqb_neq. exact Hne.
Qed.

Lemma Delete_then_GetByID_witness :
  (Domains.Delete false "d1" sample_world).1 = None
  /\ stored "d1" (Domains.Delete false "d1" sample_world).2 = false.
Proof.
  destruct (Delete_then_GetByID false "d1" sample_world ltac:(constructor))
    as (Hr & Hgone & _).
  split; [exact Hr | exact Hgone].
Defined.

(** ** Retention of alert records *)

Lemma count_filter_exists {A} (f g : A -> bool) (l : list A) :
  (0 <? Z.of_nat (length (List.filter f (List.filter g l))))
  = existsb (fun a => f a && g a) l.
Proof.
  induction l as [|a l IH]; [reflexivity|]. simpl.
  destruct (g a); simpl.
  - destruct (f a); simpl; [|exact IH]. apply Z.ltb_lt. lia.
  - rewrite andb_false_r. exact IH.
Qed.

(** X8. Whatever order the database puts on stored times, after
    [AlertRepository.DeleteOlderThan] with a healthy database exactly the
    alerts it does not find below the cutoff remain, and
    [HasAlertBeenSent] answers true for a pair (domain, threshold)
    exactly when such a record for that pair was stored: once the
    database finds all records of a threshold below the cutoff, the
    deduplication has forgotten that the threshold was alerted. *)
Theorem retention_forgets_old_alerts :
  forall (before : Time -> Time -> bool) (cutoff : Time) (id : string) (t : Duration)
         (w : World),
    db_healthy w ->
    let w' := (Alerts.DeleteOlderThan before cutoff w).2 in
    (Alerts.DeleteOlderThan before cutoff w).1 = None
    /\ (forall a, In a (t_alerts w') <->
                  In a (t_alerts w) /\ before (a_SentAt a) cutoff = false)
    /\ (AlertRepository.HasAlertBeenSent id t w').1
       = Ok (existsb (fun a => (String.eqb (a_DomainID a) id && (a_Threshold a =? t))
                               && negb (before (a_SentAt a) cutoff))
                     (t_alerts w)).
Proof.
  intros before cutoff id t w Hh w'. subst w'.
  destruct (healthy_cases w Hh) as [Hdb | (rest & Hdb & Hrest)];
    destruct_world w; simpl in Hdb; subst wdb;
    unfold Alerts.DeleteOlderThan, DB.driver_call, AlertRepository.HasAlertBeenSent; mrun.
  - split; [reflexivity|]. split.
    + intros a. rewrite List.filter_In, negb_true_iff. reflexivity.
    + unfold AlertRepository.matching. rewrite count_filter_exists. reflexivity.
  - split; [reflexivity|]. split.
    + intros a. rewrite List.filter_In, negb_true_iff. reflexivity.
    + destruct rest as [|o rest']; [|apply db_healthy_inv in Hrest; destruct Hrest as [-> _]];
        simpl; unfold AlertRepository.matching; rewrite count_filter_exists; reflexivity.
Qed.

Lemma retention_forgets_old_alerts_witness :
  (AlertRepository.HasAlertBeenSent "d1" (30 * Day)
     (Alerts.DeleteOlderThan Time_Before dec29
        (world_at dec29 [sample_domain] None [sample_alert])).2).1
  = Ok false.
Proof.
  destruct (retention_forgets_old_alerts Time_Before dec29 "d1" (30 * Day)
              (world_at dec29 [sample_domain] None [sample_alert]) ltac:(constructor))
    as (_ & _ & H).
  etransitivity; [exact H|]. reflexivity.
Defined.

(** ** The scheduler: start, unschedule, stop *)

Lemma filter_insert_out {A} (f : A -> bool) (l : list A) :
  forall (h : nat) (x y : A),
    l !! h = Some x -> f x = false -> f y = false ->
    List.filter f (<[h := y]> l) = List.filter f l.
Proof.
  induction l as [|a l IH]; intros h x y Hl Hx Hy; [reflexivity|].
  destruct h as [|h]; simpl in *.
  - inversion Hl; subst a. rewrite Hx, Hy. reflexivity.
  - rewrite (IH h x y Hl Hx Hy). reflexivity.
Qed.

Lemma pending_for_stop_other (id : string) (h : nat) (t : Timer) (timers : list Timer) :
  timers !! h = Some t -> tm_domain t <> id ->
  Scheduler.pending_for id (Scheduler.stop_timer h timers) = Scheduler.pending_for id timers.
Proof.
  intros Hh Hne. unfold Scheduler.pending_for, Scheduler.stop_timer. rewrite Hh.
  apply (filter_insert_out _ timers h t).
  - exact Hh.
  - apply andb_false_iff. right. apply String.eqb_neq. exact Hne.
  - reflexivity.
Qed.

Lemma ScheduleDomain_wf (d : Domain) (w : World) :
  sched_wf w -> sched_wf (Scheduler.ScheduleDomain d w).2.
Proof.
  intros Hwf id h Hm.
  destruct (ScheduleDomain_run d w) as (Ht & Hmap & _).
  rewrite Hmap in Hm. rewrite Ht.
  set (T := match s_scheduledDomains w !! d_ID d with
            | Some h0 => Scheduler.stop_timer h0 (s_timers w)
            | None => s_timers w
            end).
  assert (HlenT : length T = length (s_timers w)).
  { subst T. destruct (s_scheduledDomains w !! d_ID d); [apply stop_timer_length | reflexivity]. }
  destruct (decide (id = d_ID d)) as [->|Hne].
  - rewrite lookup_insert_eq in Hm. inversion Hm; subst h.
    exists (mkTimer (armed_delay d w) (d_ID d) true). split; [|reflexivity].
    rewrite lookup_app_r by lia. rewrite HlenT, Nat.sub_diag. reflexivity.
  - rewrite lookup_insert_ne in Hm by congruence.
    destruct (Hwf id h Hm) as (t & Hh & Hdom).
    assert (HT : exists t', T !! h = Some t' /\ tm_domain t' = id).
    { subst T. destruct (s_scheduledDomains w !! d_ID d) as [h0|]; [|exists t; auto].
      rewrite stop_timer_lookup. destruct (decide (h = h0)); rewrite Hh; simpl.
      - exists (stopped t). auto.
      - exists t. auto. }
    destruct HT as (t' & HT & Hdom'). exists t'. split; [|exact Hdom'].
    rewrite lookup_app_l; [exact HT|]. apply lookup_lt_Some in HT. exact HT.
Qed.

Lemma ScheduleDomain_other (d : Domain) (id : string) (w : World) :
  sched_wf w -> d_ID d <> id ->
  Scheduler.pending_for id (s_timers (Scheduler.ScheduleDomain d w).2)
  = Scheduler.pending_for id (s_timers w).
Proof.
  intros Hwf Hne. destruct (ScheduleDomain_run d w) as (Ht & _). rewrite Ht.
  unfold Scheduler.pending_for at 1. rewrite List.filter_app. simpl.
  replace (String.eqb (d_ID d) id) with false by (symmetry; apply String.eqb_neq; exact Hne).
  simpl. rewrite app_nil_r. fold (Scheduler.pending_for id).
  destruct (s_scheduledDomains w !! d_ID d) as [h|] eqn:Hm; [|reflexivity].
  destruct (Hwf _ _ Hm) as (t & Hh & Hdom).
  apply (pending_for_stop_other id h t); [exact Hh | congruence].
Qed.

Lemma ScheduleDomain_good (d : Domain) (w : World) :
  sched_good w -> sched_good (Scheduler.ScheduleDomain d w).2.
Proof.
  intros [Hinv Hwf]. split; [apply ScheduleDomain_inv; exact Hinv | apply ScheduleDomain_wf; exact Hwf].
Qed.

Lemma schedule_all_run (domains : list Domain) :
  forall w, sched_good w ->
    let w' := (Lifecycle.schedule_all domains w).2 in
    sched_good w'
    /\ (forall id, In id (List.map d_ID domains) ->
                   length (Scheduler.pending_for id (s_timers w')) = 1%nat)
    /\ (forall id, ~ In id (List.map d_ID domains) ->
                   Scheduler.pending_for id (s_timers w')
                   = Scheduler.pending_for id (s_timers w))
    /\ t_domains w' = t_domains w /\ t_config w' = t_config w /\ t_alerts w' = t_alerts w
    /\ s_ctxDone w' = s_ctxDone w.
Proof.
  induction domains as [|d domains IH]; intros w Hgood; simpl.
  - split; [exact Hgood|]. split; [intros id []|]. repeat split; reflexivity.
  - rewrite bind_run. cbn [fst snd].
    pose proof (ScheduleDomain_good d w Hgood) as Hgood1.
    destruct (ScheduleDomain_run d w) as (_ & _ & Hdone & _ & Hd & Hc & Ha).
    destruct (ScheduleDomain_inv d w (proj1 Hgood)) as (_ & Hone).
    remember (Scheduler.ScheduleDomain d w).2 as w1.
    destruct (IH w1 Hgood1) as (Hg & Hin & Hout & Hd' & Hc' & Ha' & Hdone').
    split; [exact Hg|]. split; [|split].
    + intros id [Hid | Hid].
      * destruct (in_dec string_dec id (List.map d_ID domains)) as [Hi | Hni].
        -- apply Hin. exact Hi.
        -- rewrite (Hout id Hni). subst id. rewrite Hone. reflexivity.
      * apply Hin. exact Hid.
    + intros id Hni. rewrite Hout by (intros Hi; apply Hni; right; exact Hi).
      subst w1. apply ScheduleDomain_other; [exact (proj2 Hgood)|].
      intros Heq. apply Hni. left. exact Heq.
    + repeat split; congruence.
Qed.

Lemma insert_by_expiration_In before (d x : Domain) (rows : list Domain) :
  In x (Domains.insert_by_expiration before d rows) <-> x = d \/ In x rows.
Proof.
  induction rows as [|r rows IH]; simpl.
  - split; [intros [H | []]; left; congruence | intros [H | []]; left; congruence].
  - destruct (negb (before (d_ExpirationDate r) (d_ExpirationDate d))); simpl.
    + split; [intros [H | H]; [left; congruence | right; exact H]
             | intros [H | H]; [left; congruence | right; exact H]].
    + rewrite IH. split; [intros [H | [H | H]]; auto | intros [H | [H | H]]; auto].
Qed.

Lemma order_by_expiration_In before (x : Domain) (rows : list Domain) :
  In x (Domains.order_by_expiration before rows) <-> In x rows.
Proof.
  unfold Domains.order_by_expiration. induction rows as [|r rows IH]; simpl; [reflexivity|].
  rewrite insert_by_expiration_In, IH. split; intros [H | H]; auto.
Qed.

Lemma GetAll_healthy before (w : World) :
  db_healthy w ->
  exists w0, Domains.GetAll before w
             = (Ok (Domains.order_by_expiration before (t_domains w)), w0)
             /\ t_domains w0 = t_domains w
             /\ s_timers w0 = s_timers w
             /\ s_scheduledDomains w0 = s_scheduledDomains w
             /\ db_healthy w0.
Proof.
  intros Hh. destruct (healthy_cases w Hh) as [Hdb | (rest & Hdb & Hrest)];
    destruct_world w; simpl in Hdb; subst wdb;
    unfold Domains.GetAll, DB.driver_call, db_healthy; mrun;
    eexists; repeat split; try constructor; try assumption.
Qed.

(** X9. [Start] with a healthy database returns nil and leaves exactly one
    pending timer for every stored domain, and none for an id that is not
    stored and had none; the tables are not changed.  This holds in
    whatever order the database hands out the rows. *)
Theorem Start_schedules_every_domain :
  forall (before : Time -> Time -> bool) (w : World),
    db_healthy w -> sched_good w ->
    let w' := (Lifecycle.Start before w).2 in
    (Lifecycle.Start before w).1 = None
    /\ sched_good w'
    /\ (forall d, In d (t_domains w) ->
                  length (Scheduler.pending_for (d_ID d) (s_timers w')) = 1%nat)
    /\ (forall id, stored id w = false ->
                   Scheduler.pending_for id (s_timers w')
                   = Scheduler.pending_for id (s_timers w))
    /\ t_domains w' = t_domains w.
Proof.
  intros before w Hh Hgood w'. subst w'.
  destruct (GetAll_healthy before w Hh) as (w0 & Hget & Hd0 & Ht0 & Hm0 & _).
  unfold Lifecycle.Start. rewrite bind_run, Hget. cbn [fst snd].
  rewrite bind_run. unfold ret. cbn [fst snd].
  assert (Hgood0 : sched_good w0).
  { destruct Hgood as [Hinv Hwf]. split.
    - intros h t. rewrite Ht0, Hm0. apply Hinv.
    - intros id h. rewrite Ht0, Hm0. apply Hwf. }
  destruct (schedule_all_run (Domains.order_by_expiration before (t_domains w0)) w0 Hgood0)
    as (Hg & Hin & Hout & Hd & _).
  rewrite Hd0 in Hg, Hin, Hout, Hd.
  split; [reflexivity|]. split; [exact Hg|]. split; [|split].
  - intros d Hd_in. apply Hin. apply in_map. apply order_by_expiration_In.
    exact Hd_in.
  - intros id Hns. rewrite Hout, Ht0; [reflexivity|].
    intros Hi. apply in_map_iff in Hi. destruct Hi as (r & Hid & Hr).
    apply (proj1 (order_by_expiration_In _ _ _)) in Hr.
    unfold stored in Hns. apply not_true_iff_false in Hns. apply Hns.
    apply existsb_exists. exists r. split; [exact Hr|]. rewrite Hid. apply String.eqb_refl.
  - exact Hd.
Qed.

Lemma sched_good_fresh (w : World) :
  s_timers w = [] -> s_scheduledDomains w = ∅ -> sched_good w.
Proof.
  intros Ht Hm. split; [apply sched_inv_no_timers; exact Ht|].
  intros id h H. rewrite Hm in H. rewrite lookup_empty in H. discriminate.
Qed.

Lemma Start_schedules_every_domain_witness :
  (Lifecycle.Start Time_Before sample_world).1 = None
  /\ length (Scheduler.pending_for "d1"
               (s_timers (Lifecycle.Start Time_Before sample_world).2)) = 1%nat.
Proof.
  destruct (Start_schedules_every_domain Time_Before sample_world ltac:(constructor)
              (sched_good_fresh sample_world eq_refl eq_refl)) as (Hr & _ & Hone & _).
  split; [exact Hr|]. apply (Hone sample_domain). left. reflexivity.
Defined.

(** X10. When loading the domains fails, [Start] returns the driver's
    error wrapped as "failed to load domains: failed to get all domains:
    <message>" and arms no timer: the scheduler and the tables are as they
    were. *)
Theorem Start_load_error :
  forall (before : Time -> Time -> bool) (msg : string) (rest : list (option string))
         (w : World),
    w_db w = Some msg :: rest ->
    (Lifecycle.Start before w).1
    = Some (Errorf_w "failed to load domains: "
              (Errorf_w "failed to get all domains: " (errorString msg)))
    /\ Error (Errorf_w "failed to load domains: "
                (Errorf_w "failed to get all domains: " (errorString msg)))
       = "failed to load domains: failed to get all domains: " +:+ msg
    /\ untouched w (Lifecycle.Start before w).2.
Proof.
  intros before msg rest w Hdb. destruct_world w. simpl in Hdb. subst wdb.
  unfold Lifecycle.Start, Domains.GetAll, DB.driver_call, untouched. mrun.
  repeat split.
Qed.

Lemma Start_load_error_witness :
  (Lifecycle.Start Time_Before (world_with_db sample_world [Some "database is locked"])).1
  = Some (Errorf_w "failed to load domains: "
            (Errorf_w "failed to get all domains: " (errorString "database is locked")))
  /\ s_timers (Lifecycle.Start Time_Before
                 (world_with_db sample_world [Some "database is locked"])).2 = [].
Proof.
  destruct (Start_load_error Time_Before "database is locked" []
              (world_with_db sample_world [Some "database is locked"]) eq_refl)
    as (Hr & _ & _ & Ht & _).
  split; [exact Hr | exact Ht].
Defined.

Lemma UnscheduleDomain_run (id : string) (w : World) :
  let w' := (Scheduler.UnscheduleDomain id w).2 in
  s_timers w' = match s_scheduledDomains w !! id with
                | Some h => Scheduler.stop_timer h (s_timers w)
                | None => s_timers w
                end
  /\ s_scheduledDomains w' = delete id (s_scheduledDomains w)
  /\ s_ctxDone w' = s_ctxDone w
  /\ t_domains w' = t_domains w /\ t_config w' = t_config w /\ t_alerts w' = t_alerts w
  /\ w_db w' = w_db w /\ w_trace w' = w_trace w /\ w_now w' = w_now w
  /\ w_later w' = w_later w /\ w_whois w' = w_whois w /\ w_uuid w' = w_uuid w.
Proof.
  destruct_world w. unfold Scheduler.UnscheduleDomain. mrun.
  destruct (wsched !! id) as [h|] eqn:Hm; simpl; repeat split.
  symmetry. apply delete_id. exact Hm.
Qed.

Lemma UnscheduleDomain_wf (id : string) (w : World) :
  sched_wf w -> sched_wf (Scheduler.UnscheduleDomain id w).2.
Proof.
  intros Hwf id' h Hm. destruct (UnscheduleDomain_run id w) as (Ht & Hmap & _).
  rewrite Hmap in Hm. rewrite Ht.
  destruct (decide (id' = id)) as [->|Hne]; [rewrite lookup_delete_eq in Hm; discriminate|].
  rewrite lookup_delete_ne in Hm by congruence.
  destruct (Hwf id' h Hm) as (t & Hh & Hdom).
  destruct (s_scheduledDomains w !! id) as [h0|]; [|exists t; auto].
  rewrite stop_timer_lookup. destruct (decide (h = h0)); rewrite Hh; simpl.
  - exists (stopped t). auto.
  - exists t. auto.
Qed.

(** X11. [UnscheduleDomain] leaves no pending timer for the domain and no
    entry for it in the registry, and does not touch the timers and
    entries of any other domain, nor the tables; for a domain that is not
    registered it changes nothing. *)
Theorem UnscheduleDomain_cancels :
  forall (id : string) (w : World),
    sched_good w ->
    let w' := (Scheduler.UnscheduleDomain id w).2 in
    sched_good w'
    /\ Scheduler.pending_for id (s_timers w') = []
    /\ s_scheduledDomains w' !! id = None
    /\ (forall id', id' <> id ->
          Scheduler.pending_for id' (s_timers w') = Scheduler.pending_for id' (s_timers w)
          /\ s_scheduledDomains w' !! id' = s_scheduledDomains w !! id')
    /\ (s_scheduledDomains w !! id = None -> (Scheduler.UnscheduleDomain id w).2 = w)
    /\ t_domains w' = t_domains w.
Proof.
  intros id w [Hinv Hwf] w'. subst w'.
  destruct (UnscheduleDomain_inv id w Hinv) as (Hinv' & Hnone).
  destruct (UnscheduleDomain_run id w) as (Ht & Hmap & _ & Hd & _).
  split; [split; [exact Hinv' | apply UnscheduleDomain_wf; exact Hwf]|].
  split; [exact Hnone|]. split; [rewrite Hmap; apply lookup_delete_eq|].
  split; [|split; [|exact Hd]].
  - intros id' Hne. split.
    + rewrite Ht. destruct (s_scheduledDomains w !! id) as [h|] eqn:Hm; [|reflexivity].
      destruct (Hwf _ _ Hm) as (t & Hh & Hdom).
      apply (pending_for_stop_other id' h t); [exact Hh | congruence].
    + rewrite Hmap. apply lookup_delete_ne. congruence.
  - intros Hm. destruct_world w. simpl in Hm. unfold Scheduler.UnscheduleDomain. mrun.
    rewrite Hm. reflexivity.
Qed.

Lemma UnscheduleDomain_cancels_witness :
  Scheduler.pending_for "d1" (s_timers (Scheduler.UnscheduleDomain "d1" scheduled_world).2) = []
  /\ s_scheduledDomains (Scheduler.UnscheduleDomain "d1" scheduled_world).2 !! "d1" = None.
Proof.
  destruct (UnscheduleDomain_cancels "d1" scheduled_world
              (ScheduleDomain_good sample_domain sample_world
                 (sched_good_fresh sample_world eq_refl eq_refl)))
    as (_ & Hnone & Hm & _).
  split; [exact Hnone | exact Hm].
Defined.

Lemma stop_list_lookup (l : list (string * nat)) (timers : list Timer) (k : nat) :
  fold_right (fun entry ts => Scheduler.stop_timer (snd entry) ts) timers l !! k
  = if existsb (fun entry => Nat.eqb (snd entry) k) l
    then stopped <$> timers !! k else timers !! k.
Proof.
  induction l as [|e l IH]; [reflexivity|]. simpl.
  rewrite stop_timer_lookup, IH.
  destruct (decide (k = e.2)) as [->|Hne].
  - rewrite Nat.eqb_refl. simpl.
    destruct (existsb (fun entry => Nat.eqb (snd entry) e.2) l);
      destruct (timers !! e.2); reflexivity.
  - replace (Nat.eqb e.2 k) with false by (symmetry; apply Nat.eqb_neq; congruence).
    reflexivity.
Qed.

Lemma stop_all_stopped (m : gmap string nat) (timers : list Timer) :
  (forall h t, timers !! h = Some t -> tm_pending t = true -> m !! tm_domain t = Some h) ->
  forall h t, Lifecycle.stop_all m timers !! h = Some t -> tm_pending t = false.
Proof.
  intros Hinv h t. unfold Lifecycle.stop_all. rewrite stop_list_lookup.
  destruct (existsb (fun entry => Nat.eqb (snd entry) h) (map_to_list m)) eqn:E.
  - destruct (timers !! h); simpl; [|discriminate]. intros H. inversion H. reflexivity.
  - intros Hh. destruct (tm_pending t) eqn:Hp; [|reflexivity].
    pose proof (Hinv h t Hh Hp) as Hm. apply elem_of_map_to_list in Hm.
    apply not_true_iff_false in E. exfalso. apply E. apply existsb_exists.
    exists (tm_domain t, h). split; [|apply Nat.eqb_refl].
    apply list_elem_of_In. exact Hm.
Qed.

(** X12. [Stop] signals shutdown and stops every registered timer: from a
    state where the pending timers are the registered ones, no timer is
    pending afterwards, so no timer goes off any more, and [reschedule]
    arms nothing.  The registry keeps its entries, and the result is nil
    exactly when the workers finished within the 30 seconds. *)
Theorem Stop_cancels_every_timer :
  forall (drained : bool) (w : World),
    sched_inv w ->
    let w' := (Lifecycle.Stop drained w).2 in
    (Lifecycle.Stop drained w).1
    = (if drained then None
       else Some (errorString "timeout waiting for workers to finish"))
    /\ s_ctxDone w' = true
    /\ all_stopped w'
    /\ length (s_timers w') = length (s_timers w)
    /\ s_scheduledDomains w' = s_scheduledDomains w
    /\ (forall h, (Scheduler.fire h w').1 = None /\ (Scheduler.fire h w').2 = w')
    /\ (forall d, Scheduler.reschedule d w' = (tt, w')).
Proof.
  intros drained w Hinv w'. subst w'.
  destruct_world w. unfold sched_inv in Hinv. simpl in Hinv.
  unfold Lifecycle.Stop, Lifecycle.cancel. mrun.
  assert (Hstopped : forall h t, Lifecycle.stop_all wsched wtimers !! h = Some t ->
                                 tm_pending t = false)
    by (apply stop_all_stopped; exact Hinv).
  assert (Hlen : length (Lifecycle.stop_all wsched wtimers) = length wtimers).
  { unfold Lifecycle.stop_all. induction (map_to_list wsched) as [|e l IH]; [reflexivity|].
    simpl. rewrite stop_timer_length. exact IH. }
  destruct drained; simpl;
    (split; [reflexivity|]); (split; [reflexivity|]); (split; [exact Hstopped|]);
    (split; [exact Hlen|]); (split; [reflexivity|]); (split; [|intros d; reflexivity]);
    intros h; unfold Scheduler.fire; mrun;
    destruct (Lifecycle.stop_all wsched wtimers !! h) as [t|] eqn:Hh;
    try (rewrite (Hstopped h t Hh)); split; reflexivity.
Qed.

Lemma Stop_cancels_every_timer_witness :
  s_ctxDone (Lifecycle.Stop true scheduled_world).2 = true
  /\ Scheduler.pending_for "d1" (s_timers (Lifecycle.Stop true scheduled_world).2) = [].
Proof.
  destruct (Stop_cancels_every_timer true scheduled_world
              (proj1 (ScheduleDomain_good sample_domain sample_world
                        (sched_good_fresh sample_world eq_refl eq_refl))))
    as (_ & Hdone & Hall & _).
  split; [exact Hdone|].
  apply filter_nil_all. intros k x Hk. rewrite (Hall k x Hk). reflexivity.
Defined.

(** ** The web handlers for adding and deleting a domain *)

Lemma sched_good_same (w w' : World) :
  s_timers w' = s_timers w -> s_scheduledDomains w' = s_scheduledDomains w ->
  sched_good w -> sched_good w'.
Proof.
  intros Ht Hm [Hinv Hwf]. split.
  - intros h t. rewrite Ht, Hm. apply Hinv.
  - intros id h. rewrite Ht, Hm. apply Hwf.
Qed.

Lemma Delete_driver_error (fk : bool) (id msg : string) (rest : list (option string))
      (w : World) :
  w_db w = Some msg :: rest ->
  (Domains.Delete fk id w).1
  = Some (Errorf_w "failed to delete domain: " (errorString msg))
  /\ t_domains (Domains.Delete fk id w).2 = t_domains w
  /\ t_alerts (Domains.Delete fk id w).2 = t_alerts w
  /\ s_timers (Domains.Delete fk id w).2 = s_timers w
  /\ s_scheduledDomains (Domains.Delete fk id w).2 = s_scheduledDomains w.
Proof.
  intros Hdb. destruct_world w. simpl in Hdb. subst wdb.
  unfold Domains.Delete, DB.driver_call. mrun. repeat split.
Qed.

Lemma eqb_empty_false (id : string) : id <> "" -> String.eqb id "" = false.
Proof. intros H. apply String.eqb_neq. exact H. Qed.

(** X13. [handleDeleteDomain] with a healthy database: for a stored
    domain the answer is 200, the row is gone and no timer is pending or
    registered for it; for an id that is not stored the answer is the
    error page with status 500 (not 404).  An empty id is refused with
    status 400 before anything is touched. *)
Theorem handleDeleteDomain_removes :
  forall (fk : bool) (id : string) (w : World),
    db_healthy w -> sched_good w -> id <> "" ->
    let r := (WebDomains.handleDeleteDomain fk id w).1 in
    let w' := (WebDomains.handleDeleteDomain fk id w).2 in
    r = (if stored id w then Web.mkResponse 200 ""
         else Web.mkResponse 500
                ("Failed to delete domain: domain not found: " +:+ id))
    /\ stored id w' = false
    /\ Scheduler.pending_for id (s_timers w') = []
    /\ s_scheduledDomains w' !! id = None
    /\ WebDomains.handleDeleteDomain fk "" w
       = (Web.mkResponse 400 "Domain ID is required", w).
Proof.
  intros fk id w Hh [Hinv Hwf] Hid r w'. subst r w'.
  unfold WebDomains.handleDeleteDomain.
  rewrite (eqb_empty_false id Hid), !bind_run.
  destruct (UnscheduleDomain_run id w)
    as (_ & Hm1 & _ & Hd1 & _ & _ & Hdb1 & _).
  destruct (UnscheduleDomain_inv id w Hinv) as (_ & Hnone).
  remember (Scheduler.UnscheduleDomain id w).2 as w1.
  assert (Hh1 : db_healthy w1) by (unfold db_healthy; rewrite Hdb1; exact Hh).
  destruct (Delete_healthy fk id w1 Hh1) as (Hr & Hdoms & _ & Ht2 & Hm2 & _).
  assert (Hst : stored id w1 = stored id w) by (unfold stored; rewrite Hd1; reflexivity).
  rewrite Hr, Hst.
  assert (Hgone : stored id (Domains.Delete fk id w1).2 = false).
  { unfold stored. rewrite Hdoms.
    apply (existsb_filter_out (fun r => String.eqb (d_ID r) id)). }
  destruct (stored id w); cbn [fst snd ret]; rewrite Ht2, Hm2, Hm1;
    (split; [reflexivity|]); (split; [exact Hgone|]); (split; [exact Hnone|]);
    (split; [apply lookup_delete_eq | reflexivity]).
Qed.

Lemma handleDeleteDomain_removes_witness :
  (WebDomains.handleDeleteDomain false "d1" scheduled_world).1 = Web.mkResponse 200 ""
  /\ stored "d1" (WebDomains.handleDeleteDomain false "d1" scheduled_world).2 = false.
Proof.
  destruct (handleDeleteDomain_removes false "d1" scheduled_world ltac:(constructor)
              (ScheduleDomain_good sample_domain sample_world
                 (sched_good_fresh sample_world eq_refl eq_refl))
              ltac:(discriminate))
    as (Hr & Hgone & _).
  split; [exact Hr | exact Hgone].
Defined.

(** X14. [handleDeleteDomain] unschedules before it deletes: when the
    delete statement fails, the answer is the error page with status 500
    and the row is still stored, but the domain's timer has been stopped
    and its registry entry removed, so the domain stays in the table
    without any check pending for it. *)
Theorem handleDeleteDomain_failure_stops_monitoring :
  forall (fk : bool) (id msg : string) (rest : list (option string)) (w : World),
    w_db w = Some msg :: rest -> sched_good w -> id <> "" ->
    let r := (WebDomains.handleDeleteDomain fk id w).1 in
    let w' := (WebDomains.handleDeleteDomain fk id w).2 in
    r = Web.mkResponse 500
          ("Failed to delete domain: failed to delete domain: " +:+ msg)
    /\ t_domains w' = t_domains w
    /\ Scheduler.pending_for id (s_timers w') = []
    /\ s_scheduledDomains w' !! id = None.
Proof.
  intros fk id msg rest w Hdb [Hinv Hwf] Hid r w'. subst r w'.
  unfold WebDomains.handleDeleteDomain.
  rewrite (eqb_empty_false id Hid), !bind_run.
  destruct (UnscheduleDomain_run id w)
    as (_ & Hm1 & _ & Hd1 & _ & _ & Hdb1 & _).
  destruct (UnscheduleDomain_inv id w Hinv) as (_ & Hnone).
  remember (Scheduler.UnscheduleDomain id w).2 as w1.
  rewrite Hdb in Hdb1.
  destruct (Delete_driver_error fk id msg rest w1 Hdb1) as (Hr & Hdoms & _ & Ht2 & Hm2).
  rewrite Hr. cbn [fst snd ret]. rewrite Hdoms, Ht2, Hm2, Hd1, Hm1.
  split; [reflexivity|]. split; [reflexivity|]. split; [exact Hnone | apply lookup_delete_eq].
Qed.

Lemma handleDeleteDomain_failure_stops_monitoring_witness :
  t_domains (WebDomains.handleDeleteDomain false "d1" failing_read_world).2 = [sample_domain]
  /\ Scheduler.pending_for "d1"
       (s_timers (WebDomains.handleDeleteDomain false "d1" failing_read_world).2) = [].
Proof.
  destruct (handleDeleteDomain_failure_stops_monitoring false "d1" "driver: bad connection" []
              failing_read_world eq_refl
              (ScheduleDomain_good sample_domain sample_world
                 (sched_good_fresh sample_world eq_refl eq_refl))
              ltac:(discriminate))
    as (_ & Hd & Hnone & _).
  split; [exact Hd | exact Hnone].
Defined.

Lemma QueryDomain_first_answer (name : string) (info : DomainInfo)
      (rest : list whois_outcome) (w : World) :
  w_whois w = WhoisInfo info :: rest ->
  Whois.QueryDomain Scheduler.whoisSvc name w
  = (Ok info, with_env w (w_now w) (w_later w) (w_db w) (w_http w) rest (w_uuid w)
                       (w_trace w ++ [EvWhois name])).
Proof. intros H. destruct_world w. simpl in H. subst wwhois. reflexivity. Qed.

Lemma time_Now_env (w : World) db http whois tr :
  (time_Now (with_env w (w_now w) (w_later w) db http whois (w_uuid w) tr)).1 = w_now w
  /\ (time_Now (with_env w (w_now w) (w_later w) db http whois (w_uuid w) tr)).2
     = with_env (time_Now w).2 (w_now (time_Now w).2) (w_later (time_Now w).2)
                db http whois (w_uuid w) tr.
Proof. destruct_world w. unfold time_Now, with_env. simpl. destruct wlater; split; reflexivity. Qed.

Lemma time_Now_fields (w : World) :
  (time_Now w).1 = w_now w
  /\ w_uuid (time_Now w).2 = w_uuid w
  /\ w_db (time_Now w).2 = w_db w
  /\ w_trace (time_Now w).2 = w_trace w
  /\ t_config (time_Now w).2 = t_config w.
Proof. destruct_world w. unfold time_Now. simpl. destruct wlater; repeat split. Qed.

Lemma Create_trace (d : Domain) (w : World) :
  w_trace (Domains.Create d w).2 = w_trace w.
Proof.
  destruct_world w. unfold Domains.Create, DB.driver_call. mrun.
  destruct (String.eqb (d_ID d) ""); simpl; destruct wlater; simpl;
    destruct wdb as [|[msg|] rest]; simpl; try reflexivity;
    destruct (DB.contains msg "UNIQUE constraint failed"
              || DB.contains msg "constraint failed"); reflexivity.
Qed.

Lemma ScheduleDomain_trace (d : Domain) (w : World) :
  w_trace (Scheduler.ScheduleDomain d w).2 = w_trace w.
Proof.
  destruct_world w. unfold Scheduler.ScheduleDomain. mrun.
  destruct wlater as [|t1 [|t2 wl]]; simpl;
    destruct (Time_Before wnow (d_NextCheck d)); simpl; reflexivity.
Qed.

(** X15. [handleAddDomain], when the first lookup answers and the
    database is healthy, redirects to "/" having stored one new row under
    a fresh UUID with the looked-up WHOIS data, [LastChecked] the time of
    the call and [NextCheck] 24 hours after the next clock reading: the
    configuration is not read, so the configured monitoring interval
    plays no part in the first check.  Exactly one timer is pending for
    the new domain. *)
Theorem handleAddDomain_first_check_after_24h :
  forall (name : string) (info : DomainInfo) (rest : list whois_outcome) (w : World),
    name <> "" ->
    w_whois w = WhoisInfo info :: rest ->
    db_healthy w -> sched_good w ->
    let w' := (WebDomains.handleAddDomain (Ok name) w).2 in
    (WebDomains.handleAddDomain (Ok name) w).1 = Web.mkResponse 303 "/"
    /\ (exists d,
          t_domains w' = t_domains w ++ [d]
          /\ d_ID d = "uuid-" +:+ itoa (Z.of_nat (w_uuid w))
          /\ d_Name d = name
          /\ d_ExpirationDate d = di_ExpirationDate info
          /\ d_Nameservers d = di_Nameservers info
          /\ d_Registrant d = di_Registrant info
          /\ d_Registrar d = di_Registrar info
          /\ d_LastChecked d = w_now w
          /\ d_NextCheck d = Time_Add (w_now (time_Now w).2) (24 * Hour)
          /\ length (Scheduler.pending_for (d_ID d) (s_timers w')) = 1%nat)
    /\ t_config w' = t_config w
    /\ w_trace w' = w_trace w ++ [EvWhois name].
Proof.
  intros name info rest w Hname Hwhois Hh Hgood w'. subst w'.
  unfold WebDomains.handleAddDomain.
  rewrite (eqb_empty_false name Hname), bind_run, (QueryDomain_first_answer name info rest w Hwhois).
  cbn [fst snd].
  destruct (time_Now_env w (w_db w) (w_http w) rest (w_trace w ++ [EvWhois name])) as [Hn1 Hw1].
  rewrite bind_run, Hn1, Hw1.
  remember (time_Now w).2 as wa.
  destruct (time_Now_fields w) as (_ & Hu_a & Hdb_a & _ & Hc_a). rewrite <- Heqwa in Hu_a, Hdb_a, Hc_a.
  assert (Hsched_a : s_timers wa = s_timers w /\ s_scheduledDomains wa = s_scheduledDomains w
                     /\ t_domains wa = t_domains w).
  { subst wa. destruct (time_Now_untouched w) as (Hd & Ht & Hm & _). auto. }
  destruct Hsched_a as (Ht_a & Hm_a & Hd_a).
  rewrite <- Hu_a.
  destruct (time_Now_env wa (w_db w) (w_http w) rest (w_trace w ++ [EvWhois name])) as [Hn2 Hw2].
  rewrite bind_run, Hn2, Hw2.
  remember (time_Now wa).2 as wb.
  destruct (time_Now_fields wa) as (_ & Hu_b & _ & _ & Hc_b). rewrite <- Heqwb in Hu_b, Hc_b.
  assert (Hsched_b : s_timers wb = s_timers wa /\ s_scheduledDomains wb = s_scheduledDomains wa
                     /\ t_domains wb = t_domains wa).
  { subst wb. destruct (time_Now_untouched wa) as (Hd & Ht & Hm & _). auto. }
  destruct Hsched_b as (Ht_b & Hm_b & Hd_b).
  set (w3 := with_env wb (w_now wb) (w_later wb) (w_db w) (w_http w) rest (w_uuid wa)
                      (w_trace w ++ [EvWhois name])).
  set (d0 := mkDomain "" name (di_ExpirationDate info) (di_Nameservers info)
                      (di_Registrant info) (di_Registrar info) (w_now w)
                      (Time_Add (w_now wa) (24 * Hour)) Time_zero Time_zero).
  assert (Hh3 : db_healthy w3) by exact Hh.
  destruct (Create_healthy d0 w3 Hh3) as (Hr & Hdoms & _ & Hcfg & Ht4 & Hm4 & _ & _ & _).
  rewrite bind_run, Hr. cbn [fst snd].
  remember (Domains.Create d0 w3).2 as w4.
  assert (Hgood4 : sched_good w4).
  { apply (sched_good_same w w4); [| | exact Hgood].
    - rewrite Ht4. unfold w3. simpl. congruence.
    - rewrite Hm4. unfold w3. simpl. congruence. }
  rewrite bind_run. cbn [fst snd ret].
  match goal with |- context [Scheduler.ScheduleDomain ?d w4] => set (d1 := d) end.
  destruct (ScheduleDomain_inv d1 w4 (proj1 Hgood4)) as (_ & Hone).
  destruct (ScheduleDomain_run d1 w4) as (_ & _ & _ & _ & Hd5 & Hc5 & _).
  assert (Htr : w_trace (Scheduler.ScheduleDomain d1 w4).2 = w_trace w ++ [EvWhois name]).
  { rewrite ScheduleDomain_trace. subst w4. rewrite Create_trace. reflexivity. }
  split; [reflexivity|]. split; [|split].
  - exists d1. rewrite Hd5, Hdoms. unfold w3 at 1. simpl t_domains. rewrite Hd_b, Hd_a.
    split; [reflexivity|]. split; [unfold d1, w3; simpl; rewrite Hu_a; reflexivity|].
    repeat (split; [reflexivity|]). rewrite Hone. reflexivity.
  - rewrite Hc5, Hcfg. unfold w3. simpl. congruence.
  - exact Htr.
Qed.

Lemma handleAddDomain_first_check_after_24h_witness :
  (WebDomains.handleAddDomain (Ok "example.org") answering_world).1
  = Web.mkResponse 303 "/"
  /\ w_trace (WebDomains.handleAddDomain (Ok "example.org") answering_world).2
     = [EvWhois "example.org"].
Proof.
  destruct (handleAddDomain_first_check_after_24h "example.org" sample_info []
              answering_world ltac:(discriminate) eq_refl ltac:(constructor)
              (sched_good_fresh answering_world eq_refl eq_refl)) as (Hr & _ & _ & Htr).
  split; [exact Hr | exact Htr].
Defined.

(** X16. [handleAddDomain] stores and schedules nothing when the lookup
    fails: the answer is the error page with status 400 carrying the
    lookup's error, and the domains table and the scheduler are as they
    were.  An empty name is refused with status 400 without any lookup. *)
Theorem handleAddDomain_lookup_failure :
  forall (name : string) (e : error) (w : World),
    name <> "" ->
    (Whois.QueryDomain Scheduler.whoisSvc name w).1 = Err e ->
    (WebDomains.handleAddDomain (Ok name) w).1
    = Web.mkResponse 400 ("Failed to query domain: " +:+ Error e)
    /\ untouched w (WebDomains.handleAddDomain (Ok name) w).2
    /\ WebDomains.handleAddDomain (Ok "") w
       = (Web.mkResponse 400 "Domain name is required", w).
Proof.
  intros name e w Hname Hq. unfold WebDomains.handleAddDomain at 1 2.
  rewrite (eqb_empty_false name Hname), !bind_run, Hq. cbn [fst snd ret].
  split; [reflexivity|]. split; [apply QueryDomain_untouched | reflexivity].
Qed.

Lemma handleAddDomain_lookup_failure_witness :
  (WebDomains.handleAddDomain (Ok "example.com") sample_world).1
  = Web.mkResponse 400
      "Failed to query domain: failed after 3 attempts: WHOIS query timed out after 30s"
  /\ t_domains (WebDomains.handleAddDomain (Ok "example.com") sample_world).2
     = [sample_domain].
Proof.
  destruct (handleAddDomain_lookup_failure "example.com"
              (wrapError "failed after 3 attempts: WHOIS query timed out after 30s"
                         (errorString "WHOIS query timed out after 30s"))
              sample_world ltac:(discriminate) eq_refl) as (Hr & (Hd & _) & _).
  split; [exact Hr | exact Hd].
Defined.

(** ** The configuration: defaults, updates, empty form fields *)

(** X17. [ConfigRepository.Get] on an empty config table with a healthy
    database creates and returns the defaults (check every 24 hours,
    thresholds of 90, 60, 30 and 7 days, 90 days of retention, no webhook,
    id 1), stores them, and a second [Get] returns the same row. *)
Theorem Get_creates_defaults :
  forall w : World,
    db_healthy w -> t_config w = None ->
    exists t,
      (ConfigRepository.Get w).1
      = Ok (mkConfig 1 (24 * Hour) [90 * Day; 60 * Day; 30 * Day; 7 * Day] "" (90 * Day) t)
      /\ t_config (ConfigRepository.Get w).2
         = Some (mkConfig 1 (24 * Hour) [90 * Day; 60 * Day; 30 * Day; 7 * Day] ""
                          (90 * Day) t)
      /\ (ConfigRepository.Get (ConfigRepository.Get w).2).1 = (ConfigRepository.Get w).1.
Proof.
  intros w Hh Hnone.
  assert (Hfirst : exists t,
             (ConfigRepository.Get w).1
             = Ok (mkConfig 1 (24 * Hour) [90 * Day; 60 * Day; 30 * Day; 7 * Day] ""
                            (90 * Day) t)
             /\ t_config (ConfigRepository.Get w).2
                = Some (mkConfig 1 (24 * Hour) [90 * Day; 60 * Day; 30 * Day; 7 * Day] ""
                                 (90 * Day) t)
             /\ db_healthy (ConfigRepository.Get w).2).
  { destruct_world w. simpl in Hnone. subst wcfg. unfold db_healthy in *. simpl in Hh.
    unfold ConfigRepository.Get, ConfigRepository.create, ConfigRepository.createDefaultConfig.
    mrun.
    destruct wdb as [|o1 rest]; [|apply db_healthy_inv in Hh; destruct Hh as [-> Hh];
      destruct rest as [|o2 rest]; [|apply db_healthy_inv in Hh; destruct Hh as [-> Hh]]];
      simpl; destruct wlater as [|t1 [|t2 wl]]; simpl;
      eexists; (split; [reflexivity|]); (split; [reflexivity|]);
      try constructor; assumption. }
  destruct Hfirst as (t & Hr & Hcfg & Hh'). exists t.
  split; [exact Hr|]. split; [exact Hcfg|].
  destruct (Get_stored _ _ Hh' Hcfg) as (Hagain & _). rewrite Hagain, Hr. reflexivity.
Qed.

Lemma Get_creates_defaults_witness :
  exists t,
    (ConfigRepository.Get (world_at dec04 [] None [])).1
    = Ok (mkConfig 1 (24 * Hour) [90 * Day; 60 * Day; 30 * Day; 7 * Day] "" (90 * Day) t).
Proof.
  destruct (Get_creates_defaults (world_at dec04 [] None []) ltac:(constructor) eq_refl)
    as (t & Hr & _).
  exists t. exact Hr.
Defined.

(** X18. [ConfigRepository.Update] followed by [Get], with a healthy
    database, returns the configuration that was written, with id 1
    whatever id was passed and with [UpdatedAt] set by the repository,
    whether or not a row existed before. *)
Theorem Update_then_Get :
  forall (c : Config) (w : World),
    db_healthy w ->
    (ConfigRepository.Update c w).1.2 = None
    /\ exists t,
         (ConfigRepository.Get (ConfigRepository.Update c w).2).1
         = Ok (mkConfig 1 (c_MonitoringInterval c) (c_AlertThresholds c)
                        (c_GoogleChatWebhook c) (c_RetentionPeriod c) t).
Proof.
  intros c w Hh. destruct (Update_healthy c w Hh) as (Hr & Hh' & t & Hcfg).
  split; [exact Hr|]. exists t.
  destruct (Get_stored _ _ Hh' Hcfg) as (Hget & _). exact Hget.
Qed.

Lemma Update_then_Get_witness :
  exists t,
    (ConfigRepository.Get (ConfigRepository.Update sample_config sample_world).2).1
    = Ok (mkConfig 1 (24 * Hour) [90 * Day; 60 * Day; 30 * Day; 7 * Day] "" (90 * Day) t).
Proof.
  destruct (Update_then_Get sample_config sample_world ltac:(constructor)) as (_ & t & H).
  exists t. exact H.
Defined.

(** X19. [handleUpdateConfig] treats its fields unevenly: an empty
    interval, retention or thresholds field keeps the stored value, but
    the webhook is always overwritten, so a form that leaves the webhook
    field empty clears the stored webhook. *)
Theorem handleUpdateConfig_empty_fields :
  forall (c : Config) (url : string) (w : World),
    db_healthy w -> t_config w = Some c ->
    url = "" \/ HasPrefix url "https://" = true ->
    let w' := (Web.handleUpdateConfig (Ok (Web.mkForm "" url "" "")) w).2 in
    (Web.handleUpdateConfig (Ok (Web.mkForm "" url "" "")) w).1
    = Web.mkResponse 303 "/config"
    /\ exists t,
         t_config w'
         = Some (mkConfig 1 (c_MonitoringInterval c) (c_AlertThresholds c) url
                          (c_RetentionPeriod c) t).
Proof.
  intros c url w Hh Hc Hurl w'. subst w'.
  assert (Hweb : negb (String.eqb url "") && negb (HasPrefix url "https://") = false).
  { destruct Hurl as [-> | ->]; [reflexivity | apply andb_false_r]. }
  destruct (Get_stored w c Hh Hc) as (Hget & Hh1 & _).
  unfold Web.handleUpdateConfig. rewrite !bind_run, Hget. cbn [fst snd].
  cbn [Web.monitoring_interval Web.webhook_url Web.retention_period Web.alert_thresholds].
  change (String.eqb "" "") with true. cbn [negb andb].
  rewrite Hweb. unfold Web.parse_alert_thresholds. change (String.eqb "" "") with true.
  cbv iota. rewrite bind_run.
  destruct (Update_healthy (Config_set_webhook c url) _ Hh1) as (Hr & _ & t & Hcfg).
  destruct (ConfigRepository.Update (Config_set_webhook c url) (ConfigRepository.Get w).2)
    as [[c' err] w2] eqn:E.
  simpl in Hr, Hcfg. subst err. cbn [fst snd ret].
  split; [reflexivity|]. exists t. exact Hcfg.
Qed.

Lemma handleUpdateConfig_empty_fields_witness :
  exists t,
    t_config (Web.handleUpdateConfig (Ok empty_form)
                (world_at dec04 []
                   (Some (Config_set_webhook sample_config "https://chat.example/hook")) [])).2
    = Some (mkConfig 1 (24 * Hour) [90 * Day; 60 * Day; 30 * Day; 7 * Day] "" (90 * Day) t).
Proof.
  destruct (handleUpdateConfig_empty_fields
              (Config_set_webhook sample_config "https://chat.example/hook") ""
              (world_at dec04 []
                 (Some (Config_set_webhook sample_config "https://chat.example/hook")) [])
              ltac:(constructor) eq_refl (or_introl eq_refl)) as (_ & t & H).
  exists t. exact H.
Defined.

(** ** Delivery of an alert *)

Lemma SendAlert_attempts :
  forall (a : Alert) (url : string) (w : World),
    url <> "" ->
    let msg := AlertService.FormatAlertMessage a in
    let r := (AlertService.SendAlert a url w).1 in
    let tr := w_trace (AlertService.SendAlert a url w).2 in
    (post_error (next_post 0 w) = None ->
     r = None /\ tr = w_trace w ++ [EvPost url msg])
    /\ (forall e1, post_error (next_post 0 w) = Some e1 ->
                   post_error (next_post 1 w) = None ->
        r = None /\ tr = w_trace w ++ [EvPost url msg; EvSleep Second; EvPost url msg])
    /\ (forall e1 e2, post_error (next_post 0 w) = Some e1 ->
                      post_error (next_post 1 w) = Some e2 ->
                      post_error (next_post 2 w) = None ->
        r = None
        /\ tr = w_trace w ++ [EvPost url msg; EvSleep Second; EvPost url msg;
                              EvSleep (2 * Second); EvPost url msg])
    /\ (forall e1 e2 e3, post_error (next_post 0 w) = Some e1 ->
                         post_error (next_post 1 w) = Some e2 ->
                         post_error (next_post 2 w) = Some e3 ->
        r = Some (wrapError ("failed after 3 attempts: " +:+ Error e3) e3)
        /\ tr = w_trace w ++ [EvPost url msg; EvSleep Second; EvPost url msg;
                              EvSleep (2 * Second); EvPost url msg]).
Proof.
  intros a url w Hurl msg r tr. subst r tr.
  unfold AlertService.SendAlert. rewrite (eqb_empty_false url Hurl).
  fold msg. generalize msg. clear msg. intros msg.
  unfold next_post, post_error. cbn [AlertService.SendAlert_loop].
  unfold AlertService.sendToWebhook. mrun.
  destruct (w_http w) as [|o1 [|o2 [|o3 rest]]]; simpl.
  all: repeat match goal with
              | o : http_outcome |- _ => destruct o as [?code | ?err]
              end; simpl.
  all: repeat match goal with
              | |- context [(?c <? 200) || (300 <=? ?c)] =>
                  destruct ((c <? 200) || (300 <=? c)); simpl
              end.
  all: rewrite <- ?app_assoc; simpl.
  all: split; [intros H1; try discriminate; split; reflexivity|].
  all: split; [intros e1 H1 H2; try discriminate; split; reflexivity|].
  all: split; [intros e1 e2 H1 H2 H3; try discriminate; split; reflexivity|].
  all: intros e1 e2 e3 H1 H2 H3; try discriminate.
  all: inversion H3; subst; split; reflexivity.
Qed.

(** X20. [SendAlert] with a webhook configured posts at most three
    times: it stops at the first answer with a 2xx status, waits one
    second after the first failure and two after the second, and after a
    third failure returns "failed after 3 attempts: <last error>" without
    waiting again. *)
Theorem SendAlert_three_attempts :
  forall (a : Alert) (url : string) (w : World),
    url <> "" ->
    let msg := AlertService.FormatAlertMessage a in
    let r := (AlertService.SendAlert a url w).1 in
    let tr := w_trace (AlertService.SendAlert a url w).2 in
    (post_error (next_post 0 w) = None ->
     r = None /\ tr = w_trace w ++ [EvPost url msg])
    /\ (forall e1, post_error (next_post 0 w) = Some e1 ->
                   post_error (next_post 1 w) = None ->
        r = None /\ tr = w_trace w ++ [EvPost url msg; EvSleep Second; EvPost url msg])
    /\ (forall e1 e2, post_error (next_post 0 w) = Some e1 ->
                      post_error (next_post 1 w) = Some e2 ->
                      post_error (next_post 2 w) = None ->
        r = None
        /\ tr = w_trace w ++ [EvPost url msg; EvSleep Second; EvPost url msg;
                              EvSleep (2 * Second); EvPost url msg])
    /\ (forall e1 e2 e3, post_error (next_post 0 w) = Some e1 ->
                         post_error (next_post 1 w) = Some e2 ->
                         post_error (next_post 2 w) = Some e3 ->
        r = Some (wrapError ("failed after 3 attempts: " +:+ Error e3) e3)
        /\ tr = w_trace w ++ [EvPost url msg; EvSleep Second; EvPost url msg;
                              EvSleep (2 * Second); EvPost url msg]).
Proof. exact SendAlert_attempts. Qed.

Lemma SendAlert_three_attempts_witness :
  (AlertService.SendAlert sample_alert "https://chat.example/hook"
     (with_env sample_world dec04 [] [] [HttpStatus 500; HttpStatus 503; HttpStatus 502]
               [] 0%nat [])).1
  = Some (wrapError "failed after 3 attempts: webhook returned status 502"
                    (errorString "webhook returned status 502")).
Proof.
  destruct (SendAlert_three_attempts sample_alert "https://chat.example/hook"
              (with_env sample_world dec04 [] [] [HttpStatus 500; HttpStatus 503; HttpStatus 502]
                        [] 0%nat [])
              ltac:(discriminate)) as (_ & _ & _ & H).
  apply (H (errorString "webhook returned status 500")
           (errorString "webhook returned status 503")
           (errorString "webhook returned status 502")); reflexivity.
Defined.

(** ** Parsing a WHOIS response *)


Lemma parse_date_first (time_Parse : string -> string -> result Time)
      (formats : list string) (value : string) :
  forall (t0 : Time) (perr : option error),
    match first_parse time_Parse formats value with
    | Some t => WhoisParse.parse_date time_Parse formats value t0 perr = (t, None)
    | None =>
        formats = [] \/
        exists e, WhoisParse.parse_date time_Parse formats value t0 perr = (Time_zero, Some e)
    end.
Proof.
  induction formats as [|f formats IH]; intros t0 perr; simpl.
  - left. reflexivity.
  - destruct (time_Parse f value) as [t|e]; [reflexivity|].
    specialize (IH Time_zero (Some e)).
    destruct (first_parse time_Parse formats value) as [t|]; [exact IH|].
    right. destruct IH as [-> | [e' He']]; [exists e; reflexivity | exists e'; exact He'].
Qed.

Lemma parse_optional_date (time_Parse : string -> string -> result Time)
      (value : string) (perr : option error) :
  (if negb (String.eqb value "")
   then WhoisParse.parse_date time_Parse WhoisParse.dateFormats value Time_zero perr
   else (Time_zero, perr)).1
  = optional_date time_Parse value.
Proof.
  unfold optional_date. destruct (String.eqb value ""); [reflexivity|]. cbn [negb].
  pose proof (parse_date_first time_Parse WhoisParse.dateFormats value Time_zero perr) as H.
  destruct (first_parse time_Parse WhoisParse.dateFormats value) as [t|].
  - rewrite H. reflexivity.
  - destruct H as [H | [e ->]]; [discriminate H | reflexivity].
Qed.

(** X22. [ParseWHOISResponse], once the parser has found a domain,
    depends on the expiration date alone: if one of the five layouts
    parses it, the result is the domain's data with the date given by the
    first layout that parses, whatever the creation and update dates look
    like -- those are left at the zero time when empty or unreadable; if
    no layout parses the expiration date, the result is an error. *)
Theorem ParseWHOISResponse_dates :
  forall (whoisparser_Parse : string -> result WhoisParse.Parsed)
         (time_Parse : string -> string -> result Time)
         (raw : string) (parsed : WhoisParse.Parsed) (dom : WhoisParse.ParsedDomain),
    whoisparser_Parse raw = Ok parsed ->
    WhoisParse.p_Domain parsed = Some dom ->
    match first_parse time_Parse WhoisParse.dateFormats (WhoisParse.pd_ExpirationDate dom) with
    | Some t =>
        WhoisParse.ParseWHOISResponse whoisparser_Parse time_Parse raw
        = Ok (mkDomainInfo (WhoisParse.pd_Domain dom) t (WhoisParse.pd_NameServers dom)
                (WhoisParse.extractRegistrant parsed)
                match WhoisParse.p_Registrar parsed with
                | Some registrar => WhoisParse.Name registrar
                | None => ""
                end
                (optional_date time_Parse (WhoisParse.pd_CreatedDate dom))
                (optional_date time_Parse (WhoisParse.pd_UpdatedDate dom)))
    | None =>
        exists e, WhoisParse.ParseWHOISResponse whoisparser_Parse time_Parse raw = Err e
    end.
Proof.
  intros wparse tparse raw parsed dom Hparse Hdom.
  unfold WhoisParse.ParseWHOISResponse. rewrite Hparse, Hdom.
  pose proof (parse_date_first tparse WhoisParse.dateFormats
                (WhoisParse.pd_ExpirationDate dom) Time_zero None) as Hexp.
  destruct (first_parse tparse WhoisParse.dateFormats (WhoisParse.pd_ExpirationDate dom))
    as [t|].
  - rewrite Hexp.
    pose proof (parse_optional_date tparse (WhoisParse.pd_CreatedDate dom) None) as Hc.
    destruct (if negb (String.eqb (WhoisParse.pd_CreatedDate dom) "")
              then WhoisParse.parse_date tparse WhoisParse.dateFormats
                     (WhoisParse.pd_CreatedDate dom) Time_zero None
              else (Time_zero, None)) as [created perr] eqn:Ec.
    simpl in Hc. subst created.
    pose proof (parse_optional_date tparse (WhoisParse.pd_UpdatedDate dom) perr) as Hu.
    destruct (if negb (String.eqb (WhoisParse.pd_UpdatedDate dom) "")
              then WhoisParse.parse_date tparse WhoisParse.dateFormats
                     (WhoisParse.pd_UpdatedDate dom) Time_zero perr
              else (Time_zero, perr)) as [updated perr'] eqn:Eu.
    simpl in Hu. subst updated. reflexivity.
  - destruct Hexp as [Hnil | [e He]]; [discriminate Hnil|]. rewrite He.
    eexists. reflexivity.
Qed.

Lemma ParseWHOISResponse_dates_witness :
  WhoisParse.ParseWHOISResponse sample_whoisparser sample_time_Parse "Domain Name: example.org"
  = Ok (mkDomainInfo "example.org" dec29 ["ns1.example.org"] "Example Org" ""
                     Time_zero Time_zero).
Proof.
  exact (ParseWHOISResponse_dates sample_whoisparser sample_time_Parse
           "Domain Name: example.org" sample_parsed
           (WhoisParse.mkParsedDomain "example.org" ["ns1.example.org"]
              "before 1995" "n/a" "2025-12-29T00:00:00Z")
           eq_refl eq_refl).
Defined.

(** ** What an alert record says about its delivery *)

Lemma HasAlertBeenSent_healthy (id : string) (th : Duration) (w : World) :
  db_healthy w ->
  exists wA,
    AlertRepository.HasAlertBeenSent id th w
    = (Ok (0 <? Z.of_nat (records_for id th w)), wA)
    /\ db_healthy wA /\ t_alerts wA = t_alerts w /\ w_http wA = w_http w
    /\ deliveries (w_trace wA) = deliveries (w_trace w)
    /\ w_now wA = w_now w /\ w_later wA = w_later w.
Proof.
  intros Hh. destruct (healthy_cases w Hh) as [Hdb | (rest & Hdb & Hrest)];
    destruct_world w; simpl in Hdb; subst wdb;
    unfold AlertRepository.HasAlertBeenSent, records_for, db_healthy; mrun;
    eexists; (split; [reflexivity|]); simpl;
    unfold deliveries; rewrite List.filter_app, length_app; simpl;
    repeat split; try constructor; try assumption; lia.
Qed.

Lemma AlertCreate_healthy (a : Alert) (w : World) :
  db_healthy w ->
  (AlertRepository.Create a w).1.2 = None
  /\ db_healthy (AlertRepository.Create a w).2
  /\ deliveries (w_trace (AlertRepository.Create a w).2) = deliveries (w_trace w)
  /\ exists a', t_alerts (AlertRepository.Create a w).2 = t_alerts w ++ [a']
                /\ summary a' = summary a /\ a_SentAt a' = a_SentAt a.
Proof.
  intros Hh. destruct (healthy_cases w Hh) as [Hdb | (rest & Hdb & Hrest)];
    destruct_world w; simpl in Hdb; subst wdb;
    unfold AlertRepository.Create, db_healthy; mrun;
    destruct (String.eqb (a_ID a) ""); simpl;
    unfold deliveries; rewrite List.filter_app, length_app; simpl;
    (split; [reflexivity|]); (split; [try constructor; try assumption|]); (split; [lia|]);
    eexists; split; reflexivity || (split; reflexivity).
Qed.

Lemma SendAlert_env (a : Alert) (url : string) (w : World) :
  w_db (AlertService.SendAlert a url w).2 = w_db w
  /\ t_alerts (AlertService.SendAlert a url w).2 = t_alerts w.
Proof.
  destruct (SendAlert_frame a url w) as (r & http' & evs & ->).
  destruct_world w. split; reflexivity.
Qed.

(** The record one iteration stores, in terms of what [SendAlert] answers. *)
Lemma evaluate_threshold_send (d : Domain) (cfg : Config) (rem th : Duration) (w : World) :
  db_healthy w -> eligible rem th = true -> records_for (d_ID d) th w = 0%nat ->
  exists (wB : World) (a0 : Alert),
    w_http wB = w_http w
    /\ deliveries (w_trace wB) = deliveries (w_trace w)
    /\ let err := (AlertService.SendAlert a0 (c_GoogleChatWebhook cfg) wB).1 in
       let wC := (AlertService.SendAlert a0 (c_GoogleChatWebhook cfg) wB).2 in
       let w' := (AlertService.evaluate_threshold d cfg rem th w).2 in
       (AlertService.evaluate_threshold d cfg rem th w).1 = None
       /\ deliveries (w_trace w') = deliveries (w_trace wC)
       /\ exists a, t_alerts w' = t_alerts w ++ [a]
                    /\ a_SentAt a = w_now w
                    /\ summary a = (d_ID d, th,
                                    match err with Some _ => false | None => true end,
                                    match err with Some e => Error e | None => "" end).
Proof.
  intros Hh Hel Hz.
  destruct (HasAlertBeenSent_healthy (d_ID d) th w Hh)
    as (wA & Hsent & HhA & HaA & HhttpA & HdelA & HnowA & _).
  rewrite Hz in Hsent. change (0 <? Z.of_nat 0) with false in Hsent.
  unfold AlertService.evaluate_threshold. unfold eligible in Hel. rewrite Hel.
  rewrite bind_run, Hsent. cbn [fst snd negb]. rewrite bind_run.
  destruct (time_Now_fields wA) as (Hn & _ & HdbB & HtrB & _).
  destruct (time_Now_frame wA) as (HaB & _).
  assert (HhttpB : w_http (time_Now wA).2 = w_http wA).
  { clear. destruct_world wA. unfold time_Now. simpl. destruct wlater; reflexivity. }
  rewrite Hn, HnowA.
  remember (time_Now wA).2 as wB.
  set (a0 := SetThreshold (mkAlert "" (d_ID d) (d_Name d) 0 (d_ExpirationDate d)
                                   (w_now w) false "") th).
  exists wB, a0.
  split; [congruence|]. split; [rewrite HtrB; exact HdelA|].
  cbv zeta. rewrite bind_run.
  destruct (SendAlert_env a0 (c_GoogleChatWebhook cfg) wB) as (HdbC & HaC).
  remember (AlertService.SendAlert a0 (c_GoogleChatWebhook cfg) wB) as sent eqn:Hs.
  destruct sent as [err wC]. cbn [fst snd] in *.
  assert (HhC : db_healthy wC) by (unfold db_healthy; rewrite HdbC, HdbB; exact HhA).
  set (a1 := match err with
             | Some e => Alert_set_outcome a0 false (Error e)
             | None => Alert_set_outcome a0 true (a_ErrorMessage a0)
             end).
  destruct (AlertCreate_healthy a1 wC HhC) as (Hr & _ & Hdel & a' & Happ & Hsum & Hat).
  rewrite bind_run.
  destruct (AlertRepository.Create a1 wC) as [[a2 err2] wD] eqn:Ecreate.
  cbn [fst snd] in *. subst err2. cbn [fst snd ret].
  split; [reflexivity|]. split; [exact Hdel|].
  exists a'. split; [rewrite Happ, HaC, HaB, HaA; reflexivity|].
  split; [rewrite Hat; subst a1; destruct err; reflexivity|].
  rewrite Hsum. subst a1. destruct err; reflexivity.
Qed.

Lemma evaluate_threshold_already (d : Domain) (cfg : Config) (rem th : Duration) (w : World) :
  db_healthy w -> records_for (d_ID d) th w <> 0%nat ->
  (AlertService.evaluate_threshold d cfg rem th w).1 = None
  /\ deliveries (w_trace (AlertService.evaluate_threshold d cfg rem th w).2)
     = deliveries (w_trace w)
  /\ t_alerts (AlertService.evaluate_threshold d cfg rem th w).2 = t_alerts w.
Proof.
  intros Hh Hnz. unfold AlertService.evaluate_threshold.
  destruct ((rem <=? th) && (0 <? rem)); [|repeat split].
  destruct (HasAlertBeenSent_healthy (d_ID d) th w Hh) as (wA & Hsent & _ & HaA & _ & HdelA & _).
  rewrite bind_run, Hsent. cbn [fst snd].
  replace (0 <? Z.of_nat (records_for (d_ID d) th w)) with true
    by (symmetry; apply Z.ltb_lt; lia).
  cbn [negb ret fst snd]. repeat split; assumption.
Qed.

Lemma records_for_new (id : string) (th : Z) (w w' : World) (a : Alert) ok msg :
  t_alerts w' = t_alerts w ++ [a] -> summary a = (id, th, ok, msg) ->
  records_for id th w' <> 0%nat.
Proof.
  intros Happ Hsum. unfold summary in Hsum. inversion Hsum; subst.
  unfold records_for. rewrite Happ, matching_app, String.eqb_refl, Z.eqb_refl. simpl. lia.
Qed.

(** X23. A delivery that fails is final.  When a threshold is due, has no
    record yet, a webhook is configured and all three posts fail,
    [EvaluateAlerts]' iteration for that threshold still returns nil and
    stores a record with [Success] false and the message "failed after 3
    attempts: <last error>"; since any record counts as sent, every later
    evaluation of that threshold posts nothing and stores nothing: the
    alert is never delivered. *)
Theorem failed_delivery_is_never_retried :
  forall (d : Domain) (cfg : Config) (rem th : Duration) (w : World) (e1 e2 e3 : error),
    db_healthy w ->
    c_GoogleChatWebhook cfg <> "" ->
    eligible rem th = true ->
    records_for (d_ID d) th w = 0%nat ->
    post_error (next_post 0 w) = Some e1 ->
    post_error (next_post 1 w) = Some e2 ->
    post_error (next_post 2 w) = Some e3 ->
    let w' := (AlertService.evaluate_threshold d cfg rem th w).2 in
    (AlertService.evaluate_threshold d cfg rem th w).1 = None
    /\ (exists a, t_alerts w' = t_alerts w ++ [a]
                  /\ summary a = (d_ID d, th, false, "failed after 3 attempts: " +:+ Error e3))
    /\ deliveries (w_trace w') = (deliveries (w_trace w) + 5)%nat
    /\ (forall rem' w2,
          db_healthy w2 -> t_alerts w2 = t_alerts w' ->
          let w3 := (AlertService.evaluate_threshold d cfg rem' th w2).2 in
          (AlertService.evaluate_threshold d cfg rem' th w2).1 = None
          /\ deliveries (w_trace w3) = deliveries (w_trace w2)
          /\ t_alerts w3 = t_alerts w2).
Proof.
  intros d cfg rem th w e1 e2 e3 Hh Hurl Hel Hz H1 H2 H3 w'. subst w'.
  destruct (evaluate_threshold_send d cfg rem th w Hh Hel Hz)
    as (wB & a0 & Hhttp & HdelB & Hr & Hdel & a & Happ & _ & Hsum).
  assert (Hp : forall i, next_post i wB = next_post i w)
    by (intros i; unfold next_post; rewrite Hhttp; reflexivity).
  destruct (SendAlert_attempts a0 (c_GoogleChatWebhook cfg) wB Hurl) as (_ & _ & _ & Hfail).
  rewrite !Hp in Hfail. destruct (Hfail e1 e2 e3 H1 H2 H3) as (Herr & Htr).
  rewrite Herr in Hsum. simpl in Hsum.
  split; [exact Hr|]. split; [exists a; split; [exact Happ | exact Hsum]|]. split.
  - rewrite Hdel, Htr, deliveries_app, HdelB. reflexivity.
  - intros rem' w2 Hh2 Ha2. apply evaluate_threshold_already; [exact Hh2|].
    apply (records_for_new (d_ID d) th w w2 a false
             ("failed after 3 attempts: " +:+ Error e3)); [|exact Hsum].
    rewrite Ha2. exact Happ.
Qed.

Lemma failed_delivery_is_never_retried_witness :
  exists a,
    t_alerts (AlertService.evaluate_threshold sample_domain hook_config (25 * Day) (30 * Day)
                (hook_world [500; 503; 502])).2 = [a]
    /\ summary a = ("d1", 30 * Day, false,
                    "failed after 3 attempts: webhook returned status 502").
Proof.
  destruct (failed_delivery_is_never_retried sample_domain hook_config (25 * Day) (30 * Day)
              (hook_world [500; 503; 502])
              (errorString "webhook returned status 500")
              (errorString "webhook returned status 503")
              (errorString "webhook returned status 502")
              ltac:(constructor) ltac:(discriminate) eq_refl eq_refl eq_refl eq_refl eq_refl)
    as (_ & (a & Happ & Hsum) & _).
  exists a. split; [exact Happ | exact Hsum].
Defined.

(** X24. When a threshold is due, has no record yet, a webhook is
    configured and the first post is answered with a 2xx status, the
    iteration posts exactly once, without waiting, and stores a record
    with [Success] true, an empty error message and [SentAt] the time of
    the evaluation. *)
Theorem delivered_alert_record :
  forall (d : Domain) (cfg : Config) (rem th : Duration) (w : World),
    db_healthy w ->
    c_GoogleChatWebhook cfg <> "" ->
    eligible rem th = true ->
    records_for (d_ID d) th w = 0%nat ->
    post_error (next_post 0 w) = None ->
    let w' := (AlertService.evaluate_threshold d cfg rem th w).2 in
    (AlertService.evaluate_threshold d cfg rem th w).1 = None
    /\ (exists a, t_alerts w' = t_alerts w ++ [a]
                  /\ a_SentAt a = w_now w
                  /\ summary a = (d_ID d, th, true, ""))
    /\ deliveries (w_trace w') = (deliveries (w_trace w) + 1)%nat.
Proof.
  intros d cfg rem th w Hh Hurl Hel Hz H1 w'. subst w'.
  destruct (evaluate_threshold_send d cfg rem th w Hh Hel Hz)
    as (wB & a0 & Hhttp & HdelB & Hr & Hdel & a & Happ & Hat & Hsum).
  assert (Hp : next_post 0 wB = next_post 0 w)
    by (unfold next_post; rewrite Hhttp; reflexivity).
  destruct (SendAlert_attempts a0 (c_GoogleChatWebhook cfg) wB Hurl) as (Hok & _).
  rewrite Hp in Hok. destruct (Hok H1) as (Herr & Htr).
  rewrite Herr in Hsum.
  split; [exact Hr|]. split; [exists a; split; [exact Happ | split; [exact Hat | exact Hsum]]|].
  rewrite Hdel, Htr, deliveries_app, HdelB. reflexivity.
Qed.

Lemma delivered_alert_record_witness :
  exists a,
    t_alerts (AlertService.evaluate_threshold sample_domain hook_config (25 * Day) (30 * Day)
                (hook_world [204])).2 = [a]
    /\ summary a = ("d1", 30 * Day, true, "").
Proof.
  destruct (delivered_alert_record sample_domain hook_config (25 * Day) (30 * Day)
              (hook_world [204])
              ltac:(constructor) ltac:(discriminate) eq_refl eq_refl eq_refl)
    as (_ & (a & Happ & _ & Hsum) & _).
  exists a. split; [exact Happ | exact Hsum].
Defined.

(** ** A tick whose lookup succeeds *)

(** X25. In a tick whose domain re-read, configuration read and lookup
    succeed and whose update is stored, the stored row takes the
    expiration date, name servers, registrant and registrar of the answer
    as they are, [LastChecked] and [NextCheck] as the clock and the
    configured interval give them, and keeps its id, name and creation
    time; the tick then is the alert evaluation on the refreshed domain
    followed by the reschedule. *)
Theorem checkDomain_stores_lookup_answer :
  forall (id : string) (w w1 w2 w3 w6 : World) (d d2 : Domain) (cfg : Config)
         (info : DomainInfo),
    DomainRepository.GetByID id w = (Ok d, w1) ->
    ConfigRepository.Get w1 = (Ok cfg, w2) ->
    Whois.QueryDomain Scheduler.whoisSvc (d_Name d) w2 = (Ok info, w3) ->
    let now1 := (time_Now w3).1 in
    let now2 := (time_Now (time_Now w3).2).1 in
    let w5 := (time_Now (time_Now w3).2).2 in
    let next := Time_Add now2 (GetMonitoringInterval cfg) in
    DomainRepository.Update (Domain_set_checks (Domain_set_whois d info) now1 next) w5
    = ((d2, None), w6) ->
    let w' := (Scheduler.pipeline id w).2 in
    (exists r,
        List.find (fun r => String.eqb (d_ID r) id) (t_domains w') = Some r
        /\ d_ExpirationDate r = di_ExpirationDate info
        /\ d_Nameservers r = di_Nameservers info
        /\ d_Registrant r = di_Registrant info
        /\ d_Registrar r = di_Registrar info
        /\ d_LastChecked r = now1
        /\ d_NextCheck r = next
        /\ d_ID r = id /\ d_Name r = d_Name d /\ d_CreatedAt r = d_CreatedAt d)
    /\ w' = (Scheduler.reschedule d2 (AlertService.EvaluateAlerts d2 w6).2).2.
Proof.
  intros id w w1 w2 w3 w6 d d2 cfg info Hget Hcfg Hq now1 now2 w5 next Hupd w'.
  destruct (GetByID_found id w w1 d Hget) as [Hfound Hid].
  destruct (Update_stored _ _ _ _ Hupd) as [Hd2 Htable].
  assert (Hrun : Scheduler.pipeline id w
                 = (tt, (Scheduler.reschedule d2 (AlertService.EvaluateAlerts d2 w6).2).2)).
  { unfold Scheduler.pipeline.
    rewrite bind_run, Hget. cbn [fst snd].
    rewrite bind_run, Hcfg. cbn [fst snd].
    rewrite bind_run, Hq. cbn [fst snd].
    rewrite bind_run. rewrite bind_run.
    replace (Domain_set_next (Domain_set_last (Domain_set_whois d info) (time_Now w3).1)
               (Time_Add (time_Now (time_Now w3).2).1 (GetMonitoringInterval cfg)))
      with (Domain_set_checks (Domain_set_whois d info) now1 next) by reflexivity.
    rewrite bind_run. fold w5. rewrite Hupd. cbn [fst snd].
    rewrite bind_run.
    destruct (Scheduler.reschedule d2 (AlertService.EvaluateAlerts d2 w6).2) as [[] w8].
    reflexivity. }
  assert (Hw5 : t_domains w5 = t_domains w).
  { assert (H : untouched w w5).
    { eapply untouched_trans; [apply (GetByID_untouched id w)|]. rewrite Hget. simpl.
      eapply untouched_trans; [apply (Get_untouched w1)|]. rewrite Hcfg. simpl.
      eapply untouched_trans; [apply (QueryDomain_untouched Scheduler.whoisSvc (d_Name d) w2)|].
      rewrite Hq. simpl.
      eapply untouched_trans; [apply (time_Now_untouched w3)|]. apply time_Now_untouched. }
    apply H. }
  assert (Hw' : t_domains w' = t_domains w6).
  { subst w'. rewrite Hrun. simpl. rewrite reschedule_domains.
    apply EvaluateAlerts_untouched. }
  split.
  - exists (DomainRepository.updated_row d2 d). split.
    + rewrite Hw', Htable, Hw5. apply find_updated. exact Hfound.
    + unfold DomainRepository.updated_row. rewrite Hd2. simpl. rewrite String.eqb_refl. simpl.
      repeat split. exact Hid.
  - subst w'. rewrite Hrun. reflexivity.
Qed.

Lemma checkDomain_stores_lookup_answer_witness :
  exists r,
    List.find (fun r => String.eqb (d_ID r) "d1")
              (t_domains (Scheduler.pipeline "d1" refresh_world).2) = Some r
    /\ d_ExpirationDate r = dec29
    /\ d_Registrar r = "Example Registrar"
    /\ d_Name r = "test-alert-domain.com".
Proof.
  edestruct (checkDomain_stores_lookup_answer "d1" refresh_world)
    as ((r & Hr & Hexp & _ & _ & Hreg & _ & _ & _ & Hname & _) & _).
  - vm_compute. reflexivity.
  - vm_compute. reflexivity.
  - vm_compute. reflexivity.
  - vm_compute. reflexivity.
  - exists r. split; [exact Hr|]. split; [exact Hexp|]. split; [exact Hreg | exact Hname].
Defined.

(** ** The worker pool *)

Lemma reschedule_pool (d : Domain) (w : World) :
  s_workerPool (Scheduler.reschedule d w).2 = s_workerPool w.
Proof.
  unfold Scheduler.reschedule, bind, Scheduler.ctx_Done. destruct (s_ctxDone w).
  - reflexivity.
  - apply ScheduleDomain_run.
Qed.

Lemma untouched_pool (w w' : World) : untouched w w' -> s_workerPool w' = s_workerPool w.
Proof. intros H. apply H. Qed.

Lemma refresh_pool (d : Domain) (w : World) :
  s_workerPool
    (bind (DomainRepository.Update d)
          (fun x => let '(d, err) := x in
                    match err with
                    | Some _ => Scheduler.reschedule d
                    | None => bind (AlertService.EvaluateAlerts d)
                                   (fun _ => Scheduler.reschedule d)
                    end) w).2
  = s_workerPool w.
Proof.
  rewrite bind_run.
  destruct (Update_sched d w) as (_ & _ & _ & Hpool & _).
  destruct (DomainRepository.Update d w) as [[d2 [e|]] w1]; cbn [fst snd] in *.
  - rewrite reschedule_pool. exact Hpool.
  - rewrite bind_run, reschedule_pool.
    rewrite (untouched_pool _ _ (EvaluateAlerts_untouched d2 w1)). exact Hpool.
Qed.

Lemma pipeline_pool (id : string) (w : World) :
  s_workerPool (Scheduler.pipeline id w).2 = s_workerPool w.
Proof.
  unfold Scheduler.pipeline. rewrite bind_run.
  pose proof (untouched_pool _ _ (GetByID_untouched id w)) as H1.
  destruct (DomainRepository.GetByID id w) as [[d|e] w1]; cbn [fst snd] in *; [|exact H1].
  rewrite bind_run.
  pose proof (untouched_pool _ _ (Get_untouched w1)) as H2.
  destruct (ConfigRepository.Get w1) as [[cfg|e] w2]; cbn [fst snd] in *.
  2:{ rewrite reschedule_pool. congruence. }
  rewrite bind_run.
  pose proof (untouched_pool _ _ (QueryDomain_untouched Scheduler.whoisSvc (d_Name d) w2)) as H3.
  destruct (Whois.QueryDomain Scheduler.whoisSvc (d_Name d) w2) as [[info|e] w3];
    cbn [fst snd] in *.
  all: rewrite bind_run, bind_run.
  all: pose proof (untouched_pool _ _ (time_Now_untouched w3)) as H4.
  all: pose proof (untouched_pool _ _ (time_Now_untouched (time_Now w3).2)) as H5.
  all: rewrite refresh_pool; congruence.
Qed.

(** X26. A tick holds a worker slot only while its pipeline runs:
    [checkDomain] leaves the number of slots in use as it found it,
    whatever happens in the pipeline, and with all ten slots taken it does
    nothing at all -- it waits, or gives up when shutdown has been
    signalled. *)
Theorem checkDomain_releases_worker_slot :
  forall (id : string) (w : World),
    s_workerPool (Scheduler.checkDomain id w).2 = s_workerPool w
    /\ ((Scheduler.poolCapacity <= s_workerPool w)%nat ->
        Scheduler.checkDomain id w
        = (if s_ctxDone w then Scheduler.Abandoned else Scheduler.Waiting, w))
    /\ ((Scheduler.checkDomain id w).1 = Scheduler.Ran ->
        (s_workerPool w < Scheduler.poolCapacity)%nat).
Proof.
  intros id w.
  assert (Hrun : forall w0 : World,
             s_workerPool w0 = s_workerPool w ->
             s_workerPool
               (bind (Scheduler.set_pool (S (s_workerPool w)))
                  (fun _ => bind (Scheduler.pipeline id)
                     (fun _ => bind Scheduler.get_pool
                        (fun used' => bind (Scheduler.set_pool (Nat.pred used'))
                           (fun _ => ret Scheduler.Ran)))) w0).2
             = s_workerPool w).
  { intros w0 _. rewrite bind_run. cbn [fst snd].
    set (wa := (Scheduler.set_pool (S (s_workerPool w)) w0).2).
    assert (Hwa : s_workerPool wa = S (s_workerPool w)) by reflexivity.
    rewrite bind_run. pose proof (pipeline_pool id wa) as Hp. rewrite Hwa in Hp.
    remember (Scheduler.pipeline id wa).2 as wb. clear Heqwb.
    destruct_world wb. simpl in Hp. subst wpool. reflexivity. }
  unfold Scheduler.checkDomain.
  rewrite bind_run. cbn [Scheduler.ctx_Done fst snd].
  rewrite bind_run. cbn [Scheduler.get_pool fst snd].
  destruct (s_workerPool w <? Scheduler.poolCapacity)%nat eqn:Hfree.
  - apply Nat.ltb_lt in Hfree.
    split; [|split; [intros Hfull; lia | intros _; exact Hfree]].
    destruct (s_ctxDone w) eqn:Hdone; cbn [andb]; rewrite bind_run.
    + unfold select_pick. destruct (w_pick w) as [|b picks] eqn:Hpick; cbn [fst snd].
      * apply Hrun. reflexivity.
      * destruct b; [apply Hrun; reflexivity | reflexivity].
    + cbn [ret fst snd]. apply Hrun. reflexivity.
  - apply Nat.ltb_ge in Hfree. rewrite andb_false_r. rewrite bind_run. cbn [ret fst snd].
    split; [destruct (s_ctxDone w); reflexivity|].
    split; [intros _; destruct (s_ctxDone w); reflexivity|].
    destruct (s_ctxDone w); discriminate.
Qed.

(** ** Validation of configuration updates (C7) *)

(** *** Numerals *)








(** *** The scanner and the trimming on white space *)

Example Sscanf_d_white_space :
  Web.Sscanf_d (nl +:+ "5") = (0, false)
  /\ Web.Sscanf_d (CR +:+ nl +:+ "5") = (0, false)
  /\ Web.Sscanf_d (CR +:+ "5") = (5, true)
  /\ Web.Sscanf_d (NBSP +:+ "5") = (5, true)
  /\ Web.Sscanf_d (IDSP +:+ " -3") = (-3, true)
  /\ Web.Sscanf_d " 12abc" = (12, true)
  /\ Web.Sscanf_d "" = (0, false)
  /\ Web.Sscanf_d "99999999999999999999" = (0, false).
Proof. vm_compute. repeat split. Qed.

Example TrimSpace_white_space :
  Web.TrimSpace (NBSP +:+ "30") = "30"
  /\ Web.TrimSpace ("30" +:+ NBSP) = "30"
  /\ Web.TrimSpace (" " +:+ IDSP +:+ "3 0" +:+ nl +:+ IDSP +:+ " ") = "3 0"
  /\ Web.TrimSpace (NBSP +:+ NBSP) = ""
  /\ Web.TrimSpace ("5" +:+ string_of_bytes [194] +:+ " ") = "5" +:+ string_of_bytes [194].
Proof. vm_compute. repeat split. Qed.

Example Time_Format_date_pads_the_year :
  Time_Format_date Time_zero = "0001-01-01" /\ Time_Format_date dec29 = "2025-12-29".
Proof. vm_compute. split; reflexivity. Qed.

(** *** White space and commas around numerals *)











(** *** The handler's guards on a posted update *)















